(** * Vocly game server (serverVocly.py): a shallow embedding and its properties

    The server is a single-process asyncio program.  Python values are
    modelled as follows.

    - [str] is [string]; [chars] gives its sequence of characters, each
      a code point below 256.  Case mapping is the ASCII one
      ([upper_char]); characters outside [a-z] are left unchanged.  That
      is [str.upper] except on the lower-case letters beyond ASCII,
      181, 223-246 and 248-255, which [str.upper] changes (223 to two
      characters, 181 and 255 to code points above 255): what is
      stated about the outcome of a normalized argument is stated for
      text without them ([upper_agrees]).
    - [int] is [Z]; [float] (clock readings, elapsed times) is [Q]: every
      finite double is a rational, and the rounding of the one
      subtraction the server performs is not modelled.
    - the dictionaries of a room and the client and timer tables are
      [gmap]s; [game_rooms], whose iteration order decides
      [get_player_room], is an insertion-ordered association list.
    - an exception is a value of [PyExn]; a handler is a state
      transformer on [World] that keeps the mutations made before an
      exception was raised.
    - [time.time()] and the random generator read from two oracles
      carried by the state.
    - a coroutine runs from its call to its return without another task
      running in between: the points where a handler awaits a write are
      not modelled as scheduling points.  Log output is left out. *)

From Stdlib Require Import ZArith QArith Ascii String List Lia DecimalString.
From stdpp Require Import base option list gmap strings.

Local Open Scope string_scope.
Local Open Scope list_scope.
Local Open Scope nat_scope.

(** ** Exceptions and the pure error monad *)

Inductive PyExn := KeyError | IndexError | TypeError | AttributeError.

Definition Res (A : Type) : Type := (PyExn + A)%type.

Definition ok {A} (a : A) : Res A := inr a.
Definition throw {A} (e : PyExn) : Res A := inl e.

Definition rbind {A B} (m : Res A) (k : A → Res B) : Res B :=
  match m with
  | inl e => inl e
  | inr a => k a
  end.

Notation "'try' x <- m ; k" := (rbind m (fun x => k))
  (at level 10, x pattern, m at level 100, k at level 200).

(** [seq[i]] raises IndexError out of range, [d[k]] raises KeyError. *)
Definition index {A} (l : list A) (i : nat) : Res A :=
  match l !! i with
  | Some x => ok x
  | None => throw IndexError
  end.

Definition getitem `{Countable K} {V} (d : gmap K V) (k : K) : Res V :=
  match d !! k with
  | Some v => ok v
  | None => throw KeyError
  end.

(** [for i in l: st = body(st, i)], stopping at the first exception. *)
Fixpoint for_loop {S I} (body : S → I → Res S) (st : S) (l : list I) : Res S :=
  match l with
  | [] => ok st
  | i :: l' => try st' <- body st i; for_loop body st' l'
  end.

Definition range (n : nat) : list nat := seq 0 n.

(** ** Strings *)

Definition chars (s : string) : list ascii := list_ascii_of_string s.
Definition len (s : string) : nat := length (chars s).

(** ** Game constants *)

Definition WORD_BANK : list string :=
  [ "REACT"; "FLASK"; "PIANO"; "TIGER"; "STORM"; "BEACH"; "TOWER"; "SMOKE";
    "PLANT"; "CLOUD"; "MAGIC"; "QUEST"; "BRAVE"; "CRISP"; "FROST"; "GLOBE";
    "DREAM"; "FIGHT"; "GRACE"; "HEART"; "JOKER"; "KNIFE"; "LUNAR"; "MOUNT";
    "NIGHT"; "OCEAN"; "PRIDE"; "QUICK"; "RIVER"; "SHINE"; "TRUST"; "UNITY";
    "VALOR"; "WHALE"; "YOUTH"; "ZEBRA"; "APPLE"; "BREAD"; "CHAIR"; "DANCE";
    "EAGLE"; "FLAME"; "GRAPE"; "HOUSE"; "IMAGE"; "JUICE"; "LEMON"; "MOUSE";
    "NURSE"; "PARTY" ].

Definition MAX_GUESSES : Z := 6.
Definition WORD_LENGTH : Z := 5.
Definition GAME_DURATION : Z := 180.

(** ** The guess evaluator: [check_wordle_guess] *)

(** The three feedback strings ['correct'], ['present'], ['absent']. *)
Inductive Mark := correct | present | absent.

Global Instance Mark_eq_dec : EqDecision Mark.
Proof. solve_decision. Defined.

Definition EvalState : Type := (list Mark * gmap ascii Z)%type.

(** [for char in secret: secret_counts[char] = secret_counts.get(char, 0) + 1] *)
Definition count_step (secret_counts : gmap ascii Z) (char : ascii) : gmap ascii Z :=
  <[char := (default 0 (secret_counts !! char) + 1)%Z]> secret_counts.

Definition count_letters (secret : list ascii) : gmap ascii Z :=
  foldl count_step ∅ secret.

(** Pass 1, body of the loop at index [i]. *)
Definition pass1_body (guess secret : list ascii) (st : EvalState) (i : nat)
  : Res EvalState :=
  let '(feedback, secret_counts) := st in
  try g <- index guess i;
  try s <- index secret i;
  if decide (g = s) then
    try n <- getitem secret_counts g;
    ok (<[i := correct]> feedback, <[g := (n - 1)%Z]> secret_counts)
  else ok st.

(** Pass 2, body of the loop at index [i]. *)
Definition pass2_body (guess secret : list ascii) (st : EvalState) (i : nat)
  : Res EvalState :=
  let '(feedback, secret_counts) := st in
  try f <- index feedback i;
  if decide (f = correct) then ok st
  else
    try g <- index guess i;
    if bool_decide (g ∈ secret)
       && bool_decide (0 < default 0 (secret_counts !! g))%Z then
      try n <- getitem secret_counts g;
      ok (<[i := present]> feedback, <[g := (n - 1)%Z]> secret_counts)
    else ok st.

Definition check_wordle_guess (guess secret : string) : Res (list Mark) :=
  let g := chars guess in
  let s := chars secret in
  let feedback := replicate (length s) absent in
  let secret_counts := count_letters s in
  try st1 <- for_loop (pass1_body g s) (feedback, secret_counts) (range (length s));
  try st2 <- for_loop (pass2_body g s) st1 (range (length s));
  ok (fst st2).

(** The positions of [guess] that hold letter [c] and are marked
    correct or present in [fb]. *)
Definition is_marked (c : ascii) (guess : list ascii) (fb : list Mark) (i : nat) : Prop :=
  guess !! i = Some c ∧ (fb !! i = Some correct ∨ fb !! i = Some present).

Global Instance is_marked_dec c guess fb i : Decision (is_marked c guess fb i).
Proof. unfold is_marked. apply _. Defined.

Definition marked_positions (c : ascii) (guess : string) (fb : list Mark) : list nat :=
  filter (is_marked c (chars guess) fb) (seq 0 (length fb)).

(** Occurrences of [c] in a word. *)
Definition occurrences (c : ascii) (w : list ascii) : nat :=
  length (filter (λ x, x = c) w).

(** Number of marked positions for [c] among the indices below [k]. *)
Definition marked_upto (c : ascii) (guess : list ascii) (fb : list Mark) (k : nat) : nat :=
  length (filter (is_marked c guess fb) (seq 0 k)).

(** Loop invariant of pass 1 before iteration [k]. *)
Definition Inv1 (guess secret : list ascii) (k : nat) (st : EvalState) : Prop :=
  length st.1 = length secret ∧
  (∀ i, k ≤ i → i < length secret → st.1 !! i = Some absent) ∧
  (∀ i, st.1 !! i ≠ Some present) ∧
  (∀ i, i < k → st.1 !! i = Some correct ↔ guess !! i = secret !! i) ∧
  (∀ c, c ∈ secret → is_Some (st.2 !! c)) ∧
  (∀ c, default 0%Z (st.2 !! c)
        = (Z.of_nat (occurrences c secret) - Z.of_nat (marked_upto c guess st.1 k))%Z) ∧
  (∀ c, marked_upto c guess st.1 k ≤ occurrences c (take k secret)).

(** Loop invariant of pass 2 before iteration [k]. *)
Definition Inv2 (guess secret : list ascii) (k : nat) (st : EvalState) : Prop :=
  length st.1 = length secret ∧
  (∀ i, k ≤ i → st.1 !! i ≠ Some present) ∧
  (∀ i, i < length secret → st.1 !! i = Some correct ↔ guess !! i = secret !! i) ∧
  (∀ c, default 0%Z (st.2 !! c)
        = (Z.of_nat (occurrences c secret)
           - Z.of_nat (marked_upto c guess st.1 (length secret)))%Z) ∧
  (∀ c, (0 ≤ default 0 (st.2 !! c))%Z).

(** ** Strings: [str.upper] and [str.strip] *)

(** ASCII case mapping; other characters are unchanged.  [str.upper]
    does the same on every code point below 256 but 181, 223-246 and
    248-255. *)
Definition upper_char (c : ascii) : ascii :=
  let n := nat_of_ascii c in
  if (97 <=? n) && (n <=? 122) then ascii_of_nat (n - 32) else c.

(** [str.isspace] on the code points below 256. *)
Definition py_isspace (c : ascii) : bool :=
  let n := nat_of_ascii c in
  ((9 <=? n) && (n <=? 13)) || ((28 <=? n) && (n <=? 32)) || (n =? 133) || (n =? 160).

Fixpoint upper (s : string) : string :=
  match s with
  | EmptyString => EmptyString
  | String c s' => String (upper_char c) (upper s')
  end.

Fixpoint lstrip (s : string) : string :=
  match s with
  | EmptyString => EmptyString
  | String c s' => if py_isspace c then lstrip s' else s
  end.

Fixpoint rstrip (s : string) : string :=
  match s with
  | EmptyString => EmptyString
  | String c s' =>
      match rstrip s' with
      | EmptyString => if py_isspace c then EmptyString else String c EmptyString
      | r => String c r
      end
  end.

(** [s.strip()] removes whitespace at both ends. *)
Definition strip (s : string) : string := rstrip (lstrip s).

(** [str(n)] for an integer. *)
Definition str_of_int (n : Z) : string := NilZero.string_of_int (Z.to_int n).

(** [int(x)] for a float: truncation towards zero. *)
Definition int_of_float (x : Q) : Z := Z.quot (Qnum x) (Zpos (Qden x)).

(** ** Messages *)

(** An f-string with formatted numbers: literal text, [{t:.2f}] and
    [{n}].  The decimal rendering of a float is not computed. *)
Inductive fpart := Lit (s : string) | Fix2 (t : Q) | Dec (n : Z).

(** JSON payloads. *)
#[warnings="-register-all"]
Inductive json :=
| JNull
| JBool (b : bool)
| JInt (n : Z)
| JFloat (t : Q)
| JStr (s : string)
| JFmt (parts : list fpart)
| JList (l : list json)
| JObj (fields : list (string * json)).

(** [{"type": ..., "data": ..., "timestamp": ...}] *)
Record Message := mkMessage {
  msg_type : string;
  msg_data : json;
  timestamp : Q }.

(** [obj.get(key)] on a JSON object. *)
Fixpoint fields_get (key : string) (fields : list (string * json)) : option json :=
  match fields with
  | [] => None
  | (k, v) :: fields' => if decide (k = key) then Some v else fields_get key fields'
  end.

Definition json_get (key : string) (j : json) : option json :=
  match j with
  | JObj fields => fields_get key fields
  | _ => None
  end.

Definition mark_name (m : Mark) : string :=
  match m with
  | correct => "correct"
  | present => "present"
  | absent => "absent"
  end.

(** ** Rooms *)

Inductive RoomState := waiting | ready | playing | finished.

Global Instance RoomState_eq_dec : EqDecision RoomState.
Proof. solve_decision. Defined.

(** The result strings ['won'] and ['lost']. *)
Inductive Outcome := won | lost.

Global Instance Outcome_eq_dec : EqDecision Outcome.
Proof. solve_decision. Defined.

Record Room := mkRoom {
  players : list string;
  word : string;
  state : RoomState;
  start_time : option Q;
  guesses : gmap string (list (string * list Mark));
  finish_times : gmap string (option Q);
  results : gmap string (option Outcome) }.

Definition set_players (f : list string → list string) (r : Room) : Room :=
  mkRoom (f (players r)) (word r) (state r) (start_time r)
         (guesses r) (finish_times r) (results r).
Definition set_state (s : RoomState) (r : Room) : Room :=
  mkRoom (players r) (word r) s (start_time r)
         (guesses r) (finish_times r) (results r).
Definition set_start_time (t : option Q) (r : Room) : Room :=
  mkRoom (players r) (word r) (state r) t
         (guesses r) (finish_times r) (results r).
Definition set_guesses
    (f : gmap string (list (string * list Mark)) → gmap string (list (string * list Mark)))
    (r : Room) : Room :=
  mkRoom (players r) (word r) (state r) (start_time r)
         (f (guesses r)) (finish_times r) (results r).
Definition set_finish_times
    (f : gmap string (option Q) → gmap string (option Q)) (r : Room) : Room :=
  mkRoom (players r) (word r) (state r) (start_time r)
         (guesses r) (f (finish_times r)) (results r).
Definition set_results
    (f : gmap string (option Outcome) → gmap string (option Outcome)) (r : Room) : Room :=
  mkRoom (players r) (word r) (state r) (start_time r)
         (guesses r) (finish_times r) (f (results r)).

(** ** Insertion-ordered dictionaries ([game_rooms]) *)

Section OrderedDict.
Context {V : Type}.

Fixpoint dict_get (k : string) (d : list (string * V)) : option V :=
  match d with
  | [] => None
  | (k', v) :: d' => if decide (k' = k) then Some v else dict_get k d'
  end.

(** [d[k] = v]: an existing key keeps its position, a new key goes last. *)
Fixpoint dict_set (k : string) (v : V) (d : list (string * V)) : list (string * V) :=
  match d with
  | [] => [(k, v)]
  | (k', v') :: d' =>
      if decide (k' = k) then (k, v) :: d' else (k', v') :: dict_set k v d'
  end.

(** [del d[k]] *)
Fixpoint dict_del (k : string) (d : list (string * V)) : list (string * V) :=
  match d with
  | [] => []
  | (k', v') :: d' =>
      if decide (k' = k) then dict_del k d' else (k', v') :: dict_del k d'
  end.

(** In-place mutation of the object stored under [k]. *)
Fixpoint dict_update (k : string) (f : V → V) (d : list (string * V)) : list (string * V) :=
  match d with
  | [] => []
  | (k', v') :: d' =>
      (k', if decide (k' = k) then f v' else v') :: dict_update k f d'
  end.
End OrderedDict.

(** ** The server state *)

(** A timer task created by [asyncio.create_task(timer_game(room_code))]:
    its argument and whether it still sleeps, was cancelled, or ran. *)
Inductive TaskStatus := pending | cancelled | completed.

Global Instance TaskStatus_eq_dec : EqDecision TaskStatus.
Proof. solve_decision. Defined.

Record Task := mkTask {
  task_room : string;
  task_status : TaskStatus }.

(** The three global tables, the timer tasks, and the environment:
    - [ALL_CLIENTS] maps a client id to its writer and room code (the
      reader is used by no operation modelled here); a writer is named
      by a string, and [outbox] records what was written to which
      writer, in order;
    - [clock] and [rng] are the successive results of [time.time()] and
      of the random generator; [clock_reads] and [rng_reads] count the
      calls made so far;
    - [closed] lists the writers closed so far. *)
Record World := mkWorld {
  ALL_CLIENTS : gmap string (string * option string);
  game_rooms : list (string * Room);
  active_timers : gmap string nat;
  tasks : list Task;
  clock : nat → Q;
  clock_reads : nat;
  rng : nat → nat;
  rng_reads : nat;
  outbox : list (string * Message);
  closed : list string }.

Definition set_ALL_CLIENTS
    (f : gmap string (string * option string) → gmap string (string * option string))
    (w : World) : World :=
  mkWorld (f (ALL_CLIENTS w)) (game_rooms w) (active_timers w) (tasks w)
          (clock w) (clock_reads w) (rng w) (rng_reads w) (outbox w) (closed w).
Definition set_game_rooms
    (f : list (string * Room) → list (string * Room)) (w : World) : World :=
  mkWorld (ALL_CLIENTS w) (f (game_rooms w)) (active_timers w) (tasks w)
          (clock w) (clock_reads w) (rng w) (rng_reads w) (outbox w) (closed w).
Definition set_active_timers
    (f : gmap string nat → gmap string nat) (w : World) : World :=
  mkWorld (ALL_CLIENTS w) (game_rooms w) (f (active_timers w)) (tasks w)
          (clock w) (clock_reads w) (rng w) (rng_reads w) (outbox w) (closed w).
Definition set_tasks (f : list Task → list Task) (w : World) : World :=
  mkWorld (ALL_CLIENTS w) (game_rooms w) (active_timers w) (f (tasks w))
          (clock w) (clock_reads w) (rng w) (rng_reads w) (outbox w) (closed w).
Definition set_clock_reads (f : nat → nat) (w : World) : World :=
  mkWorld (ALL_CLIENTS w) (game_rooms w) (active_timers w) (tasks w)
          (clock w) (f (clock_reads w)) (rng w) (rng_reads w) (outbox w) (closed w).
Definition set_rng_reads (f : nat → nat) (w : World) : World :=
  mkWorld (ALL_CLIENTS w) (game_rooms w) (active_timers w) (tasks w)
          (clock w) (clock_reads w) (rng w) (f (rng_reads w)) (outbox w) (closed w).
Definition set_outbox
    (f : list (string * Message) → list (string * Message)) (w : World) : World :=
  mkWorld (ALL_CLIENTS w) (game_rooms w) (active_timers w) (tasks w)
          (clock w) (clock_reads w) (rng w) (rng_reads w) (f (outbox w)) (closed w).
Definition set_closed (f : list string → list string) (w : World) : World :=
  mkWorld (ALL_CLIENTS w) (game_rooms w) (active_timers w) (tasks w)
          (clock w) (clock_reads w) (rng w) (rng_reads w) (outbox w) (f (closed w)).

(** ** The handler monad: state, and exceptions that keep the state *)

Definition M (A : Type) : Type := World → Res A * World.

Definition ret {A} (a : A) : M A := λ w, (ok a, w).
Definition lift {A} (r : Res A) : M A := λ w, (r, w).
Definition bind {A B} (m : M A) (k : A → M B) : M B :=
  λ w, match m w with
       | (inl e, w') => (inl e, w')
       | (inr a, w') => k a w'
       end.
Definition get_world : M World := λ w, (ok w, w).
Definition modify (f : World → World) : M unit := λ w, (ok tt, f w).

Notation "'do' x <- m ; k" := (bind m (fun x => k))
  (at level 10, x pattern, m at level 100, k at level 200).
Notation "m ;; k" := (bind m (fun _ => k))
  (at level 100, k at level 200, right associativity).

(** [for x in l: body(x)] *)
Fixpoint for_each {A} (l : list A) (body : A → M unit) : M unit :=
  match l with
  | [] => ret tt
  | x :: l' => body x ;; for_each l' body
  end.

(** *** Environment: clock and random generator *)

(** [time.time()] *)
Definition time_time : M Q :=
  λ w, (ok (clock w (clock_reads w)), set_clock_reads S w).

(** A random index below [n]. *)
Definition random_below (n : nat) : M nat :=
  λ w, (ok (rng w (rng_reads w) mod n), set_rng_reads S w).

(** [random.choice(l)] *)
Definition random_choice {A} (l : list A) : M A :=
  do i <- random_below (length l);
  lift (index l i).

(** [random.choices(l, k=k)] *)
Fixpoint random_choices {A} (l : list A) (k : nat) : M (list A) :=
  match k with
  | 0 => ret []
  | S k' =>
      do x <- random_choice l;
      do xs <- random_choices l k';
      ret (x :: xs)
  end.

(** [random.randint(a, b)] *)
Definition random_randint (a b : Z) : M Z :=
  do i <- random_below (Z.to_nat (b - a + 1));
  ret (a + Z.of_nat i)%Z.

(** *** Access to the room stored under a code

    A handler holds a reference [room] to the dictionary stored under
    [room_code]; within one handler that reference and
    [game_rooms[room_code]] are the same object, so reads and in-place
    writes go through the code. *)
Definition read_room (room_code : string) : M Room :=
  do w <- get_world;
  match dict_get room_code (game_rooms w) with
  | Some room => ret room
  | None => lift (throw KeyError)
  end.

Definition update_room (room_code : string) (f : Room → Room) : M unit :=
  modify (set_game_rooms (dict_update room_code f)).

(** A float operand: [None] in its place raises TypeError. *)
Definition as_float (t : option Q) : Res Q :=
  match t with
  | Some x => ok x
  | None => throw TypeError
  end.

(** ** Helper functions *)

Definition ROOM_CODE_ALPHABET : list ascii := chars "ABCDEFGHJKLMNPQRSTUVWXYZ23456789".

Definition generate_room_code : M string :=
  do cs <- random_choices ROOM_CODE_ALPHABET 5;
  ret (string_of_list_ascii cs).

Definition generate_client_id : M string :=
  do t <- time_time;
  do r <- random_randint 1000 9999;
  ret ("client_" +:+ str_of_int (int_of_float (t * 1000)) +:+ "_" +:+ str_of_int r).

(** The first room, in insertion order, whose players contain the
    client; [None] stands for the pair [(None, None)]. *)
Definition get_player_room (client_id : string) (rooms : list (string * Room))
  : option (string * Room) :=
  List.find (λ kv, bool_decide (client_id ∈ players kv.2)) rooms.

(** [task.cancel()]: a sleeping task becomes cancelled. *)
Definition cancel (t : Task) : Task :=
  match task_status t with
  | pending => mkTask (task_room t) cancelled
  | _ => t
  end.

Definition stop_timer (room_code : string) : M unit :=
  do w <- get_world;
  match active_timers w !! room_code with
  | Some task =>
      modify (set_tasks (alter cancel task)) ;;
      modify (set_active_timers (delete room_code))
  | None => ret tt
  end.

(** [asyncio.create_task(timer_game(room_code))] *)
Definition create_task (room_code : string) : M nat :=
  do w <- get_world;
  modify (set_tasks (λ ts, ts ++ [mkTask room_code pending])) ;;
  ret (length (tasks w)).

(** ** Message handling *)

Definition send_message (writer : string) (message_type : string) (data : json) : M unit :=
  do t <- time_time;
  modify (set_outbox (λ o, o ++ [(writer, mkMessage message_type data t)])).

Definition broadcast_to_room (room_code : string) (message_type : string) (data : json)
    (exclude_client : option string) : M unit :=
  do w <- get_world;
  match dict_get room_code (game_rooms w) with
  | None => ret tt
  | Some room =>
      for_each (players room) (λ client_id,
        if decide (Some client_id = exclude_client) then ret tt
        else
          do w' <- get_world;
          match ALL_CLIENTS w' !! client_id with
          | Some (writer, _) => send_message writer message_type data
          | None => ret tt
          end)
  end.

Definition error_message (text : string) : json := JObj [("message", JStr text)].

(** ** Game logic *)

(** [all(room['finish_times'][pid] is not None for pid in room['players'])] *)
Fixpoint all_finished (times : gmap string (option Q)) (pids : list string) : Res bool :=
  match pids with
  | [] => ok true
  | pid :: pids' =>
      try t <- getitem times pid;
      match t with
      | None => ok false
      | Some _ => all_finished times pids'
      end
  end.

(** [t1 < t2] on floats. *)
Definition float_lt (t1 t2 : Q) : bool := negb (Qle_bool t2 t1).

(** The result text chosen by [check_game_end] ("Determine winner"). *)
Definition determine_winner (secret : string) (t1 t2 : option Q)
    (r1 r2 : option Outcome) : Res (list fpart) :=
  match r1, r2 with
  | Some lost, Some lost =>
      ok [Lit ("SERI! Kedua pemain kehabisan kesempatan. Kata: " +:+ secret)]
  | Some won, Some lost =>
      try t1 <- as_float t1;
      ok [Lit "Pemain 1 MENANG! ("; Fix2 t1; Lit "s)"]
  | Some lost, Some won =>
      try t2 <- as_float t2;
      ok [Lit "Pemain 2 MENANG! ("; Fix2 t2; Lit "s)"]
  | _, _ =>
      try t1 <- as_float t1;
      try t2 <- as_float t2;
      if float_lt t1 t2 then
        ok [Lit "Pemain 1 MENANG! ("; Fix2 t1; Lit "s vs "; Fix2 t2; Lit "s)"]
      else if float_lt t2 t1 then
        ok [Lit "Pemain 2 MENANG! ("; Fix2 t2; Lit "s vs "; Fix2 t1; Lit "s)"]
      else
        ok [Lit "SERI! ("; Fix2 t1; Lit "s)"]
  end.

Definition check_game_end (room_code : string) : M unit :=
  do w <- get_world;
  match dict_get room_code (game_rooms w) with
  | None => ret tt
  | Some room =>
      if decide (state room ≠ playing) then ret tt
      else
        do finished_all <- lift (all_finished (finish_times room) (players room));
        if negb finished_all then ret tt
        else
          update_room room_code (set_state finished) ;;
          stop_timer room_code ;;
          do p1 <- lift (index (players room) 0);
          do p2 <- lift (index (players room) 1);
          do t1 <- lift (getitem (finish_times room) p1);
          do t2 <- lift (getitem (finish_times room) p2);
          do r1 <- lift (getitem (results room) p1);
          do r2 <- lift (getitem (results room) p2);
          do result <- lift (determine_winner (word room) t1 t2 r1 r2);
          broadcast_to_room room_code "game_over"
            (JObj [("result", JFmt result); ("word", JStr (word room))]) None
  end.

(** How the [asyncio.sleep(GAME_DURATION)] of a timer task ends. *)
Inductive Wake := slept | CancelledError.

(** Body of the loop of [timer_game] over the players. *)
Definition timer_game_body (room_code pid : string) : M unit :=
  do r <- read_room room_code;
  do t <- lift (getitem (finish_times r) pid);
  match t with
  | None =>
      do now <- time_time;
      do t0 <- lift (as_float (start_time r));
      update_room room_code (set_finish_times <[pid := Some (now - t0)%Q]>) ;;
      update_room room_code (set_results <[pid := Some lost]>)
  | Some _ => ret tt
  end.

Definition timer_game (room_code : string) (wake : Wake) : M unit :=
  match wake with
  | CancelledError => ret tt
  | slept =>
      do w <- get_world;
      match dict_get room_code (game_rooms w) with
      | None => ret tt
      | Some room =>
          if decide (state room ≠ playing) then ret tt
          else
            for_each (players room) (timer_game_body room_code) ;;
            modify (set_active_timers (delete room_code)) ;;
            check_game_end room_code
      end
  end.

(** The event loop resumes timer task [task]: a sleeping task has slept
    [GAME_DURATION] seconds, a cancelled one receives CancelledError. *)
Definition resume_timer (task : nat) : M unit :=
  do w <- get_world;
  match tasks w !! task with
  | Some t =>
      match task_status t with
      | pending =>
          modify (set_tasks (<[task := mkTask (task_room t) completed]>)) ;;
          timer_game (task_room t) slept
      | cancelled => timer_game (task_room t) CancelledError
      | completed => ret tt
      end
  | None => ret tt
  end.

(** ** Command handlers *)

(** The dictionary [handle_create_room] stores for a client, with the
    bank word drawn for it. *)
Definition new_room (client_id secret : string) : Room :=
  {| players := [client_id];
     word := upper secret;
     state := waiting;
     start_time := None;
     guesses := {[client_id := []]};
     finish_times := {[client_id := None]};
     results := {[client_id := None]} |}.

Definition handle_create_room (client_id writer : string) : M unit :=
  do room_code <- generate_room_code;
  do secret <- random_choice WORD_BANK;
  modify (set_game_rooms (dict_set room_code (new_room client_id secret))) ;;
  do w <- get_world;
  do _ <- lift (getitem (ALL_CLIENTS w) client_id);
  modify (set_ALL_CLIENTS <[client_id := (writer, Some room_code)]>) ;;
  send_message writer "room_created" (JObj [("room_code", JStr room_code)]).

Definition handle_join_room (client_id writer room_code : string) : M unit :=
  let room_code := strip (upper room_code) in
  do w <- get_world;
  match dict_get room_code (game_rooms w) with
  | None => send_message writer "error" (error_message "Room tidak ditemukan")
  | Some room =>
      if decide (2 ≤ length (players room)) then
        send_message writer "error" (error_message "Room penuh")
      else if decide (state room ≠ waiting) then
        send_message writer "error" (error_message "Game sudah dimulai")
      else
        update_room room_code (set_players (λ ps, ps ++ [client_id])) ;;
        update_room room_code (set_guesses <[client_id := []]>) ;;
        update_room room_code (set_finish_times <[client_id := None]>) ;;
        update_room room_code (set_results <[client_id := None]>) ;;
        update_room room_code (set_state ready) ;;
        do w' <- get_world;
        do _ <- lift (getitem (ALL_CLIENTS w') client_id);
        modify (set_ALL_CLIENTS <[client_id := (writer, Some room_code)]>) ;;
        broadcast_to_room room_code "room_ready"
          (JObj [("message", JStr "Kedua pemain terhubung! Tekan START.");
                 ("player_count", JInt 2)]) None
  end.

Definition handle_start_game (client_id writer : string) : M unit :=
  do w <- get_world;
  match get_player_room client_id (game_rooms w) with
  | None => send_message writer "error" (error_message "Room tidak ditemukan")
  | Some (room_code, room) =>
      if decide (state room ≠ ready) then
        send_message writer "error" (error_message "Game tidak bisa dimulai")
      else
        update_room room_code (set_state playing) ;;
        do now <- time_time;
        update_room room_code (set_start_time (Some now)) ;;
        for_each (players room) (λ pid,
          update_room room_code (set_finish_times <[pid := None]>) ;;
          update_room room_code (set_results <[pid := None]>) ;;
          update_room room_code (set_guesses <[pid := []]>)) ;;
        broadcast_to_room room_code "game_started"
          (JObj [("message", JStr "Game dimulai!");
                 ("word_length", JInt WORD_LENGTH);
                 ("max_guesses", JInt MAX_GUESSES);
                 ("duration", JInt GAME_DURATION)]) None ;;
        do task <- create_task room_code;
        modify (set_active_timers <[room_code := task]>)
  end.

Definition handle_make_guess (client_id writer guess : string) : M unit :=
  let guess := strip (upper guess) in
  do w <- get_world;
  match get_player_room client_id (game_rooms w) with
  | None => send_message writer "error" (error_message "Game tidak aktif")
  | Some (room_code, room) =>
      if decide (state room ≠ playing) then
        send_message writer "error" (error_message "Game tidak aktif")
      else
        do t <- lift (getitem (finish_times room) client_id);
        match t with
        | Some _ => ret tt
        | None =>
            if decide (Z.of_nat (len guess) ≠ WORD_LENGTH) then
              send_message writer "error"
                (JObj [("message", JFmt [Lit "Tebakan harus "; Dec WORD_LENGTH; Lit " huruf"])])
            else
              let secret := word room in
              do feedback <- lift (check_wordle_guess guess secret);
              do history <- lift (getitem (guesses room) client_id);
              update_room room_code
                (set_guesses <[client_id := history ++ [(guess, feedback)]]>) ;;
              let guess_count := Z.of_nat (length (history ++ [(guess, feedback)])) in
              let is_correct := bool_decide (guess = secret) in
              send_message writer "guess_result"
                (JObj [("guess", JStr guess);
                       ("feedback", JList (map (λ m, JStr (mark_name m)) feedback));
                       ("guess_count", JInt guess_count);
                       ("is_correct", JBool is_correct)]) ;;
              broadcast_to_room room_code "opponent_guessed"
                (JObj [("guess_count", JInt guess_count)]) (Some client_id) ;;
              if is_correct then
                do now <- time_time;
                do t0 <- lift (as_float (start_time room));
                let elapsed := (now - t0)%Q in
                update_room room_code (set_finish_times <[client_id := Some elapsed]>) ;;
                update_room room_code (set_results <[client_id := Some won]>) ;;
                send_message writer "player_finished"
                  (JObj [("result", JStr "won");
                         ("time", JFloat elapsed);
                         ("message", JStr "Benar! Menunggu lawan...")]) ;;
                check_game_end room_code
              else if decide (MAX_GUESSES ≤ guess_count)%Z then
                do now <- time_time;
                do t0 <- lift (as_float (start_time room));
                let elapsed := (now - t0)%Q in
                update_room room_code (set_finish_times <[client_id := Some elapsed]>) ;;
                update_room room_code (set_results <[client_id := Some lost]>) ;;
                send_message writer "player_finished"
                  (JObj [("result", JStr "lost");
                         ("time", JFloat elapsed);
                         ("message", JStr ("Kesempatan habis! Kata: " +:+ secret))]) ;;
                check_game_end room_code
              else ret tt
        end
  end.

(** [{p: v for p in players}] *)
Definition dict_from_keys {V} (keys : list string) (v : V) : gmap string V :=
  foldl (λ d p, <[p := v]> d) ∅ keys.

Definition handle_rematch (client_id writer : string) : M unit :=
  do w <- get_world;
  match get_player_room client_id (game_rooms w) with
  | None => send_message writer "error" (error_message "Tidak bisa rematch")
  | Some (room_code, room) =>
      if decide (state room ≠ finished) then
        send_message writer "error" (error_message "Tidak bisa rematch")
      else
        stop_timer room_code ;;
        let ps := players room in
        do new_word <- random_choice WORD_BANK;
        modify (set_game_rooms (dict_set room_code
          {| players := ps;
             word := upper new_word;
             state := ready;
             start_time := None;
             guesses := dict_from_keys ps [];
             finish_times := dict_from_keys ps None;
             results := dict_from_keys ps None |})) ;;
        broadcast_to_room room_code "rematch_ready"
          (JObj [("message", JStr "Rematch siap! Tekan START.")]) None
  end.

(** ** Client handler *)

(** The payload of the opponent_disconnected notification. *)
Definition disconnect_notice : json :=
  JObj [("message", JStr "Lawan terputus! Kamu MENANG!")].

Definition cleanup_client (client_id writer : string) : M unit :=
  do w <- get_world;
  match get_player_room client_id (game_rooms w) with
  | Some (room_code, room) =>
      if decide (room_code = EmptyString) then ret tt
      else
        stop_timer room_code ;;
        (if decide (state room = ready ∨ state room = playing) then
           broadcast_to_room room_code "opponent_disconnected"
             disconnect_notice (Some client_id)
         else ret tt) ;;
        modify (set_game_rooms (dict_del room_code))
  | None => ret tt
  end ;;
  modify (set_ALL_CLIENTS (delete client_id)) ;;
  modify (set_closed (λ c, c ++ [writer])).

(** The part of [handle_client] that runs when a connection is
    accepted: it generates the client id, sends the welcome message and
    registers the client. *)
Definition welcome_data (client_id : string) : json :=
  JObj [("message", JStr "Vocly Server - AsyncIO");
        ("client_id", JStr client_id);
        ("server_info",
          JObj [("word_length", JInt WORD_LENGTH);
                ("max_guesses", JInt MAX_GUESSES);
                ("game_duration", JInt GAME_DURATION)])].

Definition handle_client (writer : string) : M string :=
  do client_id <- generate_client_id;
  send_message writer "welcome" (welcome_data client_id) ;;
  modify (set_ALL_CLIENTS <[client_id := (writer, None)]>) ;;
  ret client_id.

(** [switch_command]: the router for client commands.  [data] is the
    decoded ["data"] field; [data.get(key)] raises AttributeError when
    [data] is not an object, and so does [.upper()] on a value that is
    not a string.  The result is [True] for the quit command. *)
Definition data_get (key : string) (data : json) : Res (option json) :=
  match data with
  | JObj fields => ok (fields_get key fields)
  | _ => throw AttributeError
  end.

Definition as_str (v : option json) : Res string :=
  match v with
  | Some (JStr s) => ok s
  | _ => throw AttributeError
  end.

Definition switch_command (client_id writer command : string) (data : json) : M bool :=
  if decide (command = "create_room") then
    handle_create_room client_id writer ;; ret false
  else if decide (command = "join_room") then
    do room_code <- lift (data_get "room_code" data);
    do room_code <- lift (as_str room_code);
    handle_join_room client_id writer room_code ;; ret false
  else if decide (command = "start_game") then
    handle_start_game client_id writer ;; ret false
  else if decide (command = "make_guess") then
    do guess <- lift (data_get "guess" data);
    do guess <- lift (as_str guess);
    handle_make_guess client_id writer guess ;; ret false
  else if decide (command = "rematch") then
    handle_rematch client_id writer ;; ret false
  else if decide (command = "QUIT") then
    ret true
  else
    send_message writer "error" (error_message ("Unknown command: " +:+ command)) ;;
    ret false.

(** ** Properties of computations used in the proofs *)

(** [m] keeps [I], whether it returns or raises. *)
Definition preserves {A} (I : World → Prop) (m : M A) : Prop :=
  ∀ w, I w → I (m w).2.

(** [I] only looks at the room registry. *)
Definition about_rooms (I : World → Prop) : Prop :=
  ∀ w w', game_rooms w' = game_rooms w → I w → I w'.

(** The messages a computation appended to the outbox, without their
    timestamps: (writer, type, data). *)
Definition header (e : string * Message) : string * string * json :=
  (e.1, msg_type e.2, msg_data e.2).

Definition sent (w w' : World) (hs : list (string * string * json)) : Prop :=
  ∃ msgs, outbox w' = outbox w ++ msgs ∧ map header msgs = hs.

(** The writers [broadcast_to_room] reaches: those of the players that
    are not excluded and are registered in the client table. *)
Definition recipients (exclude_client : option string) (pids : list string)
    (clients : gmap string (string * option string)) : list string :=
  omap (λ pid, if decide (Some pid = exclude_client) then None
               else fst <$> clients !! pid) pids.

(** [w'] has the tables, tasks and clock of [w]; only the outbox and
    the number of clock reads may differ. *)
Definition same_tables (w w' : World) : Prop :=
  ALL_CLIENTS w' = ALL_CLIENTS w ∧ game_rooms w' = game_rooms w
  ∧ active_timers w' = active_timers w ∧ tasks w' = tasks w
  ∧ closed w' = closed w ∧ clock w' = clock w
  ∧ clock_reads w ≤ clock_reads w'.

(** ** Reading the result text *)

(** What a result text announces: a draw ("SERI!") or a winner
    ("Pemain 1 MENANG!" for the first player of the room, "Pemain 2
    MENANG!" for the second). *)
Inductive Verdict := Draw | Winner (player : nat).

Definition verdict (text : list fpart) : option Verdict :=
  match text with
  | Lit s :: _ =>
      if Strings.String.prefix "SERI!" s then Some Draw
      else if Strings.String.prefix "Pemain 1 MENANG!" s then Some (Winner 1)
      else if Strings.String.prefix "Pemain 2 MENANG!" s then Some (Winner 2)
      else None
  | _ => None
  end.

(** ** Example states *)

(** A room of two players, alice and bob, with secret APPLE, whose
    round started at time 1000. *)
Definition example_room (st : RoomState) (t1 t2 : option Q)
    (r1 r2 : option Outcome) : Room :=
  {| players := ["alice"; "bob"];
     word := "APPLE";
     state := st;
     start_time := Some 1000%Q;
     guesses := {["alice" := []; "bob" := []]};
     finish_times := {["alice" := t1; "bob" := t2]};
     results := {["alice" := r1; "bob" := r2]} |}.

(** A server with that room under code ABCDE, both players connected,
    the timer of the room sleeping, and a clock that reads 1180.100,
    1180.101, ... *)
Definition example_world (room : Room) : World :=
  {| ALL_CLIENTS := {["alice" := ("wa", Some "ABCDE"); "bob" := ("wb", Some "ABCDE")]};
     game_rooms := [("ABCDE", room)];
     active_timers := {["ABCDE" := 0]};
     tasks := [mkTask "ABCDE" pending];
     clock := λ n, ((11801 # 10) + inject_Z (Z.of_nat n) / 1000)%Q;
     clock_reads := 0;
     rng := λ n, n;
     rng_reads := 0;
     outbox := [];
     closed := [] |}.

(** What the loop of [timer_game] over [pids] does to a room [r],
    started at [t0], when the clock has been read [n] times: the
    players of [pids] without a finish time get the elapsed time of a
    later clock reading and the result lost; everything else is kept. *)
Definition expired (clk : nat → Q) (n : nat) (t0 : Q) (pids : list string)
    (r r' : Room) : Prop :=
  players r' = players r ∧ word r' = word r ∧ state r' = state r
  ∧ start_time r' = start_time r ∧ guesses r' = guesses r
  ∧ (∀ p, p ∈ pids → finish_times r !! p = Some None →
          ∃ k, n ≤ k ∧ finish_times r' !! p = Some (Some (clk k - t0)%Q)
               ∧ results r' !! p = Some (Some lost))
  ∧ (∀ p t, finish_times r !! p = Some (Some t) →
            finish_times r' !! p = Some (Some t) ∧ results r' !! p = results r !! p)
  ∧ (∀ p, p ∉ pids →
          finish_times r' !! p = finish_times r !! p ∧ results r' !! p = results r !! p).

(** The integers that occur in a JSON payload. *)
Fixpoint json_ints (j : json) : list Z :=
  match j with
  | JInt n => [n]
  | JList l => flat_map json_ints l
  | JObj fields => flat_map (λ kv, let '(_, v) := kv in json_ints v) fields
  | _ => []
  end.

(** A payload exposes a number when it occurs in it. *)
Definition exposes (data : json) (n : Z) : Prop := n ∈ json_ints data.


(** A string that does not start with whitespace. *)
Definition no_leading_space (s : string) : Prop :=
  match s with
  | EmptyString => True
  | String c _ => py_isspace c = false
  end.

(** ** The room invariant *)

(** One or two players; the three per-player dictionaries have an
    entry for every player; the secret word has the configured length. *)
Definition room_inv (r : Room) : Prop :=
  1 ≤ length (players r) ≤ 2
  ∧ (∀ p, p ∈ players r →
          is_Some (guesses r !! p) ∧ is_Some (finish_times r !! p)
          ∧ is_Some (results r !! p))
  ∧ Z.of_nat (len (word r)) = WORD_LENGTH.

(** The registry is a dictionary (its keys are distinct) and every room
    in it satisfies the room invariant. *)
Definition world_inv (w : World) : Prop :=
  NoDup (game_rooms w).*1 ∧ Forall (λ kv, room_inv kv.2) (game_rooms w).

(** The round of alice and bob: just started; alice has won after 30
    seconds and bob still plays; both have won, after 30 and 45 seconds,
    and the round-end check has not run yet; the round is over. *)
Definition room_started : Room := example_room playing None None None None.
Definition room_one_done : Room :=
  example_room playing (Some 30%Q) None (Some won) None.
Definition room_both_done : Room :=
  example_room playing (Some 30%Q) (Some 45%Q) (Some won) (Some won).
Definition room_over : Room :=
  example_room finished (Some 30%Q) (Some 45%Q) (Some won) (Some won).

(** A server just started, and a whole round on it: alice and bob
    connect, alice creates a room, bob joins it with the code in lower
    case, alice starts the game and guesses the secret at once, bob
    makes six wrong guesses. *)
Definition initial_world : World :=
  {| ALL_CLIENTS := ∅;
     game_rooms := [];
     active_timers := ∅;
     tasks := [];
     clock := λ n, (1000 + inject_Z (Z.of_nat n) / 1000)%Q;
     clock_reads := 0;
     rng := λ n, n;
     rng_reads := 0;
     outbox := [];
     closed := [] |}.

Definition example_round : M unit :=
  do alice <- handle_client "wa";
  do bob <- handle_client "wb";
  handle_create_room alice "wa" ;;
  do w <- get_world;
  do room_code <- lift (index (game_rooms w).*1 0);
  do room <- read_room room_code;
  handle_join_room bob "wb" (" " +:+ room_code +:+ " ") ;;
  handle_start_game bob "wb" ;;
  handle_make_guess alice "wa" (word room) ;;
  for_each (replicate 6 "zzzzz") (handle_make_guess bob "wb").

(** The verdict announced by the payload of a game_over message. *)
Definition result_verdict (data : json) : option Verdict :=
  match json_get "result" data with
  | Some (JFmt text) => verdict text
  | _ => None
  end.

(** ** Further definitions used by the additional properties *)

(** Loop invariant of pass 2 that also records why a position was left
    absent: the count of its letter had run out. *)
Definition Inv2_exhausted (guess secret : list ascii) (k : nat) (st : EvalState) : Prop :=
  Inv2 guess secret k st
  ∧ (∀ c i, i < k → guess !! i = Some c → st.1 !! i = Some absent →
            default 0%Z (st.2 !! c) = 0%Z).

(** Pass 1 run on a guess that may be too short: the counts keep an
    entry for every letter of the secret. *)
Definition counts_cover (secret : list ascii) (st : EvalState) : Prop :=
  ∀ c, c ∈ secret → is_Some (st.2 !! c).

(** The five assignments of [handle_join_room] to the room. *)
Definition joined (client_id : string) (room : Room) : Room :=
  set_state ready
    (set_results <[client_id := None]>
      (set_finish_times <[client_id := None]>
        (set_guesses <[client_id := []]>
          (set_players (λ ps, ps ++ [client_id]) room)))).

(** The body of the reset loop of [handle_start_game], and the room
    after the whole start: state and start time set, then one reset per
    player. *)
Definition reset_player (room : Room) (pid : string) : Room :=
  set_guesses <[pid := []]>
    (set_results <[pid := None]>
      (set_finish_times <[pid := None]> room)).

Definition started (now : Q) (room : Room) : Room :=
  foldl reset_player (set_start_time (Some now) (set_state playing room)) (players room).

(** The room after a guess was recorded, and after a player finished. *)
Definition with_guess (client_id guess : string) (feedback : list Mark)
    (history : list (string * list Mark)) (room : Room) : Room :=
  set_guesses <[client_id := history ++ [(guess, feedback)]]> room.

Definition with_finish (client_id : string) (elapsed : Q) (result : Outcome)
    (room : Room) : Room :=
  set_results <[client_id := Some result]>
    (set_finish_times <[client_id := Some elapsed]> room).

(** The room [handle_rematch] stores in place of a finished one. *)
Definition rematch_room (room : Room) (new_word : string) : Room :=
  {| players := players room;
     word := upper new_word;
     state := ready;
     start_time := None;
     guesses := dict_from_keys (players room) [];
     finish_times := dict_from_keys (players room) None;
     results := dict_from_keys (players room) None |}.

(** ** States the server can be in

    Beyond the room invariant: a room that left the waiting state has
    two players, and a room being played has a start time. *)
Definition room_ok (r : Room) : Prop :=
  room_inv r
  ∧ (state r ≠ waiting → length (players r) = 2)
  ∧ (state r = playing → is_Some (start_time r)).

Definition world_ok (w : World) : Prop :=
  NoDup (game_rooms w).*1 ∧ Forall (λ kv, room_ok kv.2) (game_rooms w).

(** The server state is sound and every client of [clients] is
    connected. *)
Definition server_ok (clients : list string) (w : World) : Prop :=
  world_ok w ∧ ∀ c, c ∈ clients → is_Some (ALL_CLIENTS w !! c).

(** A command argument on which [.upper()] raises AttributeError: a
    missing key ([None]) or a JSON value that is no string. *)
Definition not_a_string (v : option json) : Prop :=
  match v with
  | Some (JStr _) | Some (JFmt _) => False
  | _ => True
  end.

(** The commands [switch_command] knows. *)
Definition known_commands : list string :=
  ["create_room"; "join_room"; "start_game"; "make_guess"; "rematch"; "QUIT"].

(** Rooms on the example server for the other stages of a round: alice
    waits alone in a new room; bob has joined and the round can be
    started. *)
Definition room_waiting : Room := new_room "alice" "APPLE".
Definition room_ready : Room := set_state ready (example_room waiting None None None None).

(** The text on which [upper] is [str.upper]: no character is one of
    the lower-case letters beyond ASCII, which [str.upper] changes: the
    code points 181, 223-246 and 248-255 (247 is the division sign). *)
Definition upper_agrees_char (c : ascii) : bool :=
  let n := nat_of_ascii c in
  negb ((n =? 181) || ((223 <=? n) && negb (n =? 247))).

Definition upper_agrees (s : string) : Prop :=
  Forall (λ c, upper_agrees_char c = true) (chars s).

(** The payload of room_ready. *)
Definition ready_notice : json :=
  JObj [("message", JStr "Kedua pemain terhubung! Tekan START.");
        ("player_count", JInt 2)].

(** A client in two rooms: on a server just started two clients
    connect, each creates a room, and the first joins the room of the
    second with the code the second was sent.  The result is the id of
    the first client.  [two_rooms_then_cleanup] then closes the stream
    of the first client. *)
Definition two_rooms : M string :=
  do first <- handle_client "wa";
  do second <- handle_client "wb";
  handle_create_room first "wa" ;;
  handle_create_room second "wb" ;;
  do w <- get_world;
  do room_code <- lift (index (game_rooms w).*1 1);
  handle_join_room first "wa" room_code ;;
  ret first.

Definition two_rooms_then_cleanup : M unit :=
  do first <- two_rooms;
  cleanup_client first "wa".

(** What a registry shows of its rooms: code, state and players. *)
Definition rooms_summary (w : World) : list (string * RoomState * list string) :=
  (λ kv, (kv.1, state kv.2, players kv.2)) <$> game_rooms w.

(** * Properties *)

(** ** Running handlers: equations of the monad *)

Section RunEquations.
Context {A B : Type}.

Lemma run_bind_ret (a : A) (k : A → M B) w : bind (ret a) k w = k a w.
Proof. reflexivity. Qed.

Lemma run_bind_get_world (k : World → M B) w : bind get_world k w = k w w.
Proof. reflexivity. Qed.

Lemma run_bind_modify f (k : unit → M B) w : bind (modify f) k w = k tt (f w).
Proof. reflexivity. Qed.

Lemma run_bind_lift_ok (a : A) (k : A → M B) w : bind (lift (ok a)) k w = k a w.
Proof. reflexivity. Qed.

Lemma run_bind_lift_throw e (k : A → M B) w :
  bind (lift (throw e)) k w = (throw e, w).
Proof. reflexivity. Qed.

Lemma run_bind_time_time (k : Q → M B) w :
  bind time_time k w = k (clock w (clock_reads w)) (set_clock_reads S w).
Proof. reflexivity. Qed.

Lemma run_bind_ok (m : M A) (k : A → M B) w a w' :
  m w = (ok a, w') → bind m k w = k a w'.
Proof. intros Hm. unfold bind. by rewrite Hm. Qed.

Lemma run_bind_throw (m : M A) (k : A → M B) w e w' :
  m w = (throw e, w') → bind m k w = (throw e, w').
Proof. intros Hm. unfold bind. by rewrite Hm. Qed.

Lemma run_bind_assoc {C} (m : M A) (k : A → M B) (h : B → M C) w :
  bind (bind m k) h w = bind m (λ a, bind (k a) h) w.
Proof. unfold bind. destruct (m w) as [[e|a] w']; reflexivity. Qed.
End RunEquations.

Lemma run_bind_send_message {B} writer ty data (k : unit → M B) w :
  bind (send_message writer ty data) k w
  = k tt (set_outbox (λ o, o ++ [(writer, mkMessage ty data (clock w (clock_reads w)))])
            (set_clock_reads S w)).
Proof. reflexivity. Qed.

Lemma run_bind_update_room {B} room_code f (k : unit → M B) w :
  bind (update_room room_code f) k w
  = k tt (set_game_rooms (dict_update room_code f) w).
Proof. reflexivity. Qed.

Lemma run_bind_random_below {B} n (k : nat → M B) w :
  bind (random_below n) k w = k (rng w (rng_reads w) mod n) (set_rng_reads S w).
Proof. reflexivity. Qed.

Global Opaque bind.

(** ** Ordered dictionaries *)

Section OrderedDictFacts.
Context {V : Type}.
Implicit Types (d : list (string * V)) (k : string).

Lemma dict_get_set k k' v d :
  dict_get k (dict_set k' v d) = if decide (k' = k) then Some v else dict_get k d.
Proof.
  induction d as [|[k0 v0] d IH]; simpl.
  - by destruct (decide (k' = k)).
  - destruct (decide (k0 = k')) as [->|Hne]; simpl.
    + by destruct (decide (k' = k)).
    + rewrite IH. destruct (decide (k0 = k)) as [->|]; [| done].
      by rewrite decide_False by done.
Qed.

Lemma dict_get_del k k' d :
  dict_get k (dict_del k' d) = if decide (k' = k) then None else dict_get k d.
Proof.
  induction d as [|[k0 v0] d IH]; simpl.
  - by destruct (decide (k' = k)).
  - destruct (decide (k0 = k')) as [->|Hne]; simpl.
    + rewrite IH. destruct (decide (k' = k)); done.
    + rewrite IH. destruct (decide (k0 = k)) as [->|]; [| done].
      by rewrite decide_False by done.
Qed.

Lemma dict_get_update k k' f d :
  dict_get k (dict_update k' f d)
  = if decide (k' = k) then f <$> dict_get k d else dict_get k d.
Proof.
  induction d as [|[k0 v0] d IH]; simpl.
  - by destruct (decide (k' = k)).
  - rewrite IH. destruct (decide (k0 = k)) as [->|Hne].
    + destruct (decide (k = k')) as [->|Hne'].
      * by rewrite decide_True by done.
      * by rewrite decide_False by done.
    + done.
Qed.

Lemma dict_update_keys k f d : (dict_update k f d).*1 = d.*1.
Proof. induction d as [|[k0 v0] d IH]; csimpl; [done | by rewrite IH]. Qed.

Lemma dict_set_keys_elem k k' v d : k ∈ (dict_set k' v d).*1 → k = k' ∨ k ∈ d.*1.
Proof.
  induction d as [|[k0 v0] d IH]; simpl.
  - rewrite list_elem_of_singleton. by left.
  - destruct (decide (k0 = k')) as [->|Hne]; simpl; rewrite !elem_of_cons.
    + intros [->|?]; [by left | right; by right].
    + intros [->|Hin]; [right; by left |].
      destruct (IH Hin); [by left | right; by right].
Qed.

Lemma dict_set_NoDup k v d : NoDup d.*1 → NoDup (dict_set k v d).*1.
Proof.
  induction d as [|[k0 v0] d IH]; simpl; intros Hnd.
  - apply NoDup_singleton.
  - apply NoDup_cons in Hnd as [Hnotin Hnd].
    destruct (decide (k0 = k)) as [->|Hne]; simpl.
    + by apply NoDup_cons.
    + apply NoDup_cons. split; [| by apply IH].
      intros Hin. apply dict_set_keys_elem in Hin as [?|?]; done.
Qed.

Lemma dict_del_keys_elem k k' d : k ∈ (dict_del k' d).*1 → k ∈ d.*1.
Proof.
  induction d as [|[k0 v0] d IH]; simpl; [done |].
  destruct (decide (k0 = k')) as [->|Hne]; simpl; rewrite ?elem_of_cons.
  - intros Hin. right. by apply IH.
  - intros [->|Hin]; [by left | right; by apply IH].
Qed.

Lemma dict_del_NoDup k d : NoDup d.*1 → NoDup (dict_del k d).*1.
Proof.
  induction d as [|[k0 v0] d IH]; simpl; intros Hnd; [done |].
  apply NoDup_cons in Hnd as [Hnotin Hnd].
  destruct (decide (k0 = k)) as [->|Hne]; simpl; [by apply IH |].
  apply NoDup_cons. split; [| by apply IH].
  intros Hin. by apply dict_del_keys_elem in Hin.
Qed.

(** With unique keys, every entry is the one [dict_get] finds. *)
Lemma dict_get_elem k v d : NoDup d.*1 → (k, v) ∈ d → dict_get k d = Some v.
Proof.
  induction d as [|[k0 v0] d IH]; simpl; intros Hnd Hin.
  - by apply elem_of_nil in Hin.
  - apply NoDup_cons in Hnd as [Hnotin Hnd].
    apply elem_of_cons in Hin as [Heq|Hin].
    + simplify_eq. by rewrite decide_True by done.
    + destruct (decide (k0 = k)) as [->|Hne]; [| by apply IH].
      destruct Hnotin. apply list_elem_of_fmap. by exists (k, v).
Qed.

Lemma dict_get_Some_elem k v d : dict_get k d = Some v → (k, v) ∈ d.
Proof.
  induction d as [|[k0 v0] d IH]; simpl; [done |].
  destruct (decide (k0 = k)) as [->|Hne].
  - intros [= ->]. by left.
  - intros Hget. right. by apply IH.
Qed.

Lemma dict_set_elem kv k v d : kv ∈ dict_set k v d → kv = (k, v) ∨ kv ∈ d.
Proof.
  induction d as [|[k0 v0] d IH]; simpl.
  - rewrite list_elem_of_singleton. by left.
  - destruct (decide (k0 = k)) as [->|Hne]; rewrite !elem_of_cons.
    + intros [->|?]; [by left | right; by right].
    + intros [->|Hin]; [right; by left |].
      destruct (IH Hin); [by left | right; by right].
Qed.

Lemma dict_del_elem kv k d : kv ∈ dict_del k d → kv ∈ d.
Proof.
  induction d as [|[k0 v0] d IH]; simpl; [done |].
  destruct (decide (k0 = k)) as [->|Hne]; rewrite ?elem_of_cons.
  - intros Hin. right. by apply IH.
  - intros [->|Hin]; [by left | right; by apply IH].
Qed.

Lemma dict_update_elem kv k f d :
  kv ∈ dict_update k f d →
  ∃ v, (kv.1, v) ∈ d ∧ kv.2 = if decide (kv.1 = k) then f v else v.
Proof.
  induction d as [|[k0 v0] d IH]; simpl.
  - intros Hin. by apply elem_of_nil in Hin.
  - rewrite elem_of_cons. intros [->|Hin]; simpl.
    + exists v0. split; [by left | done].
    + destruct (IH Hin) as (v & Hv & Heq). exists v. split; [by right | done].
Qed.
End OrderedDictFacts.

Lemma get_player_room_elem client_id rooms room_code room :
  get_player_room client_id rooms = Some (room_code, room) →
  (room_code, room) ∈ rooms ∧ client_id ∈ players room.
Proof.
  unfold get_player_room. intros Hfind. apply find_some in Hfind as [Hin Hp].
  split; [by apply list_elem_of_In |]. by apply bool_decide_eq_true in Hp.
Qed.

(** ** Computations that keep a property of the state *)

Section Preserves.
Context (I : World → Prop).

Lemma preserves_ret {A} (a : A) : preserves I (ret a).
Proof. by intros w Hw. Qed.

Lemma preserves_lift {A} (r : Res A) : preserves I (lift r).
Proof. by intros w Hw. Qed.

Lemma preserves_get_world : preserves I get_world.
Proof. by intros w Hw. Qed.

Lemma preserves_modify f : (∀ w, I w → I (f w)) → preserves I (modify f).
Proof. intros Hf w Hw. by apply Hf. Qed.

Lemma preserves_bind {A B} (m : M A) (k : A → M B) :
  preserves I m → (∀ a, preserves I (k a)) → preserves I (bind m k).
Proof.
  intros Hm Hk w Hw. specialize (Hm w Hw).
  destruct (m w) as [[e|a] w'] eqn:Hrun; simpl in Hm.
  - by rewrite (run_bind_throw _ _ _ _ _ Hrun).
  - rewrite (run_bind_ok _ _ _ _ _ Hrun). by apply Hk.
Qed.

Lemma preserves_bind_get_world {B} (k : World → M B) :
  (∀ w, I w → I (k w w).2) → preserves I (bind get_world k).
Proof. intros Hk w Hw. rewrite run_bind_get_world. by apply Hk. Qed.

Lemma preserves_for_each {A} (l : list A) (body : A → M unit) :
  (∀ x, preserves I (body x)) → preserves I (for_each l body).
Proof.
  intros Hbody. induction l as [|x l IH]; simpl.
  - apply preserves_ret.
  - apply preserves_bind; [apply Hbody | intros _; apply IH].
Qed.

Hypothesis I_rooms : about_rooms I.

Lemma preserves_frame (f : World → World) :
  (∀ w, game_rooms (f w) = game_rooms w) → preserves I (modify f).
Proof. intros Hf. apply preserves_modify. intros w. by apply I_rooms. Qed.

Lemma preserves_time_time : preserves I time_time.
Proof. intros w. by apply I_rooms. Qed.

Lemma preserves_random_below n : preserves I (random_below n).
Proof. intros w. by apply I_rooms. Qed.

Lemma preserves_random_choice {A} (l : list A) : preserves I (random_choice l).
Proof.
  apply preserves_bind; [apply preserves_random_below | intros i; apply preserves_lift].
Qed.

Lemma preserves_random_choices {A} (l : list A) k : preserves I (random_choices l k).
Proof.
  induction k as [|k IH]; simpl; [apply preserves_ret |].
  apply preserves_bind; [apply preserves_random_choice | intros x].
  apply preserves_bind; [apply IH | intros xs; apply preserves_ret].
Qed.

Lemma preserves_generate_room_code : preserves I generate_room_code.
Proof.
  apply preserves_bind; [apply preserves_random_choices | intros cs; apply preserves_ret].
Qed.

Lemma preserves_generate_client_id : preserves I generate_client_id.
Proof.
  apply preserves_bind; [apply preserves_time_time | intros t].
  apply preserves_bind; [| intros r; apply preserves_ret].
  apply preserves_bind; [apply preserves_random_below | intros i; apply preserves_ret].
Qed.

Lemma preserves_send_message writer ty data : preserves I (send_message writer ty data).
Proof.
  apply preserves_bind; [apply preserves_time_time | intros t].
  by apply preserves_frame.
Qed.

Lemma preserves_stop_timer room_code : preserves I (stop_timer room_code).
Proof.
  apply preserves_bind; [apply preserves_get_world | intros w].
  destruct (active_timers w !! room_code); [| apply preserves_ret].
  apply preserves_bind; [by apply preserves_frame | intros _; by apply preserves_frame].
Qed.

Lemma preserves_create_task room_code : preserves I (create_task room_code).
Proof.
  apply preserves_bind; [apply preserves_get_world | intros w].
  apply preserves_bind; [by apply preserves_frame | intros _; apply preserves_ret].
Qed.

Lemma preserves_broadcast_to_room room_code ty data exclude_client :
  preserves I (broadcast_to_room room_code ty data exclude_client).
Proof.
  apply preserves_bind; [apply preserves_get_world | intros w].
  destruct (dict_get room_code (game_rooms w)); [| apply preserves_ret].
  apply preserves_for_each. intros pid.
  destruct (decide (Some pid = exclude_client)); [apply preserves_ret |].
  apply preserves_bind; [apply preserves_get_world | intros w'].
  destruct (ALL_CLIENTS w' !! pid) as [[writer ?]|]; [| apply preserves_ret].
  apply preserves_send_message.
Qed.
End Preserves.

(** The rooms are the same after a computation that keeps every
    property of the room registry. *)
Lemma game_rooms_preserved {A} (m : M A) w :
  (∀ I, about_rooms I → preserves I m) → game_rooms (m w).2 = game_rooms w.
Proof.
  intros Hm. apply (Hm (λ w', game_rooms w' = game_rooms w)); [| done].
  intros w1 w2 Heq Hw1. congruence.
Qed.

(** ** Messages sent *)

Lemma sent_refl w : sent w w [].
Proof. exists []. by rewrite app_nil_r. Qed.

Lemma sent_trans w1 w2 w3 h1 h2 :
  sent w1 w2 h1 → sent w2 w3 h2 → sent w1 w3 (h1 ++ h2).
Proof.
  intros (m1 & Ho1 & Hh1) (m2 & Ho2 & Hh2). exists (m1 ++ m2).
  rewrite Ho2, Ho1, <- app_assoc, map_app, Hh1, Hh2. done.
Qed.

Lemma same_tables_refl w : same_tables w w.
Proof. unfold same_tables. split_and!; done. Qed.

Lemma same_tables_trans w1 w2 w3 :
  same_tables w1 w2 → same_tables w2 w3 → same_tables w1 w3.
Proof.
  unfold same_tables. intros (? & ? & ? & ? & ? & ? & ?) (? & ? & ? & ? & ? & ? & ?).
  split_and!; try congruence. lia.
Qed.

Lemma send_message_run writer ty data w :
  ∃ w', send_message writer ty data w = (ok tt, w')
        ∧ same_tables w w' ∧ sent w w' [(writer, ty, data)].
Proof.
  unfold send_message. rewrite run_bind_time_time.
  eexists. split; [reflexivity |]. split.
  - unfold same_tables. simpl. split_and!; try done. lia.
  - eexists. split; [reflexivity | done].
Qed.

(** The loop of [broadcast_to_room] over the players. *)
Lemma broadcast_loop_run ty data exclude_client pids w :
  ∃ w', for_each pids (λ client_id,
          if decide (Some client_id = exclude_client) then ret tt
          else
            do w' <- get_world;
            match ALL_CLIENTS w' !! client_id with
            | Some (writer, _) => send_message writer ty data
            | None => ret tt
            end) w = (ok tt, w')
        ∧ same_tables w w'
        ∧ sent w w' (map (λ wr, (wr, ty, data))
                         (recipients exclude_client pids (ALL_CLIENTS w))).
Proof.
  revert w. induction pids as [|pid pids IH]; intros w; simpl.
  - exists w. split; [done |]. split; [apply same_tables_refl | apply sent_refl].
  - destruct (decide (Some pid = exclude_client)) as [Hex|Hex].
    + rewrite run_bind_ret. apply IH.
    + rewrite run_bind_assoc, run_bind_get_world.
      destruct (ALL_CLIENTS w !! pid) as [[writer rc]|] eqn:Hc; simpl.
      * destruct (send_message_run writer ty data w) as (w1 & Hrun1 & Ht1 & Hs1).
        rewrite (run_bind_ok _ _ _ _ _ Hrun1).
        destruct (IH w1) as (w2 & Hrun2 & Ht2 & Hs2).
        exists w2. split; [done |]. split; [by eapply same_tables_trans |].
        destruct Ht1 as (Hcl & _). rewrite Hcl in Hs2.
        apply (sent_trans _ _ _ _ _ Hs1 Hs2).
      * rewrite run_bind_ret. apply IH.
Qed.

Lemma broadcast_to_room_run room_code ty data exclude_client w room :
  dict_get room_code (game_rooms w) = Some room →
  ∃ w', broadcast_to_room room_code ty data exclude_client w = (ok tt, w')
        ∧ same_tables w w'
        ∧ sent w w' (map (λ wr, (wr, ty, data))
                         (recipients exclude_client (players room) (ALL_CLIENTS w))).
Proof.
  intros Hroom. unfold broadcast_to_room. rewrite run_bind_get_world, Hroom.
  apply broadcast_loop_run.
Qed.
(** ** The guess evaluator *)

Example check_apple_paper :
  check_wordle_guess "PAPER" "APPLE" = ok [present; present; correct; present; absent].
Proof. vm_compute. reflexivity. Qed.

Example check_exact_match :
  check_wordle_guess "TIGER" "TIGER" = ok [correct; correct; correct; correct; correct].
Proof. vm_compute. reflexivity. Qed.

Example check_disjoint :
  check_wordle_guess "ABCDE" "FGHIJ" = ok [absent; absent; absent; absent; absent].
Proof. vm_compute. reflexivity. Qed.

(** *** Reasoning about indexed loops *)

Section LoopInvariant.
Context {S : Type} (body : S → nat → Res S) (Inv : nat → S → Prop).

(** A loop over [a, a+1, ..., a+m-1] whose body keeps [Inv] never
    raises and ends in a state satisfying [Inv (a + m)]. *)
Lemma for_loop_seq_inv (m a : nat) (st : S) :
  Inv a st →
  (∀ k st, a ≤ k < a + m → Inv k st →
           ∃ st', body st k = ok st' ∧ Inv (Datatypes.S k) st') →
  ∃ st', for_loop body st (seq a m) = ok st' ∧ Inv (a + m) st'.
Proof.
  revert a st. induction m as [|m IH]; intros a st Ha Hstep; simpl.
  - exists st. rewrite Nat.add_0_r. done.
  - destruct (Hstep a st) as (st1 & Hb & H1); [lia | done |].
    rewrite Hb. simpl.
    destruct (IH (Datatypes.S a) st1) as (st2 & Hl & H2); [done | |].
    + intros k st' Hk. apply Hstep. lia.
    + exists st2. split; [done |].
      by replace (a + Datatypes.S m) with (Datatypes.S a + m) by lia.
Qed.

Lemma for_loop_range_inv (n : nat) (st : S) :
  Inv 0 st →
  (∀ k st, k < n → Inv k st →
           ∃ st', body st k = ok st' ∧ Inv (Datatypes.S k) st') →
  ∃ st', for_loop body st (range n) = ok st' ∧ Inv n st'.
Proof.
  intros H0 Hstep. apply (for_loop_seq_inv n 0 st H0).
  intros k st' Hk. apply Hstep. lia.
Qed.
End LoopInvariant.

(** *** Counting lemmas *)

Lemma indicator_iff (P Q : Prop) `{Decision P, Decision Q} :
  (P ↔ Q) → (if decide P then 1 else 0) = (if decide Q then 1 else 0).
Proof. intros HPQ. repeat case_decide; tauto. Qed.

Lemma indicator_false (P : Prop) `{Decision P} :
  ¬ P → (if decide P then 1 else 0) = 0.
Proof. intros HP. case_decide; tauto. Qed.

Lemma marked_upto_S c guess fb k :
  marked_upto c guess fb (S k)
  = marked_upto c guess fb k + (if decide (is_marked c guess fb k) then 1 else 0).
Proof.
  unfold marked_upto. rewrite seq_S, filter_app, length_app. simpl.
  rewrite filter_cons, filter_nil. by case_decide.
Qed.

Lemma is_marked_insert_ne c guess fb i j m :
  i ≠ j → is_marked c guess (<[i := m]> fb) j ↔ is_marked c guess fb j.
Proof. intros Hij. unfold is_marked. by rewrite list_lookup_insert_ne. Qed.

Lemma marked_upto_insert_ge c guess fb i m k :
  k ≤ i → marked_upto c guess (<[i := m]> fb) k = marked_upto c guess fb k.
Proof.
  induction k as [|k IH]; intros Hk; [done |].
  rewrite !marked_upto_S, IH by lia. f_equal.
  apply indicator_iff, is_marked_insert_ne. lia.
Qed.

Lemma marked_upto_insert_lt c guess fb i m g k :
  i < k → k ≤ length fb →
  guess !! i = Some g → fb !! i = Some absent → m ≠ absent →
  marked_upto c guess (<[i := m]> fb) k
  = marked_upto c guess fb k + (if decide (g = c) then 1 else 0).
Proof.
  intros Hik Hk Hg Hfb Hm. induction k as [|k IH]; [lia |].
  rewrite !marked_upto_S. destruct (decide (i = k)) as [->|Hne].
  - rewrite marked_upto_insert_ge by lia.
    rewrite (indicator_false (is_marked c guess fb k)).
    + rewrite Nat.add_0_r. f_equal. apply indicator_iff. unfold is_marked.
      rewrite list_lookup_insert_eq by lia. rewrite Hg.
      destruct m; intuition congruence.
    + unfold is_marked. rewrite Hfb. intuition congruence.
  - rewrite IH by lia.
    rewrite (indicator_iff _ _ (is_marked_insert_ne c guess fb i k m Hne)). lia.
Qed.

Lemma occurrences_cons c x w :
  occurrences c (x :: w) = (if decide (x = c) then 1 else 0) + occurrences c w.
Proof. unfold occurrences. rewrite filter_cons. by case_decide. Qed.

Lemma occurrences_app c w1 w2 :
  occurrences c (w1 ++ w2) = occurrences c w1 + occurrences c w2.
Proof. unfold occurrences. by rewrite filter_app, length_app. Qed.

Lemma occurrences_take_S c w k s :
  w !! k = Some s →
  occurrences c (take (S k) w)
  = occurrences c (take k w) + (if decide (s = c) then 1 else 0).
Proof.
  intros Hs. rewrite (take_S_r _ _ _ Hs), occurrences_app, occurrences_cons.
  change (occurrences c []) with 0. lia.
Qed.

Lemma count_letters_fold w m c :
  default 0%Z (foldl count_step m w !! c)
  = (default 0 (m !! c) + Z.of_nat (occurrences c w))%Z.
Proof.
  revert m. induction w as [|x w IH]; intros m; simpl.
  - unfold occurrences. simpl. lia.
  - rewrite IH, occurrences_cons. unfold count_step.
    rewrite lookup_insert. repeat case_decide; simplify_eq; simpl; lia.
Qed.

Lemma count_letters_fold_Some w m c :
  c ∈ w ∨ is_Some (m !! c) → is_Some (foldl count_step m w !! c).
Proof.
  revert m. induction w as [|x w IH]; intros m [Hc|Hc]; simpl.
  - by apply elem_of_nil in Hc.
  - done.
  - apply IH. apply elem_of_cons in Hc as [->|Hc]; [right | by left].
    unfold count_step. rewrite lookup_insert_eq. by eexists.
  - apply IH. right. unfold count_step. rewrite lookup_insert.
    case_decide; [by eexists | done].
Qed.

(** *** The two passes keep their invariants *)

Lemma pass1_body_inv guess secret k st :
  length guess = length secret → k < length secret →
  Inv1 guess secret k st →
  ∃ st', pass1_body guess secret st k = ok st' ∧ Inv1 guess secret (S k) st'.
Proof.
  intros Hlen Hk (Hl & Habs & Hnp & Hcor & Hsome & Hcnt & Hle).
  destruct st as [fb cnt]; simpl in *.
  destruct (lookup_lt_is_Some_2 guess k) as [g Hg]; [lia |].
  destruct (lookup_lt_is_Some_2 secret k) as [s Hs]; [lia |].
  unfold pass1_body, index. rewrite Hg, Hs. simpl.
  destruct (decide (g = s)) as [->|Hgs].
  - destruct (Hsome s) as [n Hn]; [by eapply list_elem_of_lookup_2 |].
    unfold getitem. rewrite Hn. simpl. eexists; split; [done |].
    assert (Hm : ∀ c, marked_upto c guess (<[k := correct]> fb) (S k)
                      = marked_upto c guess fb k + (if decide (s = c) then 1 else 0)).
    { intros c. rewrite marked_upto_S, marked_upto_insert_ge by lia. f_equal.
      apply indicator_iff. unfold is_marked.
      rewrite list_lookup_insert_eq by lia. rewrite Hg. intuition congruence. }
    unfold Inv1; simpl. split_and!.
    + by rewrite length_insert.
    + intros i Hi Hi2. rewrite list_lookup_insert_ne by lia. apply Habs; lia.
    + intros i. destruct (decide (i = k)) as [->|Hne].
      * rewrite list_lookup_insert_eq by lia. done.
      * rewrite list_lookup_insert_ne by done. apply Hnp.
    + intros i Hi. destruct (decide (i = k)) as [->|Hne].
      * rewrite list_lookup_insert_eq by lia. by rewrite Hg, Hs.
      * rewrite list_lookup_insert_ne by done. apply Hcor. lia.
    + intros c Hc. rewrite lookup_insert. case_decide; [by eexists | by apply Hsome].
    + intros c. rewrite Hm, lookup_insert. specialize (Hcnt c).
      destruct (decide (s = c)) as [->|Hsc]; simpl.
      * rewrite Hn in Hcnt. simpl in Hcnt. lia.
      * lia.
    + intros c. rewrite Hm, (occurrences_take_S c secret k s Hs).
      specialize (Hle c). lia.
  - eexists; split; [done |].
    assert (Hm : ∀ c, marked_upto c guess fb (S k) = marked_upto c guess fb k).
    { intros c. rewrite marked_upto_S, indicator_false; [lia |].
      unfold is_marked. rewrite (Habs k) by lia. intuition congruence. }
    unfold Inv1; simpl. split_and!; try done.
    + intros i Hi Hi2. apply Habs; lia.
    + intros i Hi. destruct (decide (i = k)) as [->|Hne].
      * rewrite (Habs k), Hg, Hs by lia. split; congruence.
      * apply Hcor. lia.
    + intros c. rewrite Hm. apply Hcnt.
    + intros c. rewrite Hm, (occurrences_take_S c secret k s Hs).
      specialize (Hle c). lia.
Qed.

Lemma pass2_body_inv guess secret k st :
  length guess = length secret → k < length secret →
  Inv2 guess secret k st →
  ∃ st', pass2_body guess secret st k = ok st' ∧ Inv2 guess secret (S k) st'.
Proof.
  intros Hlen Hk (Hl & Hnp & Hcor & Hcnt & Hpos).
  destruct st as [fb cnt]; simpl in *.
  destruct (lookup_lt_is_Some_2 fb k) as [f Hf]; [lia |].
  destruct (lookup_lt_is_Some_2 guess k) as [g Hg]; [lia |].
  unfold pass2_body, index. rewrite Hf. simpl.
  destruct (decide (f = correct)) as [->|Hfc].
  - eexists; split; [done |].
    unfold Inv2; simpl. split_and!; try done. intros i Hi. apply Hnp. lia.
  - assert (f = absent) as ->.
    { destruct f; try done. by destruct (Hnp k (Nat.le_refl k)). }
    rewrite Hg. simpl.
    destruct (bool_decide (g ∈ secret)
              && bool_decide (0 < default 0 (cnt !! g))%Z) eqn:Hcond.
    + apply andb_true_iff in Hcond as [_ Hc2]. apply bool_decide_eq_true in Hc2.
      destruct (cnt !! g) as [n|] eqn:Hn; simpl in Hc2; [| lia].
      unfold getitem. rewrite Hn. simpl. eexists; split; [done |].
      unfold Inv2; simpl. split_and!.
      * by rewrite length_insert.
      * intros i Hi. rewrite list_lookup_insert_ne by lia. apply Hnp. lia.
      * intros i Hi. destruct (decide (i = k)) as [->|Hne].
        -- rewrite list_lookup_insert_eq by lia. rewrite <- (Hcor k Hk), Hf.
           split; congruence.
        -- rewrite list_lookup_insert_ne by done. by apply Hcor.
      * intros c.
        rewrite (marked_upto_insert_lt c guess fb k present g) by (done || lia).
        rewrite lookup_insert. specialize (Hcnt c).
        destruct (decide (g = c)) as [->|Hgc]; simpl.
        -- rewrite Hn in Hcnt. simpl in Hcnt. lia.
        -- lia.
      * intros c. rewrite lookup_insert. specialize (Hpos c).
        case_decide; simpl; [lia | done].
    + eexists; split; [done |].
      unfold Inv2; simpl. split_and!; try done. intros i Hi. apply Hnp. lia.
Qed.

Lemma Inv1_initial guess secret :
  Inv1 guess secret 0 (replicate (length secret) absent, count_letters secret).
Proof.
  unfold Inv1; simpl. split_and!.
  - apply length_replicate.
  - intros i _ Hi. by apply lookup_replicate_2.
  - intros i Hi. by apply lookup_replicate in Hi as [? _].
  - intros i Hi. lia.
  - intros c Hc. apply count_letters_fold_Some. by left.
  - intros c. unfold count_letters. rewrite count_letters_fold, lookup_empty.
    unfold marked_upto. simpl. lia.
  - intros c. unfold marked_upto. simpl. lia.
Qed.

Lemma Inv1_final_Inv2 guess secret st :
  Inv1 guess secret (length secret) st → Inv2 guess secret 0 st.
Proof.
  intros (Hl & Habs & Hnp & Hcor & Hsome & Hcnt & Hle).
  unfold Inv2. split_and!; try done.
  intros c. specialize (Hcnt c). specialize (Hle c).
  rewrite take_ge in Hle by lia. lia.
Qed.

(** The evaluator returns on words of equal length, and its feedback
    satisfies the final invariant of pass 2. *)
Lemma check_wordle_guess_inv guess secret :
  len guess = len secret →
  ∃ fb cnt, check_wordle_guess guess secret = ok fb
            ∧ Inv2 (chars guess) (chars secret) (len secret) (fb, cnt).
Proof.
  unfold len. intros Hlen. unfold check_wordle_guess.
  destruct (for_loop_range_inv (pass1_body (chars guess) (chars secret))
              (Inv1 (chars guess) (chars secret)) (length (chars secret))
              (replicate (length (chars secret)) absent, count_letters (chars secret)))
    as (st1 & Hrun1 & HI1).
  { apply Inv1_initial. }
  { intros k st Hk. by apply pass1_body_inv. }
  rewrite Hrun1. simpl.
  destruct (for_loop_range_inv (pass2_body (chars guess) (chars secret))
              (Inv2 (chars guess) (chars secret)) (length (chars secret)) st1)
    as ([fb2 cnt2] & Hrun2 & HI2).
  { by apply Inv1_final_Inv2. }
  { intros k st Hk. by apply pass2_body_inv. }
  rewrite Hrun2. simpl. by exists fb2, cnt2.
Qed.

(** C1 (amended): on words of equal length the evaluator returns a
    feedback of that length; a position is marked correct exactly when
    guess and secret agree there; and for every letter the number of
    positions of the guess marked correct or present is at most the
    number of occurrences of that letter in the secret. *)
Theorem check_wordle_guess_bound (guess secret : string) :
  len guess = len secret →
  ∃ fb, check_wordle_guess guess secret = ok fb
        ∧ length fb = len secret
        ∧ (∀ i, i < len secret →
                fb !! i = Some correct ↔ chars guess !! i = chars secret !! i)
        ∧ ∀ c, length (marked_positions c guess fb) ≤ occurrences c (chars secret).
Proof.
  intros Hlen.
  destruct (check_wordle_guess_inv guess secret Hlen)
    as (fb & cnt & Hrun & Hl & Hnp & Hcor & Hcnt & Hpos).
  simpl in *. exists fb. split_and!; try done.
  intros c. unfold marked_positions.
  change (marked_upto c (chars guess) fb (length fb) ≤ occurrences c (chars secret)).
  rewrite Hl. specialize (Hcnt c). specialize (Hpos c). lia.
Qed.

Lemma check_wordle_guess_bound_witness :
  len "PAPER" = len "APPLE"
  ∧ ∃ fb, check_wordle_guess "PAPER" "APPLE" = ok fb
          ∧ length fb = len "APPLE"
          ∧ (∀ i, i < len "APPLE" →
                  fb !! i = Some correct ↔ chars "PAPER" !! i = chars "APPLE" !! i)
          ∧ ∀ c, length (marked_positions c "PAPER" fb) ≤ occurrences c (chars "APPLE").
Proof.
  split; [reflexivity |]. apply (check_wordle_guess_bound "PAPER" "APPLE"). reflexivity.
Defined.

(** C1 (counterexample): for secret APPLE and guess PAPER the evaluator
    marks two P's (position 0 present, position 2 correct), not exactly
    one. *)
Lemma apple_paper_marks_two_P :
  ¬ ∃ fb, check_wordle_guess "PAPER" "APPLE" = ok fb
          ∧ length (marked_positions "P" "PAPER" fb) = 1.
Proof.
  intros (fb & Hrun & Hone). rewrite check_apple_paper in Hrun.
  injection Hrun as <-. vm_compute in Hone. discriminate.
Qed.

(** ** The round timer *)

(** C5: when the room of a timer no longer exists, or exists in a state
    other than playing, the expiry of the timer changes nothing: the
    whole server state (rooms with their finish times and results,
    timer table, messages sent) is the one before, so no game_over is
    sent; and a cancelled timer changes nothing either. *)
Theorem timer_game_not_playing (w : World) (room_code : string) (wake : Wake) :
  (∀ room, dict_get room_code (game_rooms w) = Some room → state room ≠ playing) →
  timer_game room_code wake w = (ok tt, w).
Proof.
  intros Hstate. destruct wake; [| done].
  unfold timer_game. rewrite run_bind_get_world.
  destruct (dict_get room_code (game_rooms w)) as [room|] eqn:Hroom; [| done].
  rewrite decide_True; [done |]. by apply Hstate.
Qed.

Lemma timer_game_not_playing_witness :
  (∀ room, dict_get "ABCDE" (game_rooms (example_world room_over)) = Some room →
           state room ≠ playing)
  ∧ timer_game "ABCDE" slept (example_world room_over)
    = (ok tt, example_world room_over).
Proof.
  assert (H : ∀ room,
    dict_get "ABCDE" (game_rooms (example_world room_over)) = Some room →
    state room ≠ playing).
  { intros room [= <-]. simpl. discriminate. }
  split; [exact H |].
  exact (timer_game_not_playing _ "ABCDE" slept H).
Defined.

(** A timer that was cancelled before it is resumed does nothing. *)
Lemma resume_timer_cancelled w task t :
  tasks w !! task = Some t → task_status t = cancelled →
  resume_timer task w = (ok tt, w).
Proof.
  intros Ht Hstatus. unfold resume_timer.
  by rewrite run_bind_get_world, Ht, Hstatus.
Qed.

Lemma read_room_run room_code w room :
  dict_get room_code (game_rooms w) = Some room →
  read_room room_code w = (ok room, w).
Proof. intros Hroom. unfold read_room. by rewrite run_bind_get_world, Hroom. Qed.

(** The loop of [timer_game] never raises on a room that has a start
    time and a finish-time entry for each player of the loop. *)
Lemma timer_loop_run room_code pids : ∀ w r t0,
  dict_get room_code (game_rooms w) = Some r →
  start_time r = Some t0 →
  (∀ p, p ∈ pids → is_Some (finish_times r !! p)) →
  ∃ w' r', for_each pids (timer_game_body room_code) w = (ok tt, w')
    ∧ dict_get room_code (game_rooms w') = Some r'
    ∧ expired (clock w) (clock_reads w) t0 pids r r'
    ∧ clock w' = clock w ∧ clock_reads w ≤ clock_reads w'
    ∧ outbox w' = outbox w ∧ ALL_CLIENTS w' = ALL_CLIENTS w
    ∧ active_timers w' = active_timers w ∧ tasks w' = tasks w.
Proof.
  induction pids as [|pid pids IH]; intros w r t0 Hroom Hstart Hkeys; simpl.
  - exists w, r. split; [done |]. split; [done |]. split; [| by split_and!].
    unfold expired. split_and!; try done. intros p Hp. by apply elem_of_nil in Hp.
  - unfold timer_game_body at 1.
    rewrite run_bind_assoc, (run_bind_ok _ _ _ _ _ (read_room_run _ _ _ Hroom)).
    destruct (Hkeys pid) as [[t|] Ht]; [by left | |].
    + (* already finished: nothing happens *)
      unfold getitem. rewrite Ht, run_bind_assoc, run_bind_lift_ok, run_bind_ret.
      destruct (IH w r t0 Hroom Hstart) as (w' & r' & Hrun & Hroom' & Hexp & Hrest).
      { intros p Hp. apply Hkeys. by right. }
      exists w', r'. split; [done |]. split; [done |]. split; [| done].
      destruct Hexp as (? & ? & ? & ? & ? & Hnew & Hold & Hout).
      unfold expired. split_and!; try done.
      * intros p Hp Hnone. apply elem_of_cons in Hp as [->|Hp]; [congruence |].
        by apply Hnew.
      * intros p Hp. apply not_elem_of_cons in Hp as [_ Hp]. by apply Hout.
    + (* the finish time is recorded from the clock *)
      unfold getitem. rewrite Ht, run_bind_assoc, run_bind_lift_ok.
      rewrite run_bind_assoc, run_bind_time_time.
      rewrite Hstart. simpl as_float.
      rewrite run_bind_assoc, run_bind_lift_ok.
      rewrite run_bind_assoc, run_bind_update_room, run_bind_update_room.
      set (now := clock w (clock_reads w)).
      set (r1 := set_results <[pid := Some lost]>
                   (set_finish_times <[pid := Some (now - t0)%Q]> r)).
      match goal with |- ∃ w' r', for_each _ _ ?w1 = _ ∧ _ =>
        destruct (IH w1 r1 t0) as (w' & r' & Hrun & Hroom' & Hexp & Hrest)
      end.
      { simpl. rewrite !dict_get_update, !decide_True, Hroom by done. done. }
      { done. }
      { intros p Hp. simpl. rewrite lookup_insert.
        case_decide; [by eexists | apply Hkeys; by right]. }
      exists w', r'. split; [done |]. split; [done |].
      simpl in Hexp, Hrest. split.
      * destruct Hexp as (? & ? & ? & ? & ? & Hnew & Hold & Hout).
        unfold expired. split_and!; try done.
        -- intros p Hp Hnone. destruct (decide (p = pid)) as [->|Hne].
           ++ exists (clock_reads w). split; [done |].
              destruct (Hold pid (now - t0)%Q) as [Hf Hr].
              { simpl. by rewrite lookup_insert_eq. }
              split; [done |]. rewrite Hr. simpl. by rewrite lookup_insert_eq.
           ++ apply elem_of_cons in Hp as [->|Hp]; [done |].
              destruct (Hnew p Hp) as (k & Hk & Hf & Hr).
              { simpl. by rewrite lookup_insert_ne. }
              exists k. split; [lia | done].
        -- intros p t Hsome. assert (p ≠ pid) as Hne by congruence.
           destruct (Hold p t) as [Hf Hr].
           { simpl. by rewrite lookup_insert_ne. }
           split; [done |]. rewrite Hr. simpl. by rewrite lookup_insert_ne.
        -- intros p Hp. apply not_elem_of_cons in Hp as [Hne Hp].
           destruct (Hout p Hp) as [Hf Hr]. rewrite Hf, Hr. simpl.
           by rewrite !lookup_insert_ne.
      * destruct Hrest as (? & ? & ? & ? & ? & ?). split_and!; try done. lia.
Qed.

(** ** Round-end determination *)

Ltac solve_preserves :=
  repeat first
    [ apply preserves_ret | apply preserves_lift | apply preserves_get_world
    | apply preserves_time_time; assumption
    | apply preserves_send_message; assumption
    | apply preserves_stop_timer; assumption
    | apply preserves_broadcast_to_room; assumption
    | apply preserves_create_task; assumption
    | apply preserves_random_choice; assumption
    | apply preserves_generate_room_code; assumption
    | apply preserves_generate_client_id; assumption
    | apply preserves_frame; [assumption | intros ?; reflexivity]
    | apply preserves_bind; [| intros ?] ].

Lemma all_finished_spec times pids :
  (∀ p, p ∈ pids → is_Some (times !! p)) →
  ∃ b, all_finished times pids = ok b
       ∧ (b = true ↔ ∀ p, p ∈ pids → ∃ t, times !! p = Some (Some t)).
Proof.
  induction pids as [|pid pids IH]; intros Hkeys; simpl.
  - exists true. split; [done |]. split; [| done]. intros _ p Hp.
    by apply elem_of_nil in Hp.
  - destruct (Hkeys pid) as [[t|] Ht]; [by left | |].
    + unfold getitem. rewrite Ht. simpl.
      destruct IH as (b & Hrun & Hb); [intros p Hp; apply Hkeys; by right |].
      exists b. split; [done |]. rewrite Hb. split.
      * intros Hall p Hp. apply elem_of_cons in Hp as [->|Hp]; [by exists t | by apply Hall].
      * intros Hall p Hp. apply Hall. by right.
    + unfold getitem. rewrite Ht. simpl. exists false. split; [done |].
      split; [done |]. intros Hall. destruct (Hall pid) as [t' Ht']; [by left |].
      congruence.
Qed.

Lemma check_game_end_waits w room_code room :
  dict_get room_code (game_rooms w) = Some room →
  state room = playing →
  all_finished (finish_times room) (players room) = ok false →
  check_game_end room_code w = (ok tt, w).
Proof.
  intros Hroom Hstate Hall. unfold check_game_end.
  rewrite run_bind_get_world, Hroom, decide_False by (by rewrite Hstate; intros []).
  rewrite Hall, run_bind_lift_ok. done.
Qed.

Lemma check_game_end_finishes w room_code room :
  dict_get room_code (game_rooms w) = Some room →
  state room = playing →
  all_finished (finish_times room) (players room) = ok true →
  game_rooms (check_game_end room_code w).2
  = dict_update room_code (set_state finished) (game_rooms w).
Proof.
  intros Hroom Hstate Hall. unfold check_game_end.
  rewrite run_bind_get_world, Hroom, decide_False by (by rewrite Hstate; intros []).
  rewrite Hall, run_bind_lift_ok. change (negb true) with false. cbv iota.
  rewrite run_bind_update_room.
  rewrite game_rooms_preserved; [done |].
  intros I HI. solve_preserves.
Qed.

(** C2: for a room whose round is being played, the round-end check
    puts the room in the finished state if and only if every player of
    the room has a finish time; and when some player has none, the
    check returns without changing anything in the server state (room
    state, outbox: no game_over is sent). *)
Theorem check_game_end_iff_all_finished (w : World) (room_code : string) (room : Room) :
  dict_get room_code (game_rooms w) = Some room →
  state room = playing →
  (∀ p, p ∈ players room → is_Some (finish_times room !! p)) →
  ((∃ room', dict_get room_code (game_rooms (check_game_end room_code w).2) = Some room'
             ∧ state room' = finished)
   ↔ ∀ p, p ∈ players room → ∃ t, finish_times room !! p = Some (Some t))
  ∧ ((∃ p, p ∈ players room ∧ finish_times room !! p = Some None) →
     check_game_end room_code w = (ok tt, w)).
Proof.
  intros Hroom Hstate Hkeys.
  destruct (all_finished_spec _ _ Hkeys) as ([|] & Hall & Hb).
  - split.
    + split; [intros _; by apply Hb |]. intros _.
      rewrite (check_game_end_finishes w room_code room) by done.
      rewrite dict_get_update, decide_True, Hroom by done. by eexists.
    + intros (p & Hp & Hnone). destruct (proj1 Hb eq_refl p Hp) as [t Ht]. congruence.
  - rewrite (check_game_end_waits w room_code room) by done. split; [| done].
    simpl. rewrite Hroom. split.
    + intros (room' & [= <-] & Hfin). congruence.
    + intros Hall'. apply Hb in Hall'. done.
Qed.

Lemma check_game_end_iff_all_finished_witness :
  ((∃ room', dict_get "ABCDE"
               (game_rooms (check_game_end "ABCDE" (example_world room_one_done)).2)
             = Some room'
             ∧ state room' = finished)
   ↔ ∀ p, p ∈ players room_one_done →
          ∃ t, finish_times room_one_done !! p = Some (Some t))
  ∧ ((∃ p, p ∈ players room_one_done ∧ finish_times room_one_done !! p = Some None) →
     check_game_end "ABCDE" (example_world room_one_done)
     = (ok tt, example_world room_one_done)).
Proof.
  apply (check_game_end_iff_all_finished (example_world room_one_done)
           "ABCDE" room_one_done).
  - reflexivity.
  - reflexivity.
  - intros p Hp. simpl in Hp.
    apply elem_of_cons in Hp as [->|Hp]; [by eexists |].
    apply list_elem_of_singleton in Hp as ->. by eexists.
Defined.

Lemma stop_timer_run room_code w :
  ∃ w', stop_timer room_code w = (ok tt, w')
        ∧ ALL_CLIENTS w' = ALL_CLIENTS w ∧ game_rooms w' = game_rooms w
        ∧ outbox w' = outbox w ∧ closed w' = closed w
        ∧ clock w' = clock w ∧ clock_reads w' = clock_reads w
        ∧ active_timers w' = delete room_code (active_timers w)
        ∧ tasks w' = match active_timers w !! room_code with
                     | Some task => alter cancel task (tasks w)
                     | None => tasks w
                     end.
Proof.
  unfold stop_timer. rewrite run_bind_get_world.
  destruct (active_timers w !! room_code) as [task|] eqn:Htask.
  - rewrite run_bind_modify. eexists. split; [reflexivity |]. by split_and!.
  - exists w. split; [reflexivity |]. split_and!; try done.
    by rewrite delete_id.
Qed.

Lemma float_lt_iff t1 t2 : float_lt t1 t2 = true ↔ (t1 < t2)%Q.
Proof.
  unfold float_lt. rewrite negb_true_iff, <- not_true_iff_false, Qle_bool_iff.
  split; [apply Qnot_le_lt | apply Qlt_not_le].
Qed.

(** The winner rule on two recorded results and finish times. *)
Lemma determine_winner_verdict secret t1 t2 r1 r2 :
  ∃ text, determine_winner secret (Some t1) (Some t2) (Some r1) (Some r2) = ok text
    ∧ (r1 = lost → r2 = lost → verdict text = Some Draw)
    ∧ (r1 = won → r2 = lost → verdict text = Some (Winner 1))
    ∧ (r1 = lost → r2 = won → verdict text = Some (Winner 2))
    ∧ (r1 = won → r2 = won → (t1 < t2)%Q → verdict text = Some (Winner 1))
    ∧ (r1 = won → r2 = won → (t2 < t1)%Q → verdict text = Some (Winner 2))
    ∧ (r1 = won → r2 = won → (t1 == t2)%Q → verdict text = Some Draw).
Proof.
  destruct r1, r2; simpl.
  - destruct (float_lt t1 t2) eqn:H12; [| destruct (float_lt t2 t1) eqn:H21].
    + apply float_lt_iff in H12. eexists. split; [reflexivity |].
      split_and!; try done.
      * intros _ _ H21. destruct (Qlt_irrefl t1). by apply (Qlt_trans _ t2).
      * intros _ _ Heq. rewrite Heq in H12. by destruct (Qlt_irrefl t2).
    + apply float_lt_iff in H21. eexists. split; [reflexivity |].
      split_and!; try done.
      * intros _ _ H12'. destruct (Qlt_irrefl t1). by apply (Qlt_trans _ t2).
      * intros _ _ Heq. rewrite Heq in H21. by destruct (Qlt_irrefl t2).
    + eexists. split; [reflexivity |]. split_and!; try done.
      * intros _ _ Hlt. apply float_lt_iff in Hlt. congruence.
      * intros _ _ Hlt. apply float_lt_iff in Hlt. congruence.
  - eexists. split; [reflexivity |]. by split_and!.
  - eexists. split; [reflexivity |]. by split_and!.
  - eexists. split; [reflexivity |]. by split_and!.
Qed.

(** C3: when both players of a playing room have a recorded finish time
    and result, the round-end check finishes the room and sends one
    game_over message, carrying the secret word, to every connected
    player; its result text announces a draw when both lost, the player
    who won when exactly one won (whatever the two times), and when
    both won the player with the strictly lower finish time, or a draw
    when the times are equal. *)
Theorem check_game_end_winner (w : World) (room_code : string) (room : Room)
    (p1 p2 : string) (t1 t2 : Q) (r1 r2 : Outcome) :
  dict_get room_code (game_rooms w) = Some room →
  state room = playing →
  players room = [p1; p2] →
  finish_times room !! p1 = Some (Some t1) →
  finish_times room !! p2 = Some (Some t2) →
  results room !! p1 = Some (Some r1) →
  results room !! p2 = Some (Some r2) →
  ∃ w' text,
    check_game_end room_code w = (ok tt, w')
    ∧ dict_get room_code (game_rooms w') = Some (set_state finished room)
    ∧ sent w w'
        (map (λ writer, (writer, "game_over",
                         JObj [("result", JFmt text); ("word", JStr (word room))]))
             (recipients None [p1; p2] (ALL_CLIENTS w)))
    ∧ (r1 = lost → r2 = lost → verdict text = Some Draw)
    ∧ (r1 = won → r2 = lost → verdict text = Some (Winner 1))
    ∧ (r1 = lost → r2 = won → verdict text = Some (Winner 2))
    ∧ (r1 = won → r2 = won → (t1 < t2)%Q → verdict text = Some (Winner 1))
    ∧ (r1 = won → r2 = won → (t2 < t1)%Q → verdict text = Some (Winner 2))
    ∧ (r1 = won → r2 = won → (t1 == t2)%Q → verdict text = Some Draw).
Proof.
  intros Hroom Hstate Hplayers Ht1 Ht2 Hr1 Hr2.
  assert (Hall : all_finished (finish_times room) (players room) = ok true).
  { rewrite Hplayers. simpl. unfold getitem. by rewrite Ht1, Ht2. }
  destruct (determine_winner_verdict (word room) t1 t2 r1 r2) as (text & Htext & Hverdict).
  unfold check_game_end.
  rewrite run_bind_get_world, Hroom, decide_False by (by rewrite Hstate; intros []).
  rewrite Hall, run_bind_lift_ok. change (negb true) with false. cbv iota.
  rewrite run_bind_update_room.
  set (w1 := set_game_rooms (dict_update room_code (set_state finished)) w).
  destruct (stop_timer_run room_code w1)
    as (w2 & Hrun2 & Hcl2 & Hrooms2 & Hout2 & _).
  rewrite (run_bind_ok _ _ _ _ _ Hrun2).
  rewrite Hplayers. unfold index, getitem. simpl.
  rewrite !run_bind_lift_ok, Ht1, Ht2, Hr1, Hr2, !run_bind_lift_ok.
  rewrite Htext, run_bind_lift_ok.
  assert (Hroom2 : dict_get room_code (game_rooms w2) = Some (set_state finished room)).
  { rewrite Hrooms2. unfold w1. simpl.
    by rewrite dict_get_update, decide_True, Hroom by done. }
  destruct (broadcast_to_room_run room_code "game_over"
              (JObj [("result", JFmt text); ("word", JStr (word room))]) None w2 _ Hroom2)
    as (w3 & Hrun3 & Htab3 & Hsent3).
  exists w3, text. split; [done |].
  destruct Htab3 as (_ & Hrooms3 & _). split; [by rewrite Hrooms3 |].
  split; [| done].
  simpl in Hsent3. rewrite Hplayers, Hcl2 in Hsent3.
  destruct Hsent3 as (msgs & Hout3 & Hhdr). exists msgs.
  split; [by rewrite Hout3, Hout2 | done].
Qed.

Lemma check_game_end_winner_witness :
  ∃ w' text,
    check_game_end "ABCDE" (example_world room_both_done) = (ok tt, w')
    ∧ dict_get "ABCDE" (game_rooms w') = Some (set_state finished room_both_done)
    ∧ sent (example_world room_both_done) w'
        (map (λ writer, (writer, "game_over",
                         JObj [("result", JFmt text); ("word", JStr "APPLE")]))
             (recipients None ["alice"; "bob"]
                (ALL_CLIENTS (example_world room_both_done))))
    ∧ (won = lost → won = lost → verdict text = Some Draw)
    ∧ (won = won → won = lost → verdict text = Some (Winner 1))
    ∧ (won = lost → won = won → verdict text = Some (Winner 2))
    ∧ (won = won → won = won → (30 < 45)%Q → verdict text = Some (Winner 1))
    ∧ (won = won → won = won → (45 < 30)%Q → verdict text = Some (Winner 2))
    ∧ (won = won → won = won → (30 == 45)%Q → verdict text = Some Draw).
Proof.
  exact (check_game_end_winner (example_world room_both_done)
           "ABCDE" room_both_done "alice" "bob" 30%Q 45%Q won won
           eq_refl eq_refl eq_refl eq_refl eq_refl eq_refl eq_refl).
Defined.

(** ** Natural expiry of the round timer *)

(** C4 (amended): when the timer expires on a room that is still being
    played, every player without a finish time gets the result lost and,
    as finish time, the time elapsed since the start of the round as
    read from the clock at expiry; players who had finished keep their
    finish time and result; the timer is removed from the timer table
    and the round-end determination runs, which finishes the room. *)
Theorem timer_game_expiry (w : World) (room_code : string) (room : Room) (t0 : Q) :
  dict_get room_code (game_rooms w) = Some room →
  state room = playing →
  start_time room = Some t0 →
  (∀ p, p ∈ players room → is_Some (finish_times room !! p)) →
  ∃ room',
    dict_get room_code (game_rooms (timer_game room_code slept w).2) = Some room'
    ∧ state room' = finished
    ∧ (∀ p, p ∈ players room → finish_times room !! p = Some None →
            ∃ k, clock_reads w ≤ k
                 ∧ finish_times room' !! p = Some (Some (clock w k - t0)%Q)
                 ∧ results room' !! p = Some (Some lost))
    ∧ (∀ p t, finish_times room !! p = Some (Some t) →
              finish_times room' !! p = Some (Some t)
              ∧ results room' !! p = results room !! p).
Proof.
  intros Hroom Hstate Hstart Hkeys. unfold timer_game.
  rewrite run_bind_get_world, Hroom, decide_False by (by rewrite Hstate; intros []).
  destruct (timer_loop_run room_code (players room) w room t0 Hroom Hstart Hkeys)
    as (w1 & r1 & Hrun1 & Hroom1 & Hexp & _).
  rewrite (run_bind_ok _ _ _ _ _ Hrun1), run_bind_modify.
  destruct Hexp as (Hpl & _ & Hst & _ & _ & Hnew & Hold & _).
  set (w2 := set_active_timers (delete room_code) w1).
  assert (Hall : all_finished (finish_times r1) (players r1) = ok true).
  { destruct (all_finished_spec (finish_times r1) (players r1)) as (b & Hb & Hiff).
    - rewrite Hpl. intros p Hp. destruct (Hkeys p Hp) as [[t|] Ht].
      + destruct (Hold p t Ht) as [-> _]. by eexists.
      + destruct (Hnew p Hp Ht) as (k & _ & -> & _). by eexists.
    - rewrite Hb. f_equal. apply Hiff. rewrite Hpl. intros p Hp.
      destruct (Hkeys p Hp) as [[t|] Ht].
      + destruct (Hold p t Ht) as [-> _]. by eexists.
      + destruct (Hnew p Hp Ht) as (k & _ & -> & _). by eexists. }
  rewrite (check_game_end_finishes w2 room_code r1); [| done | congruence | done].
  simpl. rewrite dict_get_update, decide_True, Hroom1 by done.
  exists (set_state finished r1). split; [done |]. split; [done |]. by split.
Qed.

Lemma timer_game_expiry_witness :
  ∃ room',
    dict_get "ABCDE"
      (game_rooms (timer_game "ABCDE" slept (example_world room_one_done)).2)
    = Some room'
    ∧ state room' = finished
    ∧ (∀ p, p ∈ players room_one_done → finish_times room_one_done !! p = Some None →
            ∃ k, clock_reads (example_world room_one_done) ≤ k
                 ∧ finish_times room' !! p
                   = Some (Some (clock (example_world room_one_done) k - 1000)%Q)
                 ∧ results room' !! p = Some (Some lost))
    ∧ (∀ p t, finish_times room_one_done !! p = Some (Some t) →
              finish_times room' !! p = Some (Some t)
              ∧ results room' !! p = results room_one_done !! p).
Proof.
  apply (timer_game_expiry (example_world room_one_done) "ABCDE" room_one_done 1000%Q).
  - reflexivity.
  - reflexivity.
  - reflexivity.
  - intros p Hp. simpl in Hp.
    apply elem_of_cons in Hp as [->|Hp]; [by eexists |].
    apply list_elem_of_singleton in Hp as ->. by eexists.
Defined.

(** C4 (counterexample): with the round started at time 1000 and the
    clock reading 1180.1 at expiry, the finish time recorded for alice
    is 180.1, not the configured duration 180. *)
Lemma timer_expiry_finish_time_not_duration :
  ¬ ∃ room' t,
      dict_get "ABCDE"
        (game_rooms (timer_game "ABCDE" slept (example_world room_started)).2)
      = Some room'
      ∧ finish_times room' !! "alice" = Some (Some t)
      ∧ (t == inject_Z GAME_DURATION)%Q.
Proof.
  intros (room' & t & Hroom & Ht & Heq).
  vm_compute in Hroom. injection Hroom as <-.
  vm_compute in Ht. injection Ht as <-.
  vm_compute in Heq. discriminate.
Qed.

(** ** Sessions: welcome and disconnect *)

Lemma generate_client_id_run w :
  ∃ client_id w', generate_client_id w = (ok client_id, w')
    ∧ same_tables w w' ∧ outbox w' = outbox w.
Proof.
  unfold generate_client_id, random_randint.
  rewrite run_bind_time_time, run_bind_assoc, run_bind_random_below, run_bind_ret.
  eexists _, _. split; [reflexivity |]. split; [| done].
  unfold same_tables. simpl. split_and!; try done. lia.
Qed.



Lemma elem_of_recipients exclude_client pids clients writer :
  writer ∈ recipients exclude_client pids clients
  ↔ ∃ pid rc, pid ∈ pids ∧ Some pid ≠ exclude_client ∧ clients !! pid = Some (writer, rc).
Proof.
  unfold recipients. rewrite list_elem_of_omap. split.
  - intros (pid & Hpid & Hw). case_decide; [done |].
    destruct (clients !! pid) as [[wr rc]|] eqn:Hc; simplify_eq/=.
    by exists pid, rc.
  - intros (pid & rc & Hpid & Hex & Hc). exists pid. split; [done |].
    rewrite decide_False by done. by rewrite Hc.
Qed.

(** X27: when the stream of a client closes and the client is a player
    of some room, cleanup returns normally and acts on the room the
    lookup finds, the first in registry order that lists the client: in
    every room state that room, and no other, is deleted from the
    registry; the timer registered for it is cancelled and removed from
    the timer table; the client is removed from the client table and
    its writer is closed; and the messages sent are
    opponent_disconnected notifications to the other connected players
    of that room when it was ready or playing, and none otherwise. *)
Theorem cleanup_client_deletes_room (w : World) (client_id writer room_code : string)
    (room : Room) :
  NoDup (game_rooms w).*1 →
  get_player_room client_id (game_rooms w) = Some (room_code, room) →
  room_code ≠ EmptyString →
  ∃ w' hs,
    cleanup_client client_id writer w = (ok tt, w')
    ∧ game_rooms w' = dict_del room_code (game_rooms w)
    ∧ dict_get room_code (game_rooms w') = None
    ∧ active_timers w' = delete room_code (active_timers w)
    ∧ (∀ task t, active_timers w !! room_code = Some task →
                 tasks w !! task = Some t → task_status t = pending →
                 tasks w' !! task = Some (mkTask (task_room t) cancelled))
    ∧ ALL_CLIENTS w' = delete client_id (ALL_CLIENTS w)
    ∧ closed w' = closed w ++ [writer]
    ∧ sent w w' hs
    ∧ hs = (if decide (state room = ready ∨ state room = playing)
            then map (λ wr, (wr, "opponent_disconnected", disconnect_notice))
                     (recipients (Some client_id) (players room) (ALL_CLIENTS w))
            else [])
    ∧ (∀ other wr rc,
         other ∈ players room → other ≠ client_id →
         ALL_CLIENTS w !! other = Some (wr, rc) →
         (wr, "opponent_disconnected", disconnect_notice) ∈ hs
         ↔ state room = ready ∨ state room = playing).
Proof.
  intros Hnodup Hfind Hcode.
  destruct (get_player_room_elem _ _ _ _ Hfind) as [Hin Hmember].
  assert (Hroom : dict_get room_code (game_rooms w) = Some room)
    by by apply dict_get_elem.
  unfold cleanup_client.
  rewrite run_bind_get_world, Hfind, decide_False by done.
  destruct (stop_timer_run room_code w)
    as (w1 & Hrun1 & Hcl1 & Hrooms1 & Hout1 & Hclosed1 & _ & _ & Htimers1 & Htasks1).
  rewrite !run_bind_assoc, (run_bind_ok _ _ _ _ _ Hrun1).
  assert (Htask : ∀ w2, tasks w2 = tasks w1 →
            ∀ task t, active_timers w !! room_code = Some task →
                      tasks w !! task = Some t → task_status t = pending →
                      tasks w2 !! task = Some (mkTask (task_room t) cancelled)).
  { intros w2 -> task t Hactive Ht Hpending. rewrite Htasks1, Hactive.
    rewrite list_lookup_alter_eq, Ht. simpl. unfold cancel. by rewrite Hpending. }
  destruct (decide (state room = ready ∨ state room = playing)) as [Hstate|Hstate];
    cbv iota.
  - assert (Hroom1 : dict_get room_code (game_rooms w1) = Some room) by by rewrite Hrooms1.
    destruct (broadcast_to_room_run room_code "opponent_disconnected" disconnect_notice
                (Some client_id) w1 room Hroom1)
      as (w2 & Hrun2 & (Hcl2 & Hrooms2 & Htimers2 & Htasks2 & Hclosed2 & _) & Hsent2).
    rewrite !run_bind_assoc, (run_bind_ok _ _ _ _ _ Hrun2).
    rewrite !run_bind_modify. eexists _, _. split; [reflexivity |]. simpl.
    rewrite Hrooms2, Hrooms1, Htimers2, Htimers1, Hcl2, Hcl1, Hclosed2, Hclosed1.
    split; [done |]. split; [by rewrite dict_get_del, decide_True |].
    split; [done |]. split; [by apply Htask |]. split; [done |]. split; [done |].
    split.
    { destruct Hsent2 as (msgs & Hout2 & Hhdr). exists msgs.
      split; [| exact Hhdr]. simpl. by rewrite Hout2, Hout1. }
    rewrite Hcl1. split; [done |].
    intros other wr rc Hother Hne Hreg. split; [done |]. intros _.
    apply list_elem_of_fmap. exists wr. split; [done |].
    apply elem_of_recipients. exists other, rc. split; [done |]. split; [| done].
    intros [= ->]. done.
  - rewrite !run_bind_assoc, run_bind_ret, !run_bind_modify.
    eexists _, []. split; [reflexivity |]. simpl.
    rewrite Hrooms1, Htimers1, Hcl1, Hclosed1.
    split; [done |]. split; [by rewrite dict_get_del, decide_True |].
    split; [done |]. split; [by apply Htask |]. split; [done |]. split; [done |].
    split.
    { exists []. split; [| done]. simpl. by rewrite Hout1, app_nil_r. }
    split; [done |].
    intros other wr rc _ _ _. split; [| done]. intros Hin'.
    by apply elem_of_nil in Hin'.
Qed.

Lemma cleanup_client_deletes_room_witness :
  ∃ w' hs,
    cleanup_client "alice" "wa" (example_world room_over) = (ok tt, w')
    ∧ game_rooms w' = dict_del "ABCDE" (game_rooms (example_world room_over))
    ∧ dict_get "ABCDE" (game_rooms w') = None
    ∧ active_timers w' = delete "ABCDE" (active_timers (example_world room_over))
    ∧ (∀ task t, active_timers (example_world room_over) !! "ABCDE" = Some task →
                 tasks (example_world room_over) !! task = Some t → task_status t = pending →
                 tasks w' !! task = Some (mkTask (task_room t) cancelled))
    ∧ ALL_CLIENTS w' = delete "alice" (ALL_CLIENTS (example_world room_over))
    ∧ closed w' = closed (example_world room_over) ++ ["wa"]
    ∧ sent (example_world room_over) w' hs
    ∧ hs = (if decide (state room_over = ready ∨ state room_over = playing)
            then map (λ wr, (wr, "opponent_disconnected", disconnect_notice))
                     (recipients (Some "alice") (players room_over) (ALL_CLIENTS (example_world room_over)))
            else [])
    ∧ (∀ other wr rc,
         other ∈ players room_over → other ≠ "alice" →
         ALL_CLIENTS (example_world room_over) !! other = Some (wr, rc) →
         (wr, "opponent_disconnected", disconnect_notice) ∈ hs
         ↔ state room_over = ready ∨ state room_over = playing).
Proof.
  apply (cleanup_client_deletes_room (example_world room_over)
           "alice" "wa" "ABCDE" room_over).
  - simpl. apply NoDup_singleton.
  - reflexivity.
  - discriminate.
Defined.

(** ** Disconnecting from two rooms *)

(** C7: the cleanup misses the rooms of a client beyond the first.  On
    a server just started two clients connect, each creates a room
    (CDEFG, then JKLMN), and the first joins JKLMN, which becomes ready
    and is the room the client table records for both.  When the stream
    of the first client closes, cleanup returns normally and
    deregisters the client, but deletes only CDEFG: JKLMN stays in the
    registry, ready, with the disconnected client among its players,
    and no message, so no opponent_disconnected, is sent to the second
    client. *)
Theorem cleanup_client_leaves_second_room :
  (two_rooms initial_world).1 = ok "client_1000000_1000"
  ∧ rooms_summary (two_rooms initial_world).2
    = [("CDEFG", waiting, ["client_1000000_1000"]);
       ("JKLMN", ready, ["client_1000002_1001"; "client_1000000_1000"])]
  ∧ ALL_CLIENTS (two_rooms initial_world).2 !! "client_1000000_1000"
    = Some ("wa", Some "JKLMN")
  ∧ ALL_CLIENTS (two_rooms initial_world).2 !! "client_1000002_1001"
    = Some ("wb", Some "JKLMN")
  ∧ (two_rooms_then_cleanup initial_world).1 = ok tt
  ∧ rooms_summary (two_rooms_then_cleanup initial_world).2
    = [("JKLMN", ready, ["client_1000002_1001"; "client_1000000_1000"])]
  ∧ ALL_CLIENTS (two_rooms_then_cleanup initial_world).2 !! "client_1000000_1000" = None
  ∧ ALL_CLIENTS (two_rooms_then_cleanup initial_world).2 !! "client_1000002_1001"
    = Some ("wb", Some "JKLMN")
  ∧ closed (two_rooms_then_cleanup initial_world).2 = ["wa"]
  ∧ outbox (two_rooms_then_cleanup initial_world).2 = outbox (two_rooms initial_world).2.
Proof. split_and!; vm_compute; reflexivity. Qed.

(** ** Creating rooms *)

Lemma set_rng_reads_id w : set_rng_reads (λ _, rng_reads w) w = w.
Proof. by destruct w. Qed.

Lemma random_choice_run {A} (l : list A) w :
  l ≠ [] →
  ∃ x, random_choice l w = (ok x, set_rng_reads (λ _, S (rng_reads w)) w) ∧ x ∈ l.
Proof.
  intros Hl. unfold random_choice. rewrite run_bind_random_below.
  destruct (lookup_lt_is_Some_2 l (rng w (rng_reads w) mod length l)) as [x Hx].
  { apply Nat.mod_upper_bound. by destruct l. }
  exists x. unfold index. rewrite Hx. split; [done |].
  by eapply list_elem_of_lookup_2.
Qed.

Lemma random_choices_run {A} (l : list A) k : ∀ w,
  l ≠ [] →
  ∃ xs n, random_choices l k w = (ok xs, set_rng_reads (λ _, n) w).
Proof.
  induction k as [|k IH]; intros w Hl; simpl.
  - exists [], (rng_reads w). by rewrite set_rng_reads_id.
  - destruct (random_choice_run l w Hl) as (x & Hrun & _).
    rewrite (run_bind_ok _ _ _ _ _ Hrun).
    destruct (IH (set_rng_reads (λ _, S (rng_reads w)) w) Hl) as (xs & n & Hrun').
    rewrite (run_bind_ok _ _ _ _ _ Hrun'). by exists (x :: xs), n.
Qed.

Lemma generate_room_code_run w :
  ∃ room_code n, generate_room_code w = (ok room_code, set_rng_reads (λ _, n) w).
Proof.
  unfold generate_room_code.
  destruct (random_choices_run ROOM_CODE_ALPHABET 5 w) as (cs & n & Hrun); [done |].
  rewrite (run_bind_ok _ _ _ _ _ Hrun). by eexists _, n.
Qed.

Lemma dict_set_keys_existing {V} k (v old : V) d :
  dict_get k d = Some old → (dict_set k v d).*1 = d.*1.
Proof.
  induction d as [|[k0 v0] d IH]; simpl; [done |].
  destruct (decide (k0 = k)) as [->|Hne]; csimpl; [done |].
  intros Hget. by rewrite IH.
Qed.



Example create_room_collision :
  (generate_room_code (example_world room_started)).1 = ok "ABCDE"
  ∧ (players <$> dict_get "ABCDE" (game_rooms (example_world room_started)))
    = Some ["alice"; "bob"]
  ∧ (players <$> dict_get "ABCDE"
       (game_rooms (handle_create_room "bob" "wb" (example_world room_started)).2))
    = Some ["bob"]
  ∧ (state <$> dict_get "ABCDE"
       (game_rooms (handle_create_room "bob" "wb" (example_world room_started)).2))
    = Some waiting
  ∧ map header (outbox (handle_create_room "bob" "wb" (example_world room_started)).2)
    = [("wb", "room_created", JObj [("room_code", JStr "ABCDE")])].
Proof. vm_compute. done. Qed.

(** ** Normalization of room codes and guesses *)

Lemma upper_char_idem c : upper_char (upper_char c) = upper_char c.
Proof. by destruct c as [[] [] [] [] [] [] [] []]. Qed.

Lemma py_isspace_upper_char c : py_isspace (upper_char c) = py_isspace c.
Proof. by destruct c as [[] [] [] [] [] [] [] []]. Qed.

Lemma upper_idem s : upper (upper s) = upper s.
Proof. induction s as [|c s IH]; simpl; [done |]. by rewrite upper_char_idem, IH. Qed.

Lemma upper_lstrip s : upper (lstrip s) = lstrip (upper s).
Proof.
  induction s as [|c s IH]; simpl; [done |].
  rewrite py_isspace_upper_char. by destruct (py_isspace c).
Qed.

Lemma upper_rstrip s : upper (rstrip s) = rstrip (upper s).
Proof.
  induction s as [|c s IH]; simpl; [done |].
  rewrite <- IH, py_isspace_upper_char.
  destruct (rstrip s) as [|a r]; simpl; [| done].
  by destruct (py_isspace c).
Qed.

Lemma upper_strip s : upper (strip s) = strip (upper s).
Proof. unfold strip. by rewrite upper_rstrip, upper_lstrip. Qed.

Lemma rstrip_idem s : rstrip (rstrip s) = rstrip s.
Proof.
  induction s as [|c s IH]; simpl; [done |].
  destruct (rstrip s) as [|a r] eqn:Hr.
  - destruct (py_isspace c) eqn:Hc; simpl; [done |]. by rewrite Hc.
  - change (rstrip (String c (String a r))) with
      (match rstrip (String a r) with
       | EmptyString => if py_isspace c then EmptyString else String c EmptyString
       | String a' r' => String c (String a' r')
       end).
    by rewrite IH.
Qed.

Lemma lstrip_no_leading_space s : no_leading_space (lstrip s).
Proof.
  induction s as [|c s IH]; simpl; [done |].
  destruct (py_isspace c) eqn:Hc; [done |]. simpl. done.
Qed.

Lemma lstrip_id s : no_leading_space s → lstrip s = s.
Proof. destruct s as [|c s]; simpl; [done |]. by intros ->. Qed.

Lemma rstrip_no_leading_space s : no_leading_space s → no_leading_space (rstrip s).
Proof.
  destruct s as [|c s]; simpl; [done |]. intros Hc.
  destruct (rstrip s); simpl; [by rewrite Hc | done].
Qed.

Lemma strip_idem s : strip (strip s) = strip s.
Proof.
  unfold strip. rewrite (lstrip_id (rstrip (lstrip s))).
  - apply rstrip_idem.
  - apply rstrip_no_leading_space, lstrip_no_leading_space.
Qed.

Lemma normalize_idem s : strip (upper (strip (upper s))) = strip (upper s).
Proof. by rewrite upper_strip, upper_idem, strip_idem. Qed.

(** C10: join_room and make_guess replace their string argument by its
    uppercased, stripped form before anything else, so each behaves on
    a raw string exactly as on its normalized form. *)
Theorem handlers_normalize_argument (client_id writer s : string) (w : World) :
  handle_join_room client_id writer s w
  = handle_join_room client_id writer (strip (upper s)) w
  ∧ handle_make_guess client_id writer s w
    = handle_make_guess client_id writer (strip (upper s)) w.
Proof.
  unfold handle_join_room, handle_make_guess. cbv zeta.
  by rewrite !normalize_idem.
Qed.

Example normalize_room_code : strip (upper "  abcde ") = "ABCDE".
Proof. reflexivity. Qed.

(** ** The room invariant is kept by every operation *)

Lemma world_inv_about_rooms : about_rooms world_inv.
Proof. intros w w' Heq. unfold world_inv. by rewrite Heq. Qed.

Lemma world_inv_update w room_code f :
  (∀ r, room_inv r → room_inv (f r)) →
  world_inv w → world_inv (set_game_rooms (dict_update room_code f) w).
Proof.
  intros Hf [Hnd Hall]. split; simpl.
  - by rewrite dict_update_keys.
  - apply Forall_forall. intros kv Hkv.
    apply dict_update_elem in Hkv as (v & Hv & ->).
    rewrite Forall_forall in Hall. specialize (Hall _ Hv). simpl in Hall.
    case_decide; [by apply Hf | done].
Qed.

Lemma world_inv_update_at w room_code room f :
  dict_get room_code (game_rooms w) = Some room →
  room_inv (f room) →
  world_inv w → world_inv (set_game_rooms (dict_update room_code f) w).
Proof.
  intros Hroom Hf [Hnd Hall]. split; simpl.
  - by rewrite dict_update_keys.
  - apply Forall_forall. intros [k v'] Hkv.
    apply dict_update_elem in Hkv as (v & Hv & Heq). simpl in *. subst v'.
    case_decide as Hk.
    + subst k. rewrite (dict_get_elem _ _ _ Hnd Hv) in Hroom. by simplify_eq.
    + rewrite Forall_forall in Hall. apply (Hall _ Hv).
Qed.

Lemma world_inv_set w room_code room :
  room_inv room →
  world_inv w → world_inv (set_game_rooms (dict_set room_code room) w).
Proof.
  intros Hroom [Hnd Hall]. split; simpl.
  - by apply dict_set_NoDup.
  - apply Forall_forall. intros kv Hkv.
    apply dict_set_elem in Hkv as [->|Hkv]; [done |].
    rewrite Forall_forall in Hall. by apply Hall.
Qed.

Lemma world_inv_room w room_code room :
  world_inv w → (room_code, room) ∈ game_rooms w → room_inv room.
Proof. intros [_ Hall] Hin. rewrite Forall_forall in Hall. apply (Hall _ Hin). Qed.

Lemma room_inv_set_state s r : room_inv r → room_inv (set_state s r).
Proof. done. Qed.

Lemma room_inv_set_start_time t r : room_inv r → room_inv (set_start_time t r).
Proof. done. Qed.

Lemma room_inv_set_guesses p v r :
  room_inv r → room_inv (set_guesses <[p := v]> r).
Proof.
  intros (Hlen & Hkeys & Hword).
  split; [exact Hlen |]. split; [| exact Hword]. simpl. intros q Hq.
  destruct (Hkeys q Hq) as (Hg & Hf & Hr). split_and!; try done.
  rewrite lookup_insert. case_decide; [by eexists | done].
Qed.

Lemma room_inv_set_finish_times p v r :
  room_inv r → room_inv (set_finish_times <[p := v]> r).
Proof.
  intros (Hlen & Hkeys & Hword).
  split; [exact Hlen |]. split; [| exact Hword]. simpl. intros q Hq.
  destruct (Hkeys q Hq) as (Hg & Hf & Hr). split_and!; try done.
  rewrite lookup_insert. case_decide; [by eexists | done].
Qed.

Lemma room_inv_set_results p v r :
  room_inv r → room_inv (set_results <[p := v]> r).
Proof.
  intros (Hlen & Hkeys & Hword).
  split; [exact Hlen |]. split; [| exact Hword]. simpl. intros q Hq.
  destruct (Hkeys q Hq) as (Hg & Hf & Hr). split_and!; try done.
  rewrite lookup_insert. case_decide; [by eexists | done].
Qed.

Lemma preserves_update_room room_code f :
  (∀ r, room_inv r → room_inv (f r)) → preserves world_inv (update_room room_code f).
Proof. intros Hf. apply preserves_modify. intros w. by apply world_inv_update. Qed.

Create HintDb room_inv.
#[local] Hint Resolve room_inv_set_state room_inv_set_start_time room_inv_set_guesses
  room_inv_set_finish_times room_inv_set_results world_inv_about_rooms : room_inv.

(** Computations made of steps that leave the registry alone and of
    in-place updates that keep the room invariant. *)
Ltac solve_world_inv :=
  lazymatch goal with
  | _ : about_rooms world_inv |- _ => idtac
  | _ => pose proof world_inv_about_rooms
  end;
  repeat first
    [ solve [auto 2]
    | apply preserves_update_room; auto with room_inv
    | apply preserves_for_each; intros ?
    | match goal with
      | |- preserves _ (if ?c then _ else _) => destruct c
      | |- preserves _ (match ?x with _ => _ end) => destruct x
      end
    | progress solve_preserves ].

Lemma check_game_end_preserves room_code : preserves world_inv (check_game_end room_code).
Proof.
  unfold check_game_end. apply preserves_bind; [apply preserves_get_world | intros w].
  solve_world_inv.
Qed.

Lemma timer_game_preserves room_code wake :
  preserves world_inv (timer_game room_code wake).
Proof.
  unfold timer_game. destruct wake; [| apply preserves_ret].
  apply preserves_bind; [apply preserves_get_world | intros w].
  destruct (dict_get room_code (game_rooms w)); [| apply preserves_ret].
  destruct (decide (state r ≠ playing)); [apply preserves_ret |].
  apply preserves_bind; [| intros _].
  - apply preserves_for_each. intros pid. unfold timer_game_body, read_room.
    solve_world_inv.
  - apply preserves_bind; [| intros _; apply check_game_end_preserves].
    apply preserves_frame; [apply world_inv_about_rooms | done].
Qed.

Lemma preserves_bind_random_choice {A B} (I : World → Prop) (l : list A) (k : A → M B) :
  about_rooms I →
  (∀ x, x ∈ l → preserves I (k x)) →
  preserves I (bind (random_choice l) k).
Proof.
  intros HI Hk w Hw. unfold random_choice.
  rewrite run_bind_assoc, run_bind_random_below. unfold index.
  destruct (l !! (rng w (rng_reads w) `mod` length l)) as [x|] eqn:Hx.
  - rewrite run_bind_lift_ok. apply Hk; [by eapply list_elem_of_lookup_2 |].
    by apply (HI w).
  - rewrite run_bind_lift_throw. simpl. by apply (HI w).
Qed.

Lemma WORD_BANK_len s : s ∈ WORD_BANK → len s = 5.
Proof.
  intros Hs. apply list_elem_of_In in Hs.
  assert (Hall : forallb (λ s, len s =? 5) WORD_BANK = true) by reflexivity.
  rewrite forallb_forall in Hall. by apply Nat.eqb_eq, Hall.
Qed.

Lemma upper_len s : len (upper s) = len s.
Proof. unfold len, chars. induction s as [|c s IH]; simpl; [done | by rewrite IH]. Qed.

Lemma room_inv_new_room client_id secret :
  secret ∈ WORD_BANK → room_inv (new_room client_id secret).
Proof.
  intros Hs. split; [simpl; lia |]. split; simpl.
  - intros p Hp. apply list_elem_of_singleton in Hp as ->.
    rewrite !lookup_singleton_eq. by split_and!.
  - by rewrite upper_len, WORD_BANK_len.
Qed.

Lemma handle_create_room_preserves client_id writer :
  preserves world_inv (handle_create_room client_id writer).
Proof.
  pose proof world_inv_about_rooms as HI. unfold handle_create_room.
  apply preserves_bind; [by apply preserves_generate_room_code | intros room_code].
  apply preserves_bind_random_choice; [done | intros secret Hsecret].
  apply preserves_bind.
  - apply preserves_modify. intros w. by apply world_inv_set, room_inv_new_room.
  - intros _. solve_world_inv.
Qed.

Lemma dict_from_keys_lookup {V} (keys : list string) (v : V) p :
  p ∈ keys → dict_from_keys keys v !! p = Some v.
Proof.
  unfold dict_from_keys. intros Hp.
  assert (Hgen : ∀ d : gmap string V,
            (p ∈ keys ∨ d !! p = Some v) → foldl (λ d p, <[p := v]> d) d keys !! p = Some v).
  { clear Hp. induction keys as [|q keys IH]; intros d [Hp|Hp]; simpl.
    - by apply elem_of_nil in Hp.
    - done.
    - apply IH. apply elem_of_cons in Hp as [->|Hp]; [right | by left].
      by rewrite lookup_insert_eq.
    - apply IH. right. rewrite lookup_insert. by case_decide. }
  apply Hgen. by left.
Qed.

Lemma handle_rematch_preserves client_id writer :
  preserves world_inv (handle_rematch client_id writer).
Proof.
  pose proof world_inv_about_rooms as HI. unfold handle_rematch.
  apply preserves_bind_get_world. intros w Hw.
  destruct (get_player_room client_id (game_rooms w)) as [[room_code room]|] eqn:Hfind.
  - destruct (get_player_room_elem _ _ _ _ Hfind) as [Hin _].
    destruct (world_inv_room _ _ _ Hw Hin) as (Hlen & Hkeys & Hword).
    revert w Hw Hfind Hin.
    enough (preserves world_inv
              (if decide (state room ≠ finished)
               then send_message writer "error" (error_message "Tidak bisa rematch")
               else
                 stop_timer room_code;;
                 do new_word <- random_choice WORD_BANK;
                 modify (set_game_rooms (dict_set room_code
                   {| players := players room; word := upper new_word; state := ready;
                      start_time := None;
                      guesses := dict_from_keys (players room) [];
                      finish_times := dict_from_keys (players room) None;
                      results := dict_from_keys (players room) None |}));;
                 broadcast_to_room room_code "rematch_ready"
                   (JObj [("message", JStr "Rematch siap! Tekan START.")]) None))
      as Hp by (intros w Hw _ _; by apply Hp).
    destruct (decide (state room ≠ finished)); [by apply preserves_send_message |].
    apply preserves_bind; [by apply preserves_stop_timer | intros _].
    apply preserves_bind_random_choice; [done | intros new_word Hnew].
    apply preserves_bind; [| intros _; by apply preserves_broadcast_to_room].
    apply preserves_modify. intros w. apply world_inv_set.
    split; [done |]. split; simpl.
    + intros p Hp. rewrite !dict_from_keys_lookup by done. by split_and!.
    + by rewrite upper_len, WORD_BANK_len.
  - by apply (preserves_send_message world_inv HI).
Qed.

Lemma handle_start_game_preserves client_id writer :
  preserves world_inv (handle_start_game client_id writer).
Proof.
  unfold handle_start_game. apply preserves_bind; [apply preserves_get_world | intros w].
  solve_world_inv.
Qed.

Lemma handle_make_guess_preserves client_id writer guess :
  preserves world_inv (handle_make_guess client_id writer guess).
Proof.
  unfold handle_make_guess. cbv zeta.
  apply preserves_bind; [apply preserves_get_world | intros w].
  pose proof check_game_end_preserves.
  solve_world_inv.
Qed.

Lemma dict_update_compose {V} k (f g : V → V) d :
  dict_update k g (dict_update k f d) = dict_update k (λ v, g (f v)) d.
Proof.
  induction d as [|[k0 v0] d IH]; simpl; [done |].
  rewrite IH. by destruct (decide (k0 = k)).
Qed.

(** The five assignments of [handle_join_room], taken together. *)
Lemma room_inv_join client_id room :
  room_inv room → ¬ 2 ≤ length (players room) →
  room_inv (set_state ready
             (set_results <[client_id := None]>
               (set_finish_times <[client_id := None]>
                 (set_guesses <[client_id := []]>
                   (set_players (λ ps, ps ++ [client_id]) room))))).
Proof.
  intros (Hlen & Hkeys & Hword) Hfull. split; [| split; [| exact Hword]]; simpl.
  - rewrite length_app. simpl. lia.
  - intros p Hp. rewrite !lookup_insert.
    apply elem_of_app in Hp as [Hp|Hp].
    + destruct (Hkeys p Hp) as (Hg & Hf & Hr).
      case_decide; [by split_and! | done].
    + apply list_elem_of_singleton in Hp as ->.
      rewrite !decide_True by done. by split_and!.
Qed.

Lemma handle_join_room_preserves client_id writer room_code :
  preserves world_inv (handle_join_room client_id writer room_code).
Proof.
  pose proof world_inv_about_rooms as HI.
  unfold handle_join_room. cbv zeta.
  generalize (strip (upper room_code)). clear room_code. intros room_code.
  apply preserves_bind_get_world. intros w Hw.
  destruct (dict_get room_code (game_rooms w)) as [room|] eqn:Hroom;
    [| by apply preserves_send_message].
  destruct (decide (2 ≤ length (players room))) as [Hfull|Hfull];
    [by apply preserves_send_message |].
  destruct (decide (state room ≠ waiting)); [by apply preserves_send_message |].
  rewrite !run_bind_update_room.
  match goal with |- world_inv (?m ?w5).2 =>
    assert (Hrest : preserves world_inv m) by solve_world_inv;
    apply Hrest
  end.
  eapply (HI (set_game_rooms (dict_update room_code _) w)).
  { simpl. rewrite !dict_update_compose. reflexivity. }
  apply (world_inv_update_at w room_code room); [done | | done].
  apply room_inv_join; [| done].
  apply dict_get_Some_elem in Hroom. by eapply world_inv_room.
Qed.

Lemma switch_command_preserves client_id writer command data :
  preserves world_inv (switch_command client_id writer command data).
Proof.
  pose proof (handle_create_room_preserves client_id writer).
  pose proof (handle_join_room_preserves client_id writer).
  pose proof (handle_start_game_preserves client_id writer).
  pose proof (handle_make_guess_preserves client_id writer).
  pose proof (handle_rematch_preserves client_id writer).
  pose proof world_inv_about_rooms.
  unfold switch_command.
  repeat match goal with |- preserves _ (if ?c then _ else _) => destruct c end;
    repeat (apply preserves_bind;
            [ first [ done | apply preserves_lift | by apply preserves_send_message ]
            | intros ? ]);
    apply preserves_ret.
Qed.

Lemma world_inv_initial w : game_rooms w = [] → world_inv w.
Proof. intros Hw. unfold world_inv. rewrite Hw. split; [apply NoDup_nil_2 | done]. Qed.

(** C8: each of create_room, join_room, start_game, make_guess, rematch
    and the expiry of the timer keeps the room invariant: if every room
    of the registry has one or two players, an entry for every player
    in its guesses, finish_times and results dictionaries, and a secret
    word of length 5, then so does every room of the registry after the
    operation, whether it returns or raises. *)
Theorem room_invariant_preserved (w : World)
    (client_id writer code guess room_code : string) (wake : Wake) :
  world_inv w →
  world_inv (handle_create_room client_id writer w).2
  ∧ world_inv (handle_join_room client_id writer code w).2
  ∧ world_inv (handle_start_game client_id writer w).2
  ∧ world_inv (handle_make_guess client_id writer guess w).2
  ∧ world_inv (handle_rematch client_id writer w).2
  ∧ world_inv (timer_game room_code wake w).2.
Proof.
  intros Hw. split_and!.
  - by apply handle_create_room_preserves.
  - by apply handle_join_room_preserves.
  - by apply handle_start_game_preserves.
  - by apply handle_make_guess_preserves.
  - by apply handle_rematch_preserves.
  - by apply timer_game_preserves.
Qed.

Lemma example_world_inv st t1 t2 r1 r2 :
  world_inv (example_world (example_room st t1 t2 r1 r2)).
Proof.
  split; simpl.
  - apply NoDup_singleton.
  - apply Forall_singleton. split; [simpl; lia |]. split; [| reflexivity].
    simpl. intros p Hp.
    apply elem_of_cons in Hp as [->|Hp]; [by split_and!; eexists |].
    apply list_elem_of_singleton in Hp as ->. by split_and!; eexists.
Qed.

Lemma room_invariant_preserved_witness :
  world_inv (example_world room_started)
  ∧ world_inv (handle_create_room "alice" "wa" (example_world room_started)).2
  ∧ world_inv (handle_join_room "alice" "wa" "abcde" (example_world room_started)).2
  ∧ world_inv (handle_start_game "alice" "wa" (example_world room_started)).2
  ∧ world_inv (handle_make_guess "alice" "wa" "apple" (example_world room_started)).2
  ∧ world_inv (handle_rematch "alice" "wa" (example_world room_started)).2
  ∧ world_inv (timer_game "ABCDE" slept (example_world room_started)).2.
Proof.
  split; [apply example_world_inv |].
  apply (room_invariant_preserved (example_world room_started) "alice" "wa"),
    example_world_inv.
Defined.

(** ** A whole round *)

(** The round of [example_round] returns normally and ends with the
    room finished, its timer cancelled, and, as last messages, a
    game_over for each player that reveals the word and announces
    player 1, alice, as the winner. *)
Example example_round_outcome :
  (example_round initial_world).1 = ok tt
  ∧ ((λ kv, (kv.1, state kv.2, word kv.2))
       <$> game_rooms (example_round initial_world).2)
    = [("CDEFG", finished, "SMOKE")]
  ∧ map_to_list (active_timers (example_round initial_world).2) = []
  ∧ task_status <$> tasks (example_round initial_world).2 = [cancelled]
  ∧ ((λ h, (h.1, json_get "word" h.2, result_verdict h.2))
       <$> drop 23 (map header (outbox (example_round initial_world).2)))
    = [("wa", "game_over", Some (JStr "SMOKE"), Some (Winner 1));
       ("wb", "game_over", Some (JStr "SMOKE"), Some (Winner 1))].
Proof. split_and!; vm_compute; reflexivity. Qed.

(** * Further properties

    ** The guess evaluator *)

Lemma chars_inj s1 s2 : chars s1 = chars s2 → s1 = s2.
Proof.
  unfold chars. intros Heq.
  rewrite <- (string_of_list_ascii_of_string s1), <- (string_of_list_ascii_of_string s2).
  by rewrite Heq.
Qed.

Lemma occurrences_pos c w : 0 < occurrences c w ↔ c ∈ w.
Proof.
  induction w as [|x w IH].
  - unfold occurrences. simpl. split; [lia |]. intros H. by apply elem_of_nil in H.
  - rewrite occurrences_cons, elem_of_cons. case_decide; [| rewrite <- IH; split].
    + subst. split; [by left | lia].
    + intros H1. right. lia.
    + intros [->|H1]; [done | lia].
Qed.

Lemma marked_upto_pos c guess fb i k :
  i < k → is_marked c guess fb i → 0 < marked_upto c guess fb k.
Proof.
  intros Hik Hm. induction k as [|k IH]; [lia |].
  rewrite marked_upto_S. destruct (decide (i = k)) as [->|Hne].
  - rewrite decide_True by done. lia.
  - specialize (IH ltac:(lia)). lia.
Qed.

Lemma marked_upto_le_guess c guess fb k :
  k ≤ length guess → marked_upto c guess fb k ≤ occurrences c (take k guess).
Proof.
  induction k as [|k IH]; intros Hk.
  - unfold marked_upto. simpl. lia.
  - destruct (lookup_lt_is_Some_2 guess k) as [g Hg]; [lia |].
    rewrite marked_upto_S, (occurrences_take_S c guess k g Hg).
    specialize (IH ltac:(lia)).
    destruct (decide (is_marked c guess fb k)) as [[Hc _]|_]; [| lia].
    rewrite Hg in Hc. simplify_eq. rewrite decide_True by done. lia.
Qed.

Lemma marked_upto_eq_guess c guess fb k :
  k ≤ length guess → k ≤ length fb →
  (∀ i, i < k → guess !! i = Some c → fb !! i ≠ Some absent) →
  marked_upto c guess fb k = occurrences c (take k guess).
Proof.
  induction k as [|k IH]; intros Hk Hkf Hall.
  - unfold marked_upto. simpl. done.
  - destruct (lookup_lt_is_Some_2 guess k) as [g Hg]; [lia |].
    destruct (lookup_lt_is_Some_2 fb k) as [m Hm]; [lia |].
    rewrite marked_upto_S, (occurrences_take_S c guess k g Hg).
    rewrite IH; [| lia | lia | intros i Hi; apply Hall; lia]. f_equal.
    apply indicator_iff. unfold is_marked. rewrite Hg, Hm. split.
    + intros [[= ->] _]. done.
    + intros ->. split; [done |].
      specialize (Hall k ltac:(lia) Hg). rewrite Hm in Hall.
      destruct m; [by left | by right | done].
Qed.

Lemma bounded_forall_or_exists (P : nat → Prop) `{∀ i, Decision (P i)} k :
  (∀ i, i < k → P i) ∨ (∃ i, i < k ∧ ¬ P i).
Proof.
  induction k as [|k [IH|(i & Hi & Hn)]].
  - left. intros i Hi. lia.
  - destruct (decide (P k)) as [Hk|Hk].
    + left. intros i Hi. destruct (decide (i = k)) as [->|]; [done |]. apply IH. lia.
    + right. exists k. split; [lia | done].
  - right. exists i. split; [lia | done].
Qed.

Lemma pass2_body_exhausted guess secret k st :
  length guess = length secret → k < length secret →
  Inv2_exhausted guess secret k st →
  ∃ st', pass2_body guess secret st k = ok st'
         ∧ Inv2_exhausted guess secret (S k) st'.
Proof.
  intros Hlen Hk [HInv Hex].
  destruct (pass2_body_inv guess secret k st Hlen Hk HInv) as (st' & Hrun & HInv').
  exists st'. split; [done |]. split; [done |].
  destruct HInv as (Hl & Hnp & Hcor & Hcnt & Hpos).
  destruct st as [fb cnt]; simpl in *.
  destruct (lookup_lt_is_Some_2 fb k) as [f Hf]; [lia |].
  destruct (lookup_lt_is_Some_2 guess k) as [g Hg]; [lia |].
  unfold pass2_body, index in Hrun. rewrite Hf in Hrun. simpl in Hrun.
  destruct (decide (f = correct)) as [->|Hfc].
  - injection Hrun as <-. simpl. intros c i Hi Hc Habs.
    destruct (decide (i = k)) as [->|Hne]; [congruence |]. apply (Hex c i); [lia | done..].
  - rewrite Hg in Hrun. simpl in Hrun.
    destruct (bool_decide (g ∈ secret)
              && bool_decide (0 < default 0 (cnt !! g))%Z) eqn:Hcond.
    + apply andb_true_iff in Hcond as [_ Hc2]. apply bool_decide_eq_true in Hc2.
      destruct (cnt !! g) as [n|] eqn:Hn; simpl in Hc2; [| lia].
      unfold getitem in Hrun. rewrite Hn in Hrun. simpl in Hrun.
      injection Hrun as <-. simpl. intros c i Hi Hc Habs.
      destruct (decide (i = k)) as [->|Hne].
      * rewrite list_lookup_insert_eq in Habs by lia. congruence.
      * rewrite list_lookup_insert_ne in Habs by done.
        assert (Hz : default 0%Z (cnt !! c) = 0%Z) by (apply (Hex c i); [lia | done..]).
        rewrite lookup_insert. case_decide; [| done].
        subst c. rewrite Hn in Hz. simpl in Hz. lia.
    + injection Hrun as <-. simpl. intros c i Hi Hc Habs.
      destruct (decide (i = k)) as [->|Hne]; [| apply (Hex c i); [lia | done..]].
      rewrite Hg in Hc. simplify_eq.
      apply andb_false_iff in Hcond as [Hc1|Hc2].
      * apply bool_decide_eq_false in Hc1.
        assert (occurrences c secret = 0).
        { destruct (occurrences c secret) eqn:Ho; [done |].
          destruct Hc1. apply occurrences_pos. lia. }
        specialize (Hcnt c). specialize (Hpos c). lia.
      * apply bool_decide_eq_false in Hc2. specialize (Hpos c). lia.
Qed.

Lemma check_wordle_guess_exhausted guess secret :
  len guess = len secret →
  ∃ fb cnt, check_wordle_guess guess secret = ok fb
            ∧ Inv2_exhausted (chars guess) (chars secret) (len secret) (fb, cnt).
Proof.
  unfold len. intros Hlen. unfold check_wordle_guess.
  destruct (for_loop_range_inv (pass1_body (chars guess) (chars secret))
              (Inv1 (chars guess) (chars secret)) (length (chars secret))
              (replicate (length (chars secret)) absent, count_letters (chars secret)))
    as (st1 & Hrun1 & HI1).
  { apply Inv1_initial. }
  { intros k st Hk. by apply pass1_body_inv. }
  rewrite Hrun1. simpl.
  destruct (for_loop_range_inv (pass2_body (chars guess) (chars secret))
              (Inv2_exhausted (chars guess) (chars secret)) (length (chars secret)) st1)
    as ([fb2 cnt2] & Hrun2 & HI2).
  { split; [by apply Inv1_final_Inv2 |]. intros c i Hi. lia. }
  { intros k st Hk. by apply pass2_body_exhausted. }
  rewrite Hrun2. simpl. by exists fb2, cnt2.
Qed.

(** X1: on words of equal length, the number of positions of the guess
    that hold a letter and are marked correct or present is exactly the
    smaller of the letter's number of occurrences in the guess and in
    the secret. *)
Theorem check_wordle_guess_marks_min (guess secret : string) :
  len guess = len secret →
  ∃ fb, check_wordle_guess guess secret = ok fb
        ∧ ∀ c, length (marked_positions c guess fb)
               = occurrences c (chars guess) `min` occurrences c (chars secret).
Proof.
  intros Hlen.
  destruct (check_wordle_guess_exhausted guess secret Hlen)
    as (fb & cnt & Hrun & (Hl & Hnp & Hcor & Hcnt & Hpos) & Hex).
  unfold len in *. simpl in *. exists fb. split; [done |]. intros c.
  unfold marked_positions.
  change (marked_upto c (chars guess) fb (length fb)
          = occurrences c (chars guess) `min` occurrences c (chars secret)).
  rewrite Hl. specialize (Hcnt c). specialize (Hpos c).
  pose proof (marked_upto_le_guess c (chars guess) fb (length (chars secret))) as Hle.
  rewrite take_ge in Hle by lia. specialize (Hle ltac:(lia)).
  destruct (bounded_forall_or_exists
              (λ i, chars guess !! i = Some c → fb !! i ≠ Some absent)
              (length (chars secret))) as [Hall|(i & Hi & Hn)].
  - rewrite (marked_upto_eq_guess c (chars guess) fb) in * by (done || lia).
    rewrite take_ge in * by lia. lia.
  - assert (Hz : default 0%Z (cnt !! c) = 0%Z).
    { destruct (decide (chars guess !! i = Some c)) as [Hc|Hc]; [| by destruct Hn].
      destruct (decide (fb !! i = Some absent)) as [Ha|Ha]; [| by destruct Hn].
      by apply (Hex c i). }
    lia.
Qed.

Lemma check_wordle_guess_marks_min_witness :
  ∃ fb, check_wordle_guess "PAPER" "APPLE" = ok fb
        ∧ ∀ c, length (marked_positions c "PAPER" fb)
               = occurrences c (chars "PAPER") `min` occurrences c (chars "APPLE").
Proof. exact (check_wordle_guess_marks_min "PAPER" "APPLE" eq_refl). Defined.

(** X2: on words of equal length the feedback is all correct exactly
    when the guess is the secret; in particular a word evaluated
    against itself is all correct. *)
Theorem check_wordle_guess_all_correct_iff (guess secret : string) :
  len guess = len secret →
  ∃ fb, check_wordle_guess guess secret = ok fb
        ∧ (fb = replicate (len secret) correct ↔ guess = secret).
Proof.
  intros Hlen.
  destruct (check_wordle_guess_inv guess secret Hlen)
    as (fb & cnt & Hrun & Hl & Hnp & Hcor & Hcnt & Hpos).
  unfold len in *. simpl in *. exists fb. split; [done |]. split.
  - intros Hfb. apply chars_inj, list_eq. intros i.
    destruct (decide (i < length (chars secret))) as [Hi|Hi].
    + apply Hcor; [done |]. rewrite Hfb. by apply lookup_replicate_2.
    + rewrite !lookup_ge_None_2 by lia. done.
  - intros ->. apply list_eq. intros i.
    destruct (decide (i < length (chars secret))) as [Hi|Hi].
    + rewrite lookup_replicate_2 by done. by apply Hcor.
    + rewrite !lookup_ge_None_2; [done | rewrite length_replicate; lia | lia].
Qed.

Lemma check_wordle_guess_all_correct_iff_witness :
  ∃ fb, check_wordle_guess "TIGER" "TIGER" = ok fb
        ∧ (fb = replicate (len "TIGER") correct ↔ "TIGER" = "TIGER").
Proof. exact (check_wordle_guess_all_correct_iff "TIGER" "TIGER" eq_refl). Defined.

(** X3: on words of equal length, a position of the guess is marked
    absent whenever its letter does not occur in the secret, and a
    position marked present holds a letter that occurs in the secret
    at another position. *)
Theorem check_wordle_guess_absent_letters (guess secret : string) :
  len guess = len secret →
  ∃ fb, check_wordle_guess guess secret = ok fb
        ∧ (∀ i c, chars guess !! i = Some c → c ∉ chars secret →
                  fb !! i = Some absent)
        ∧ (∀ i c, chars guess !! i = Some c → fb !! i = Some present →
                  c ∈ chars secret ∧ chars secret !! i ≠ Some c).
Proof.
  intros Hlen.
  destruct (check_wordle_guess_inv guess secret Hlen)
    as (fb & cnt & Hrun & Hl & Hnp & Hcor & Hcnt & Hpos).
  unfold len in *. simpl in *. exists fb. split; [done |].
  assert (Hin : ∀ i c, chars guess !! i = Some c →
                       (fb !! i = Some correct ∨ fb !! i = Some present) →
                       c ∈ chars secret).
  { intros i c Hc Hm. apply occurrences_pos.
    assert (Hi : i < length (chars secret)).
    { rewrite <- Hlen. by eapply lookup_lt_Some. }
    pose proof (marked_upto_pos c (chars guess) fb i (length (chars secret)) Hi
                  (conj Hc Hm)).
    specialize (Hcnt c). specialize (Hpos c). lia. }
  split.
  - intros i c Hc Hnotin.
    assert (Hi : i < length fb).
    { rewrite Hl, <- Hlen. by eapply lookup_lt_Some. }
    destruct (lookup_lt_is_Some_2 fb i Hi) as [m Hm]. rewrite Hm.
    destruct m; [| | done].
    + destruct Hnotin. apply (Hin i c Hc). left. done.
    + destruct Hnotin. apply (Hin i c Hc). right. done.
  - intros i c Hc Hp. split; [apply (Hin i c Hc); by right |].
    intros Hs.
    assert (Hi : i < length (chars secret)).
    { rewrite <- Hlen. by eapply lookup_lt_Some. }
    assert (fb !! i = Some correct) by (apply Hcor; [done | congruence]).
    congruence.
Qed.

Lemma check_wordle_guess_absent_letters_witness :
  ∃ fb, check_wordle_guess "ABCDE" "FGHIJ" = ok fb
        ∧ (∀ i c, chars "ABCDE" !! i = Some c → c ∉ chars "FGHIJ" →
                  fb !! i = Some absent)
        ∧ (∀ i c, chars "ABCDE" !! i = Some c → fb !! i = Some present →
                  c ∈ chars "FGHIJ" ∧ chars "FGHIJ" !! i ≠ Some c).
Proof. exact (check_wordle_guess_absent_letters "ABCDE" "FGHIJ" eq_refl). Defined.

Lemma for_loop_app {S I} (body : S → I → Res S) st (l1 l2 : list I) :
  for_loop body st (l1 ++ l2)
  = (try st' <- for_loop body st l1; for_loop body st' l2).
Proof.
  revert st. induction l1 as [|i l1 IH]; intros st; simpl; [done |].
  destruct (body st i) as [e|st']; simpl; [done | apply IH].
Qed.

Lemma for_loop_ext {S I} (body body' : S → I → Res S) st (l : list I) :
  (∀ i st, i ∈ l → body st i = body' st i) →
  for_loop body st l = for_loop body' st l.
Proof.
  revert st. induction l as [|i l IH]; intros st Hext; simpl; [done |].
  rewrite (Hext i st) by by left.
  destruct (body' st i) as [e|st']; simpl; [done |].
  apply IH. intros j st'' Hj. apply Hext. by right.
Qed.

Lemma pass1_body_covers guess secret k st :
  k < length guess → k < length secret →
  counts_cover secret st →
  ∃ st', pass1_body guess secret st k = ok st' ∧ counts_cover secret st'.
Proof.
  intros Hkg Hks Hcov. destruct st as [fb cnt].
  destruct (lookup_lt_is_Some_2 guess k Hkg) as [g Hg].
  destruct (lookup_lt_is_Some_2 secret k Hks) as [s Hs].
  unfold pass1_body, index. rewrite Hg, Hs. simpl.
  destruct (decide (g = s)) as [->|Hne]; [| by eexists].
  destruct (Hcov s) as [n Hn]; [by eapply list_elem_of_lookup_2 |].
  simpl in Hn. unfold getitem. rewrite Hn. simpl. eexists. split; [done |].
  intros c Hc. simpl. rewrite lookup_insert. case_decide; [by eexists | by apply Hcov].
Qed.

(** X4: a guess shorter than the secret makes the evaluator raise
    IndexError. *)
Theorem check_wordle_guess_short_guess (guess secret : string) :
  len guess < len secret →
  check_wordle_guess guess secret = throw IndexError.
Proof.
  unfold len. intros Hlen. unfold check_wordle_guess, range.
  replace (length (chars secret))
    with (length (chars guess) + (length (chars secret) - length (chars guess)))
    at 2 by lia.
  rewrite seq_app, for_loop_app.
  destruct (for_loop_seq_inv (pass1_body (chars guess) (chars secret))
              (λ _, counts_cover (chars secret)) (length (chars guess)) 0
              (replicate (length (chars secret)) absent, count_letters (chars secret)))
    as (st1 & Hrun1 & _).
  { intros c Hc. apply count_letters_fold_Some. by left. }
  { intros k st Hk Hcov. apply pass1_body_covers; [lia | lia | done]. }
  rewrite Hrun1. simpl.
  destruct (length (chars secret) - length (chars guess)) as [|m] eqn:Hm; [lia |].
  simpl. destruct st1 as [fb cnt]. unfold pass1_body at 1, index.
  by rewrite lookup_ge_None_2 by lia.
Qed.

Lemma check_wordle_guess_short_guess_witness :
  len "APE" < len "APPLE" ∧ check_wordle_guess "APE" "APPLE" = throw IndexError.
Proof.
  assert (H : len "APE" < len "APPLE") by (unfold len; simpl; lia).
  split; [exact H |]. exact (check_wordle_guess_short_guess "APE" "APPLE" H).
Defined.

Lemma chars_app s1 s2 : chars (s1 +:+ s2) = chars s1 ++ chars s2.
Proof. unfold chars. induction s1 as [|c s1 IH]; simpl; [done | by rewrite IH]. Qed.

(** X5: the characters of a guess beyond the length of the secret are
    ignored: a guess at least as long as the secret gets the feedback
    of the guess with any characters appended. *)
Theorem check_wordle_guess_long_guess (guess extra secret : string) :
  len secret ≤ len guess →
  check_wordle_guess (guess +:+ extra) secret = check_wordle_guess guess secret.
Proof.
  unfold len. intros Hlen. unfold check_wordle_guess. rewrite chars_app.
  assert (Hidx : ∀ i, i ∈ range (length (chars secret)) →
            index (chars guess ++ chars extra) i = index (chars guess) i).
  { intros i Hi. apply elem_of_seq in Hi. unfold index.
    by rewrite lookup_app_l by lia. }
  rewrite (for_loop_ext (pass1_body (chars guess ++ chars extra) (chars secret))
             (pass1_body (chars guess) (chars secret))).
  2:{ intros i [fb cnt] Hi. unfold pass1_body. by rewrite Hidx. }
  destruct (for_loop _ _ _) as [e|st1]; simpl; [done |].
  rewrite (for_loop_ext (pass2_body (chars guess ++ chars extra) (chars secret))
             (pass2_body (chars guess) (chars secret))); [done |].
  intros i [fb cnt] Hi. unfold pass2_body. by rewrite Hidx.
Qed.

Lemma check_wordle_guess_long_guess_witness :
  len "APPLE" ≤ len "PAPER"
  ∧ check_wordle_guess ("PAPER" +:+ "S") "APPLE" = check_wordle_guess "PAPER" "APPLE".
Proof.
  assert (H : len "APPLE" ≤ len "PAPER") by (unfold len; simpl; lia).
  split; [exact H |]. exact (check_wordle_guess_long_guess "PAPER" "S" "APPLE" H).
Defined.

(** ** Joining a room *)

Lemma get_player_room_get client_id rooms room_code room :
  NoDup rooms.*1 →
  get_player_room client_id rooms = Some (room_code, room) →
  dict_get room_code rooms = Some room ∧ client_id ∈ players room.
Proof.
  intros Hnd Hfind. destruct (get_player_room_elem _ _ _ _ Hfind) as [Hin Hp].
  split; [by apply dict_get_elem | done].
Qed.

Lemma handle_join_room_run w client_id writer code room entry :
  dict_get (strip (upper code)) (game_rooms w) = Some room →
  length (players room) < 2 →
  state room = waiting →
  ALL_CLIENTS w !! client_id = Some entry →
  ∃ w', handle_join_room client_id writer code w = (ok tt, w')
    ∧ game_rooms w' = dict_update (strip (upper code)) (joined client_id) (game_rooms w)
    ∧ ALL_CLIENTS w'
      = <[client_id := (writer, Some (strip (upper code)))]> (ALL_CLIENTS w)
    ∧ active_timers w' = active_timers w ∧ tasks w' = tasks w
    ∧ closed w' = closed w ∧ clock w' = clock w
    ∧ sent w w'
        (map (λ wr, (wr, "room_ready",
                     JObj [("message", JStr "Kedua pemain terhubung! Tekan START.");
                           ("player_count", JInt 2)]))
             (recipients None (players room ++ [client_id])
                (<[client_id := (writer, Some (strip (upper code)))]> (ALL_CLIENTS w)))).
Proof.
  intros Hroom Hlen Hstate Hentry. unfold handle_join_room. cbv zeta.
  generalize dependent (strip (upper code)). intros rc Hroom.
  rewrite run_bind_get_world, Hroom.
  rewrite decide_False by lia. rewrite decide_False by (by rewrite Hstate; intros []).
  rewrite !run_bind_update_room, run_bind_get_world.
  simpl ALL_CLIENTS. unfold getitem. rewrite Hentry, run_bind_lift_ok, run_bind_modify.
  match goal with |- ∃ w', broadcast_to_room _ _ ?d _ ?w6 = _ ∧ _ =>
    destruct (broadcast_to_room_run rc "room_ready" d None w6 (joined client_id room))
      as (w' & Hrun & (Hcl & Hrooms & Htimers & Htasks & Hclosed & Hclock & _) & Hsent)
  end.
  { simpl. by rewrite !dict_get_update, !decide_True, Hroom by done. }
  exists w'. split; [done |]. simpl in *.
  rewrite Hrooms, Hcl, Htimers, Htasks, Hclosed, Hclock.
  split; [by rewrite !dict_update_compose |]. by split_and!.
Qed.

Lemma handle_join_room_rejects_run (w : World) (client_id writer code text : string) :
  (dict_get (strip (upper code)) (game_rooms w) = None
     ∧ text = "Room tidak ditemukan")
  ∨ (∃ room, dict_get (strip (upper code)) (game_rooms w) = Some room
             ∧ 2 ≤ length (players room) ∧ text = "Room penuh")
  ∨ (∃ room, dict_get (strip (upper code)) (game_rooms w) = Some room
             ∧ length (players room) < 2 ∧ state room ≠ waiting
             ∧ text = "Game sudah dimulai") →
  ∃ w', handle_join_room client_id writer code w = (ok tt, w')
        ∧ same_tables w w'
        ∧ sent w w' [(writer, "error", error_message text)].
Proof.
  intros Hcase. unfold handle_join_room. cbv zeta. rewrite run_bind_get_world.
  destruct Hcase as [[Hnone ->]|[(room & Hroom & Hfull & ->)|(room & Hroom & Hlen & Hst & ->)]].
  - rewrite Hnone. apply send_message_run.
  - rewrite Hroom, decide_True by done. apply send_message_run.
  - rewrite Hroom, decide_False by lia. rewrite decide_True by done.
    apply send_message_run.
Qed.


(** X7: a join request with a code free of lower-case non-ASCII
    letters is rejected, with one error message to the sender and no
    other change of the server state, when no room has the normalized
    code ("Room tidak ditemukan"), when the room already has two
    players ("Room penuh"), and when it has fewer but is not waiting
    ("Game sudah dimulai"). *)
Theorem handle_join_room_rejects (w : World) (client_id writer code text : string) :
  upper_agrees code →
  (dict_get (strip (upper code)) (game_rooms w) = None
     ∧ text = "Room tidak ditemukan")
  ∨ (∃ room, dict_get (strip (upper code)) (game_rooms w) = Some room
             ∧ 2 ≤ length (players room) ∧ text = "Room penuh")
  ∨ (∃ room, dict_get (strip (upper code)) (game_rooms w) = Some room
             ∧ length (players room) < 2 ∧ state room ≠ waiting
             ∧ text = "Game sudah dimulai") →
  ∃ w', handle_join_room client_id writer code w = (ok tt, w')
        ∧ same_tables w w'
        ∧ sent w w' [(writer, "error", error_message text)].
Proof.
  intros _ Hcase. unfold handle_join_room. cbv zeta. rewrite run_bind_get_world.
  destruct Hcase as [[Hnone ->]|[(room & Hroom & Hfull & ->)|(room & Hroom & Hlen & Hst & ->)]].
  - rewrite Hnone. apply send_message_run.
  - rewrite Hroom, decide_True by done. apply send_message_run.
  - rewrite Hroom, decide_False by lia. rewrite decide_True by done.
    apply send_message_run.
Qed.


Lemma handle_join_room_rejects_witness :
  ∃ w', handle_join_room "bob" "wb" "abcde" (example_world room_started) = (ok tt, w')
        ∧ same_tables (example_world room_started) w'
        ∧ sent (example_world room_started) w' [("wb", "error", error_message "Room penuh")].
Proof.
  apply (handle_join_room_rejects (example_world room_started) "bob" "wb" "abcde"
           "Room penuh");
    [unfold upper_agrees; simpl; repeat constructor
    | right; left; exists room_started;
      split; [reflexivity | split; [simpl; lia | reflexivity]]].
Defined.

(** ** Starting a game *)

Lemma dict_update_id {V} k (d : list (string * V)) : dict_update k (λ v, v) d = d.
Proof.
  induction d as [|[k0 v0] d IH]; simpl; [done |].
  rewrite IH. by destruct (decide (k0 = k)).
Qed.

Lemma dict_update_ext {V} k (f g : V → V) (d : list (string * V)) :
  (∀ v, (k, v) ∈ d → f v = g v) → dict_update k f d = dict_update k g d.
Proof.
  induction d as [|[k0 v0] d IH]; simpl; intros Hext; [done |].
  rewrite IH by (intros v Hv; apply Hext; by right).
  destruct (decide (k0 = k)) as [->|]; [| done].
  by rewrite (Hext v0) by by left.
Qed.

Lemma dict_update_ext_at {V} k (f g : V → V) (d : list (string * V)) v :
  NoDup d.*1 → dict_get k d = Some v → f v = g v →
  dict_update k f d = dict_update k g d.
Proof.
  intros Hnd Hget Heq. apply dict_update_ext. intros v' Hv'.
  rewrite (dict_get_elem _ _ _ Hnd Hv') in Hget. by simplify_eq.
Qed.

Lemma set_game_rooms_id w : set_game_rooms (λ d, d) w = w.
Proof. by destruct w. Qed.

Lemma reset_loop_run room_code pids : ∀ w,
  for_each pids (λ pid,
    update_room room_code (set_finish_times <[pid := None]>) ;;
    update_room room_code (set_results <[pid := None]>) ;;
    update_room room_code (set_guesses <[pid := []]>)) w
  = (ok tt, set_game_rooms (dict_update room_code (λ r, foldl reset_player r pids)) w).
Proof.
  induction pids as [|pid pids IH]; intros w; simpl.
  - unfold set_game_rooms. destruct w. simpl. by rewrite dict_update_id.
  - rewrite run_bind_assoc, run_bind_update_room.
    rewrite run_bind_assoc, run_bind_update_room, run_bind_update_room.
    rewrite IH. f_equal. unfold set_game_rooms. simpl.
    by rewrite !dict_update_compose.
Qed.

Lemma foldl_reset_player_frame r pids :
  players (foldl reset_player r pids) = players r
  ∧ word (foldl reset_player r pids) = word r
  ∧ state (foldl reset_player r pids) = state r
  ∧ start_time (foldl reset_player r pids) = start_time r.
Proof.
  revert r. induction pids as [|pid pids IH]; intros r; simpl; [done |].
  destruct (IH (reset_player r pid)) as (-> & -> & -> & ->). done.
Qed.

Lemma foldl_reset_player_lookup r pids p :
  (p ∈ pids ∨ (guesses r !! p = Some [] ∧ finish_times r !! p = Some None
               ∧ results r !! p = Some None)) →
  guesses (foldl reset_player r pids) !! p = Some []
  ∧ finish_times (foldl reset_player r pids) !! p = Some None
  ∧ results (foldl reset_player r pids) !! p = Some None.
Proof.
  revert r. induction pids as [|pid pids IH]; intros r [Hp|Hp]; simpl.
  - by apply elem_of_nil in Hp.
  - done.
  - apply IH. apply elem_of_cons in Hp as [->|Hp]; [right | by left].
    simpl. by rewrite !lookup_insert_eq.
  - apply IH. right. destruct Hp as (Hg & Hf & Hr). simpl.
    rewrite !lookup_insert. by repeat case_decide.
Qed.

Lemma handle_start_game_run w client_id writer room_code room :
  NoDup (game_rooms w).*1 →
  get_player_room client_id (game_rooms w) = Some (room_code, room) →
  state room = ready →
  ∃ w', handle_start_game client_id writer w = (ok tt, w')
    ∧ game_rooms w'
      = dict_update room_code (started (clock w (clock_reads w))) (game_rooms w)
    ∧ ALL_CLIENTS w' = ALL_CLIENTS w
    ∧ active_timers w' = <[room_code := length (tasks w)]> (active_timers w)
    ∧ tasks w' = tasks w ++ [mkTask room_code pending]
    ∧ closed w' = closed w ∧ clock w' = clock w
    ∧ sent w w'
        (map (λ wr, (wr, "game_started",
                     JObj [("message", JStr "Game dimulai!");
                           ("word_length", JInt WORD_LENGTH);
                           ("max_guesses", JInt MAX_GUESSES);
                           ("duration", JInt GAME_DURATION)]))
             (recipients None (players room) (ALL_CLIENTS w))).
Proof.
  intros Hnd Hfind Hstate.
  destruct (get_player_room_get _ _ _ _ Hnd Hfind) as [Hroom _].
  unfold handle_start_game.
  rewrite run_bind_get_world, Hfind, decide_False by (by rewrite Hstate; intros []).
  rewrite run_bind_update_room, run_bind_time_time, run_bind_update_room.
  rewrite (run_bind_ok _ _ _ _ _ (reset_loop_run room_code (players room) _)).
  set (now := clock w (clock_reads w)).
  assert (Hrooms : ∀ w0, game_rooms w0 = game_rooms w →
    dict_update room_code (λ r, foldl reset_player r (players room))
      (dict_update room_code (set_start_time (Some now))
         (dict_update room_code (set_state playing) (game_rooms w0)))
    = dict_update room_code (started now) (game_rooms w)).
  { intros w0 ->. rewrite !dict_update_compose.
    by apply (dict_update_ext_at _ _ _ _ room). }
  match goal with |- ∃ w', bind (broadcast_to_room _ _ ?d _) _ ?w4 = _ ∧ _ =>
    destruct (broadcast_to_room_run room_code "game_started" d None w4 (started now room))
      as (w5 & Hrun & (Hcl & Hrooms5 & Htimers & Htasks & Hclosed & Hclock & _) & Hsent)
  end.
  { simpl. rewrite !dict_get_update, !decide_True, Hroom by done. done. }
  rewrite (run_bind_ok _ _ _ _ _ Hrun). unfold create_task.
  rewrite run_bind_assoc, run_bind_get_world, run_bind_assoc, run_bind_modify, run_bind_ret.
  eexists. split; [reflexivity |]. simpl in *.
  rewrite Hrooms5, Hcl, Htimers, Htasks, Hclosed, Hclock.
  split; [by apply (Hrooms w) |]. split_and!; try done.
  unfold started in Hsent.
  destruct (foldl_reset_player_frame
              (set_start_time (Some now) (set_state playing room)) (players room))
    as (Hpl & _). rewrite Hpl in Hsent. done.
Qed.

Lemma handle_start_game_rejects_run (w : World) (client_id writer text : string) :
  (get_player_room client_id (game_rooms w) = None ∧ text = "Room tidak ditemukan")
  ∨ (∃ room_code room,
       get_player_room client_id (game_rooms w) = Some (room_code, room)
       ∧ state room ≠ ready ∧ text = "Game tidak bisa dimulai") →
  ∃ w', handle_start_game client_id writer w = (ok tt, w')
        ∧ same_tables w w'
        ∧ sent w w' [(writer, "error", error_message text)].
Proof.
  intros Hcase. unfold handle_start_game. rewrite run_bind_get_world.
  destruct Hcase as [[Hnone ->]|(room_code & room & Hfind & Hst & ->)].
  - rewrite Hnone. apply send_message_run.
  - rewrite Hfind, decide_True by done. apply send_message_run.
Qed.


(** X9: start_game is rejected, with one error message to the sender
    and no other change of the server state, when the client is in no
    room ("Room tidak ditemukan") and when its room is not ready
    ("Game tidak bisa dimulai"). *)
Theorem handle_start_game_rejects (w : World) (client_id writer text : string) :
  (get_player_room client_id (game_rooms w) = None ∧ text = "Room tidak ditemukan")
  ∨ (∃ room_code room,
       get_player_room client_id (game_rooms w) = Some (room_code, room)
       ∧ state room ≠ ready ∧ text = "Game tidak bisa dimulai") →
  ∃ w', handle_start_game client_id writer w = (ok tt, w')
        ∧ same_tables w w'
        ∧ sent w w' [(writer, "error", error_message text)].
Proof.
  intros Hcase. unfold handle_start_game. rewrite run_bind_get_world.
  destruct Hcase as [[Hnone ->]|(room_code & room & Hfind & Hst & ->)].
  - rewrite Hnone. apply send_message_run.
  - rewrite Hfind, decide_True by done. apply send_message_run.
Qed.


Lemma handle_start_game_rejects_witness :
  ∃ w', handle_start_game "alice" "wa" (example_world room_started) = (ok tt, w')
        ∧ same_tables (example_world room_started) w'
        ∧ sent (example_world room_started) w' [("wa", "error", error_message "Game tidak bisa dimulai")].
Proof.
  apply (handle_start_game_rejects (example_world room_started) "alice" "wa"
           "Game tidak bisa dimulai");
    right; exists "ABCDE", room_started;
    split; [reflexivity | split; [discriminate | reflexivity]].
Defined.

(** ** Round end and guesses *)

Lemma determine_winner_ok secret t1 t2 r1 r2 :
  ∃ text, determine_winner secret (Some t1) (Some t2) r1 r2 = ok text.
Proof.
  destruct r1 as [[]|], r2 as [[]|]; simpl;
    try (destruct (float_lt t1 t2); [| destruct (float_lt t2 t1)]); by eexists.
Qed.

(** The round-end check on a room of two players who both have a
    finish time: it returns, finishes the room, cancels the timer and
    broadcasts game_over. *)
Lemma check_game_end_ends_run w room_code room p1 p2 t1 t2 r1 r2 :
  dict_get room_code (game_rooms w) = Some room →
  state room = playing →
  players room = [p1; p2] →
  finish_times room !! p1 = Some (Some t1) →
  finish_times room !! p2 = Some (Some t2) →
  results room !! p1 = Some r1 →
  results room !! p2 = Some r2 →
  ∃ w' text,
    check_game_end room_code w = (ok tt, w')
    ∧ determine_winner (word room) (Some t1) (Some t2) r1 r2 = ok text
    ∧ game_rooms w' = dict_update room_code (set_state finished) (game_rooms w)
    ∧ ALL_CLIENTS w' = ALL_CLIENTS w
    ∧ active_timers w' = delete room_code (active_timers w)
    ∧ tasks w' = match active_timers w !! room_code with
                 | Some task => alter cancel task (tasks w)
                 | None => tasks w
                 end
    ∧ closed w' = closed w ∧ clock w' = clock w
    ∧ sent w w'
        (map (λ wr, (wr, "game_over",
                     JObj [("result", JFmt text); ("word", JStr (word room))]))
             (recipients None [p1; p2] (ALL_CLIENTS w))).
Proof.
  intros Hroom Hstate Hplayers Ht1 Ht2 Hr1 Hr2.
  assert (Hall : all_finished (finish_times room) (players room) = ok true).
  { rewrite Hplayers. simpl. unfold getitem. by rewrite Ht1, Ht2. }
  destruct (determine_winner_ok (word room) t1 t2 r1 r2) as (text & Htext).
  unfold check_game_end.
  rewrite run_bind_get_world, Hroom, decide_False by (by rewrite Hstate; intros []).
  rewrite Hall, run_bind_lift_ok. change (negb true) with false. cbv iota.
  rewrite run_bind_update_room.
  set (w1 := set_game_rooms (dict_update room_code (set_state finished)) w).
  destruct (stop_timer_run room_code w1)
    as (w2 & Hrun2 & Hcl2 & Hrooms2 & Hout2 & Hclosed2 & Hclock2 & _ & Htimers2 & Htasks2).
  rewrite (run_bind_ok _ _ _ _ _ Hrun2).
  rewrite Hplayers. unfold index, getitem. simpl.
  rewrite !run_bind_lift_ok, Ht1, Ht2, Hr1, Hr2, !run_bind_lift_ok.
  rewrite Htext, run_bind_lift_ok.
  assert (Hroom2 : dict_get room_code (game_rooms w2) = Some (set_state finished room)).
  { rewrite Hrooms2. unfold w1. simpl.
    by rewrite dict_get_update, decide_True, Hroom by done. }
  destruct (broadcast_to_room_run room_code "game_over"
              (JObj [("result", JFmt text); ("word", JStr (word room))]) None w2 _ Hroom2)
    as (w3 & Hrun3 & (Hcl3 & Hrooms3 & Htimers3 & Htasks3 & Hclosed3 & Hclock3 & _) & Hsent3).
  exists w3, text. split; [done |]. split; [done |].
  rewrite Hrooms3, Hrooms2, Hcl3, Hcl2, Htimers3, Htimers2, Htasks3, Htasks2,
    Hclosed3, Hclosed2, Hclock3, Hclock2.
  split_and!; try done.
  simpl in Hsent3. rewrite Hplayers, Hcl2 in Hsent3.
  destruct Hsent3 as (msgs & Hout3 & Hhdr). exists msgs.
  split; [by rewrite Hout3, Hout2 | done].
Qed.

Lemma handle_make_guess_rejects_run (w : World) (client_id writer guess : string)
    (data : json) :
  (get_player_room client_id (game_rooms w) = None
     ∧ data = error_message "Game tidak aktif")
  ∨ (∃ room_code room,
       get_player_room client_id (game_rooms w) = Some (room_code, room)
       ∧ state room ≠ playing ∧ data = error_message "Game tidak aktif")
  ∨ (∃ room_code room,
       get_player_room client_id (game_rooms w) = Some (room_code, room)
       ∧ state room = playing
       ∧ finish_times room !! client_id = Some None
       ∧ len (strip (upper guess)) ≠ 5
       ∧ data = JObj [("message", JFmt [Lit "Tebakan harus "; Dec 5; Lit " huruf"])]) →
  ∃ w', handle_make_guess client_id writer guess w = (ok tt, w')
        ∧ same_tables w w'
        ∧ sent w w' [(writer, "error", data)].
Proof.
  intros Hcase. unfold handle_make_guess. cbv zeta. rewrite run_bind_get_world.
  destruct Hcase as [[Hnone ->]|[(room_code & room & Hfind & Hst & ->)
                                 |(room_code & room & Hfind & Hst & Hft & Hlen & ->)]].
  - rewrite Hnone. apply send_message_run.
  - rewrite Hfind, decide_True by done. apply send_message_run.
  - rewrite Hfind, decide_False by (rewrite Hst; intros Hne; by apply Hne).
    unfold getitem. rewrite Hft, run_bind_lift_ok.
    rewrite decide_True by (unfold WORD_LENGTH; lia).
    apply send_message_run.
Qed.

Lemma handle_make_guess_after_finish_run (w : World) (client_id writer guess room_code : string)
    (room : Room) (t : Q) :
  get_player_room client_id (game_rooms w) = Some (room_code, room) →
  state room = playing →
  finish_times room !! client_id = Some (Some t) →
  handle_make_guess client_id writer guess w = (ok tt, w).
Proof.
  intros Hfind Hst Hft. unfold handle_make_guess. cbv zeta.
  rewrite run_bind_get_world, Hfind.
  rewrite decide_False by (rewrite Hst; intros Hne; by apply Hne).
  unfold getitem. by rewrite Hft, run_bind_lift_ok.
Qed.

(** X10: when the round of a two-player room ends because both players
    have a finish time, the timer task registered for the room is
    cancelled and removed from the timer table, and resuming that task
    afterwards changes nothing. *)
Theorem check_game_end_cancels_timer (w : World) (room_code : string) (room : Room)
    (p1 p2 : string) (t1 t2 : Q) (r1 r2 : option Outcome) (task : nat) :
  dict_get room_code (game_rooms w) = Some room →
  state room = playing →
  players room = [p1; p2] →
  finish_times room !! p1 = Some (Some t1) →
  finish_times room !! p2 = Some (Some t2) →
  results room !! p1 = Some r1 →
  results room !! p2 = Some r2 →
  active_timers w !! room_code = Some task →
  tasks w !! task = Some (mkTask room_code pending) →
  ∃ w', check_game_end room_code w = (ok tt, w')
        ∧ active_timers w' !! room_code = None
        ∧ tasks w' !! task = Some (mkTask room_code cancelled)
        ∧ resume_timer task w' = (ok tt, w').
Proof.
  intros Hroom Hstate Hplayers Ht1 Ht2 Hr1 Hr2 Hactive Htask.
  destruct (check_game_end_ends_run w room_code room p1 p2 t1 t2 r1 r2)
    as (w' & text & Hrun & _ & _ & _ & Htimers & Htasks & _); try done.
  exists w'. split; [done |].
  assert (Htask' : tasks w' !! task = Some (mkTask room_code cancelled)).
  { rewrite Htasks, Hactive, list_lookup_alter_eq, Htask. done. }
  split; [by rewrite Htimers, lookup_delete_eq |]. split; [done |].
  by apply (resume_timer_cancelled w' task (mkTask room_code cancelled)).
Qed.

(** The steps of [handle_make_guess] up to the decision on the outcome
    of an accepted guess: the guess is recorded, its result sent to the
    guesser and its count to the other players. *)
Ltac make_guess_prefix Hfind Hstate Hft Hlen Hfb Hhist Hroom w3 :=
  rewrite run_bind_get_world, Hfind,
    decide_False by (rewrite Hstate; intros Hne; by apply Hne);
  unfold getitem at 1; rewrite Hft, run_bind_lift_ok;
  rewrite decide_False by (intros Hne; by apply Hne);
  rewrite Hfb, run_bind_lift_ok; unfold getitem; rewrite Hhist, run_bind_lift_ok;
  rewrite run_bind_update_room, run_bind_send_message;
  match goal with |- context [bind (broadcast_to_room ?rc ?ty ?d ?ex) _ ?w2] =>
    let Hrun := fresh "Hrun" in
    let Htab := fresh "Htab" in
    let Hsent := fresh "Hsent" in
    destruct (broadcast_to_room_run rc ty d ex w2 _
                ltac:(simpl; rewrite dict_get_update, decide_True, Hroom by done;
                      reflexivity))
      as (w3 & Hrun & Htab & Hsent);
    rewrite (run_bind_ok _ _ _ _ _ Hrun)
  end.

Lemma handle_make_guess_continues_run w client_id writer guess room_code room fb history :
  NoDup (game_rooms w).*1 →
  get_player_room client_id (game_rooms w) = Some (room_code, room) →
  state room = playing →
  finish_times room !! client_id = Some None →
  Z.of_nat (len (strip (upper guess))) = WORD_LENGTH →
  check_wordle_guess (strip (upper guess)) (word room) = ok fb →
  guesses room !! client_id = Some history →
  strip (upper guess) ≠ word room →
  (Z.of_nat (length history) + 1 < MAX_GUESSES)%Z →
  ∃ w', handle_make_guess client_id writer guess w = (ok tt, w')
    ∧ game_rooms w'
      = dict_update room_code
          (with_guess client_id (strip (upper guess)) fb history) (game_rooms w)
    ∧ ALL_CLIENTS w' = ALL_CLIENTS w ∧ active_timers w' = active_timers w
    ∧ tasks w' = tasks w ∧ closed w' = closed w ∧ clock w' = clock w
    ∧ sent w w'
        ((writer, "guess_result",
          JObj [("guess", JStr (strip (upper guess)));
                ("feedback", JList (map (λ m, JStr (mark_name m)) fb));
                ("guess_count", JInt (Z.of_nat (length history) + 1));
                ("is_correct", JBool false)])
         :: map (λ wr, (wr, "opponent_guessed",
                        JObj [("guess_count", JInt (Z.of_nat (length history) + 1))]))
                (recipients (Some client_id) (players room) (ALL_CLIENTS w))).
Proof.
  intros Hnd Hfind Hstate Hft Hlen Hfb Hhist Hwrong Hcount.
  destruct (get_player_room_get _ _ _ _ Hnd Hfind) as [Hroom _].
  unfold handle_make_guess. cbv zeta.
  generalize dependent (strip (upper guess)). intros g Hlen Hfb Hwrong.
  make_guess_prefix Hfind Hstate Hft Hlen Hfb Hhist Hroom w3.
  rewrite bool_decide_eq_false_2 by done.
  rewrite length_app, Nat2Z.inj_add in *.
  change (Z.of_nat (length [(g, fb)])) with 1%Z in *.
  rewrite decide_False by (unfold MAX_GUESSES in *; lia).
  exists w3. split; [done |].
  destruct Htab as (Hcl & Hrooms & Htimers & Htasks & Hclosed & Hclock & _).
  simpl in *. rewrite Hrooms, Hcl, Htimers, Htasks, Hclosed, Hclock.
  split_and!; try done.
  destruct Hsent as (msgs & Hout & Hhdr). simpl in Hout. eexists (_ :: msgs).
  split; [by rewrite Hout, <- app_assoc |].
  simpl. f_equal; [| done]. unfold header. simpl.
  by rewrite bool_decide_eq_false_2 by done.
Qed.


Lemma handle_make_guess_finishes_run w client_id writer guess room_code room fb history t0 :
  NoDup (game_rooms w).*1 →
  get_player_room client_id (game_rooms w) = Some (room_code, room) →
  state room = playing →
  finish_times room !! client_id = Some None →
  Z.of_nat (len (strip (upper guess))) = WORD_LENGTH →
  check_wordle_guess (strip (upper guess)) (word room) = ok fb →
  guesses room !! client_id = Some history →
  start_time room = Some t0 →
  strip (upper guess) = word room ∨ (MAX_GUESSES ≤ Z.of_nat (length history) + 1)%Z →
  ∃ w5 k,
    handle_make_guess client_id writer guess w = check_game_end room_code w5
    ∧ clock_reads w ≤ k
    ∧ game_rooms w5
      = dict_update room_code
          (λ r, with_finish client_id (clock w k - t0)
                  (if bool_decide (strip (upper guess) = word room) then won else lost)
                  (with_guess client_id (strip (upper guess)) fb history r))
          (game_rooms w)
    ∧ ALL_CLIENTS w5 = ALL_CLIENTS w ∧ active_timers w5 = active_timers w
    ∧ tasks w5 = tasks w ∧ closed w5 = closed w ∧ clock w5 = clock w
    ∧ ∃ msg,
        sent w w5
          ((writer, "guess_result",
            JObj [("guess", JStr (strip (upper guess)));
                  ("feedback", JList (map (λ m, JStr (mark_name m)) fb));
                  ("guess_count", JInt (Z.of_nat (length history) + 1));
                  ("is_correct", JBool (bool_decide (strip (upper guess) = word room)))])
           :: map (λ wr, (wr, "opponent_guessed",
                          JObj [("guess_count", JInt (Z.of_nat (length history) + 1))]))
                  (recipients (Some client_id) (players room) (ALL_CLIENTS w))
           ++ [(writer, "player_finished",
                JObj [("result",
                       JStr (if bool_decide (strip (upper guess) = word room)
                             then "won" else "lost"));
                      ("time", JFloat (clock w k - t0));
                      ("message", JStr msg)])]).
Proof.
  intros Hnd Hfind Hstate Hft Hlen Hfb Hhist Hstart Hterm.
  destruct (get_player_room_get _ _ _ _ Hnd Hfind) as [Hroom _].
  unfold handle_make_guess. cbv zeta.
  generalize dependent (strip (upper guess)). intros g Hlen Hfb Hterm.
  make_guess_prefix Hfind Hstate Hft Hlen Hfb Hhist Hroom w3.
  rewrite length_app, Nat2Z.inj_add in *.
  change (Z.of_nat (length [(g, fb)])) with 1%Z in *.
  destruct Htab as (Hcl & Hrooms & Htimers & Htasks & Hclosed & Hclock & Hreads).
  destruct Hsent as (msgs & Hout & Hhdr). simpl in *.
  assert (Hnow : clock w3 (clock_reads w3) = clock w (clock_reads w3)) by by rewrite Hclock.
  destruct (bool_decide (g = word room)) eqn:Hcorrect.
  - rewrite run_bind_time_time, Hstart. simpl as_float.
    rewrite run_bind_lift_ok, !run_bind_update_room, run_bind_send_message.
    rewrite Hnow.
    eexists _, (clock_reads w3). split; [reflexivity |]. split; [lia |].
    simpl. rewrite Hrooms, Hcl, Htimers, Htasks, Hclosed, Hclock.
    split; [simpl; by rewrite !dict_update_compose |].
    split_and!; try done.
    eexists. eexists (_ :: msgs ++ [_]). simpl. split.
    + rewrite Hout, <- !app_assoc. reflexivity.
    + unfold header at 1. simpl. f_equal. by rewrite map_app, Hhdr.
  - destruct Hterm as [Heq|Hsix]; [by apply bool_decide_eq_false in Hcorrect |].
    rewrite decide_True by done.
    rewrite run_bind_time_time, Hstart. simpl as_float.
    rewrite run_bind_lift_ok, !run_bind_update_room, run_bind_send_message.
    rewrite Hnow.
    eexists _, (clock_reads w3). split; [reflexivity |]. split; [lia |].
    simpl. rewrite Hrooms, Hcl, Htimers, Htasks, Hclosed, Hclock.
    split; [simpl; by rewrite !dict_update_compose |].
    split_and!; try done.
    eexists. eexists (_ :: msgs ++ [_]). simpl. split.
    + rewrite Hout, <- !app_assoc. reflexivity.
    + unfold header at 1. simpl. f_equal. by rewrite map_app, Hhdr.
Qed.


(** X13: make_guess with a guess free of lower-case non-ASCII letters
    is rejected, with one error message to the sender and no other
    change of the server state, when the client is in no room or its
    room is not being played ("Game tidak aktif"), and, for a player
    of a playing room who has not finished, when the normalized guess
    does not have five characters. *)
Theorem handle_make_guess_rejects (w : World) (client_id writer guess : string)
    (data : json) :
  upper_agrees guess →
  (get_player_room client_id (game_rooms w) = None
     ∧ data = error_message "Game tidak aktif")
  ∨ (∃ room_code room,
       get_player_room client_id (game_rooms w) = Some (room_code, room)
       ∧ state room ≠ playing ∧ data = error_message "Game tidak aktif")
  ∨ (∃ room_code room,
       get_player_room client_id (game_rooms w) = Some (room_code, room)
       ∧ state room = playing
       ∧ finish_times room !! client_id = Some None
       ∧ len (strip (upper guess)) ≠ 5
       ∧ data = JObj [("message", JFmt [Lit "Tebakan harus "; Dec 5; Lit " huruf"])]) →
  ∃ w', handle_make_guess client_id writer guess w = (ok tt, w')
        ∧ same_tables w w'
        ∧ sent w w' [(writer, "error", data)].
Proof.
  intros _ Hcase. unfold handle_make_guess. cbv zeta. rewrite run_bind_get_world.
  destruct Hcase as [[Hnone ->]|[(room_code & room & Hfind & Hst & ->)
                                 |(room_code & room & Hfind & Hst & Hft & Hlen & ->)]].
  - rewrite Hnone. apply send_message_run.
  - rewrite Hfind, decide_True by done. apply send_message_run.
  - rewrite Hfind, decide_False by (rewrite Hst; intros Hne; by apply Hne).
    unfold getitem. rewrite Hft, run_bind_lift_ok.
    rewrite decide_True by (unfold WORD_LENGTH; lia).
    apply send_message_run.
Qed.


Lemma check_game_end_cancels_timer_witness :
  ∃ w', check_game_end "ABCDE" (example_world room_both_done) = (ok tt, w')
        ∧ active_timers w' !! "ABCDE" = None
        ∧ tasks w' !! 0 = Some (mkTask "ABCDE" cancelled)
        ∧ resume_timer 0 w' = (ok tt, w').
Proof.
  apply (check_game_end_cancels_timer (example_world room_both_done) "ABCDE" room_both_done
           "alice" "bob" 30%Q 45%Q (Some won) (Some won) 0);
    reflexivity.
Defined.




Lemma handle_make_guess_rejects_witness :
  ∃ w', handle_make_guess "alice" "wa" "pear" (example_world room_started) = (ok tt, w')
        ∧ same_tables (example_world room_started) w'
        ∧ sent (example_world room_started) w' [("wa", "error", (JObj [("message", JFmt [Lit "Tebakan harus "; Dec 5; Lit " huruf"])]))].
Proof.
  apply (handle_make_guess_rejects (example_world room_started) "alice" "wa" "pear"
           (JObj [("message", JFmt [Lit "Tebakan harus "; Dec 5; Lit " huruf"])]));
    [unfold upper_agrees; simpl; repeat constructor
    | right; right; exists "ABCDE", room_started;
      split; [reflexivity |]; split; [reflexivity |]; split; [reflexivity |];
      split; [intros H; vm_compute in H; discriminate H | reflexivity]].
Defined.

(** ** Rematch *)

Lemma handle_rematch_run w client_id writer room_code room :
  NoDup (game_rooms w).*1 →
  get_player_room client_id (game_rooms w) = Some (room_code, room) →
  state room = finished →
  ∃ w' new_word,
    handle_rematch client_id writer w = (ok tt, w')
    ∧ new_word ∈ WORD_BANK
    ∧ game_rooms w' = dict_set room_code (rematch_room room new_word) (game_rooms w)
    ∧ ALL_CLIENTS w' = ALL_CLIENTS w
    ∧ active_timers w' = delete room_code (active_timers w)
    ∧ tasks w' = match active_timers w !! room_code with
                 | Some task => alter cancel task (tasks w)
                 | None => tasks w
                 end
    ∧ closed w' = closed w ∧ clock w' = clock w
    ∧ sent w w'
        (map (λ wr, (wr, "rematch_ready",
                     JObj [("message", JStr "Rematch siap! Tekan START.")]))
             (recipients None (players room) (ALL_CLIENTS w))).
Proof.
  intros Hnd Hfind Hstate. unfold handle_rematch.
  rewrite run_bind_get_world, Hfind, decide_False by (rewrite Hstate; intros Hne; by apply Hne).
  destruct (stop_timer_run room_code w)
    as (w1 & Hrun1 & Hcl1 & Hrooms1 & Hout1 & Hclosed1 & Hclock1 & _ & Htimers1 & Htasks1).
  rewrite (run_bind_ok _ _ _ _ _ Hrun1). cbv zeta.
  destruct (random_choice_run WORD_BANK w1) as (new_word & Hrun2 & Hbank); [done |].
  rewrite (run_bind_ok _ _ _ _ _ Hrun2), run_bind_modify.
  match goal with |- ∃ w' _, broadcast_to_room _ _ ?d _ ?w3 = _ ∧ _ =>
    destruct (broadcast_to_room_run room_code "rematch_ready" d None w3
                (rematch_room room new_word))
      as (w4 & Hrun4 & (Hcl4 & Hrooms4 & Htimers4 & Htasks4 & Hclosed4 & Hclock4 & _) & Hsent4)
  end.
  { simpl. by rewrite dict_get_set, decide_True. }
  exists w4, new_word. split; [done |]. split; [done |]. simpl in *.
  rewrite Hrooms4, Hrooms1, Hcl4, Hcl1, Htimers4, Htimers1, Htasks4, Htasks1,
    Hclosed4, Hclosed1, Hclock4, Hclock1.
  split_and!; try done.
  rewrite Hcl1 in Hsent4. destruct Hsent4 as (msgs & Hout & Hhdr). exists msgs.
  simpl in Hout. split; [by rewrite Hout, Hout1 | done].
Qed.

Lemma handle_rematch_rejects_run (w : World) (client_id writer : string) :
  get_player_room client_id (game_rooms w) = None
  ∨ (∃ room_code room,
       get_player_room client_id (game_rooms w) = Some (room_code, room)
       ∧ state room ≠ finished) →
  ∃ w', handle_rematch client_id writer w = (ok tt, w')
        ∧ same_tables w w'
        ∧ sent w w' [(writer, "error", error_message "Tidak bisa rematch")].
Proof.
  intros Hcase. unfold handle_rematch. rewrite run_bind_get_world.
  destruct Hcase as [Hnone|(room_code & room & Hfind & Hst)].
  - rewrite Hnone. apply send_message_run.
  - rewrite Hfind, decide_True by done. apply send_message_run.
Qed.


(** X16: rematch is rejected, with the error "Tidak bisa rematch" to
    the sender and no other change of the server state, when the client
    is in no room and when its room is not finished. *)
Theorem handle_rematch_rejects (w : World) (client_id writer : string) :
  get_player_room client_id (game_rooms w) = None
  ∨ (∃ room_code room,
       get_player_room client_id (game_rooms w) = Some (room_code, room)
       ∧ state room ≠ finished) →
  ∃ w', handle_rematch client_id writer w = (ok tt, w')
        ∧ same_tables w w'
        ∧ sent w w' [(writer, "error", error_message "Tidak bisa rematch")].
Proof.
  intros Hcase. unfold handle_rematch. rewrite run_bind_get_world.
  destruct Hcase as [Hnone|(room_code & room & Hfind & Hst)].
  - rewrite Hnone. apply send_message_run.
  - rewrite Hfind, decide_True by done. apply send_message_run.
Qed.


Lemma handle_rematch_rejects_witness :
  ∃ w', handle_rematch "alice" "wa" (example_world room_started) = (ok tt, w')
        ∧ same_tables (example_world room_started) w'
        ∧ sent (example_world room_started) w' [("wa", "error", error_message "Tidak bisa rematch")].
Proof.
  apply (handle_rematch_rejects (example_world room_started) "alice" "wa");
    right; exists "ABCDE", room_started; split; [reflexivity | discriminate].
Defined.

(** ** No handler raises in a sound state *)

Lemma world_ok_room w room_code room :
  world_ok w → dict_get room_code (game_rooms w) = Some room → room_ok room.
Proof.
  intros [_ Hall] Hget. rewrite Forall_forall in Hall.
  apply (Hall _ (dict_get_Some_elem _ _ _ Hget)).
Qed.

Lemma world_ok_found w client_id room_code room :
  world_ok w → get_player_room client_id (game_rooms w) = Some (room_code, room) →
  dict_get room_code (game_rooms w) = Some room ∧ client_id ∈ players room
  ∧ room_ok room.
Proof.
  intros Hw Hfind. destruct (get_player_room_get _ _ _ _ (proj1 Hw) Hfind) as [Hget Hin].
  split; [done |]. split; [done |]. by eapply world_ok_room.
Qed.

Lemma world_ok_same w w' : game_rooms w' = game_rooms w → world_ok w → world_ok w'.
Proof. intros Heq. unfold world_ok. by rewrite Heq. Qed.

Lemma world_ok_update_at w w' room_code room f :
  world_ok w →
  dict_get room_code (game_rooms w) = Some room →
  room_ok (f room) →
  game_rooms w' = dict_update room_code f (game_rooms w) →
  world_ok w'.
Proof.
  intros [Hnd Hall] Hroom Hf Heq. unfold world_ok. rewrite Heq. split.
  - by rewrite dict_update_keys.
  - apply Forall_forall. intros [k v'] Hkv.
    apply dict_update_elem in Hkv as (v & Hv & Hveq). simpl in *. subst v'.
    case_decide as Hk.
    + subst k. rewrite (dict_get_elem _ _ _ Hnd Hv) in Hroom. by simplify_eq.
    + rewrite Forall_forall in Hall. apply (Hall _ Hv).
Qed.

Lemma world_ok_update w room_code f :
  (∀ r, room_ok r → room_ok (f r)) →
  world_ok w → world_ok (set_game_rooms (dict_update room_code f) w).
Proof.
  intros Hf [Hnd Hall]. split; simpl.
  - by rewrite dict_update_keys.
  - apply Forall_forall. intros kv Hkv.
    apply dict_update_elem in Hkv as (v & Hv & ->).
    rewrite Forall_forall in Hall. specialize (Hall _ Hv). simpl in Hall.
    case_decide; [by apply Hf | done].
Qed.

Lemma world_ok_set w w' room_code room :
  world_ok w → room_ok room →
  game_rooms w' = dict_set room_code room (game_rooms w) →
  world_ok w'.
Proof.
  intros [Hnd Hall] Hroom Heq. unfold world_ok. rewrite Heq. split.
  - by apply dict_set_NoDup.
  - apply Forall_forall. intros kv Hkv.
    apply dict_set_elem in Hkv as [->|Hkv]; [done |].
    rewrite Forall_forall in Hall. by apply Hall.
Qed.

Lemma world_ok_del w w' room_code :
  world_ok w → game_rooms w' = dict_del room_code (game_rooms w) → world_ok w'.
Proof.
  intros [Hnd Hall] Heq. unfold world_ok. rewrite Heq. split.
  - by apply dict_del_NoDup.
  - apply Forall_forall. intros kv Hkv. apply dict_del_elem in Hkv.
    rewrite Forall_forall in Hall. by apply Hall.
Qed.

Lemma world_ok_about_rooms : about_rooms world_ok.
Proof. intros w w' Heq. by apply world_ok_same. Qed.

Lemma room_ok_new_room client_id secret :
  secret ∈ WORD_BANK → room_ok (new_room client_id secret).
Proof. intros Hs. split; [by apply room_inv_new_room |]. by split. Qed.

Lemma room_ok_joined client_id room :
  room_ok room → length (players room) < 2 → room_ok (joined client_id room).
Proof.
  intros (Hinv & _ & _) Hlen. split; [apply room_inv_join; [done | lia] |].
  split; [| done]. intros _. simpl. rewrite length_app. simpl.
  destruct Hinv as ([? ?] & _). lia.
Qed.

Lemma room_ok_insert_guesses p v r : room_ok r → room_ok (set_guesses <[p := v]> r).
Proof. intros (Hinv & ? & ?). split; [by apply room_inv_set_guesses | done]. Qed.

Lemma room_ok_insert_finish_times p v r :
  room_ok r → room_ok (set_finish_times <[p := v]> r).
Proof. intros (Hinv & ? & ?). split; [by apply room_inv_set_finish_times | done]. Qed.

Lemma room_ok_insert_results p v r : room_ok r → room_ok (set_results <[p := v]> r).
Proof. intros (Hinv & ? & ?). split; [by apply room_inv_set_results | done]. Qed.

Lemma room_ok_reset_players r pids : room_ok r → room_ok (foldl reset_player r pids).
Proof.
  revert r. induction pids as [|pid pids IH]; intros r Hr; simpl; [done |].
  apply IH. unfold reset_player.
  by apply room_ok_insert_guesses, room_ok_insert_results, room_ok_insert_finish_times.
Qed.

Lemma room_ok_started now room :
  room_ok room → state room = ready → room_ok (started now room).
Proof.
  intros (Hinv & Hlen & _) Hstate. unfold started. apply room_ok_reset_players.
  split; [done |]. split; simpl; [| by eexists].
  intros _. apply Hlen. by rewrite Hstate.
Qed.

Lemma room_ok_finished room :
  room_ok room → state room = playing → room_ok (set_state finished room).
Proof.
  intros (Hinv & Hlen & _) Hstate. split; [done |]. split; simpl; [| done].
  intros _. apply Hlen. by rewrite Hstate.
Qed.

Lemma room_ok_rematch room new_word :
  room_ok room → state room = finished → new_word ∈ WORD_BANK →
  room_ok (rematch_room room new_word).
Proof.
  intros ((Hlen & Hkeys & Hword) & Htwo & _) Hstate Hbank.
  split; [| split; simpl; [| done]].
  - split; [done |]. split; simpl.
    + intros p Hp. rewrite !dict_from_keys_lookup by done. by split_and!.
    + by rewrite upper_len, WORD_BANK_len.
  - intros _. apply Htwo. by rewrite Hstate.
Qed.

Lemma server_ok_frame clients w w' :
  game_rooms w' = game_rooms w → ALL_CLIENTS w' = ALL_CLIENTS w →
  server_ok clients w → server_ok clients w'.
Proof.
  intros Hrooms Hcl [Hw Hreg]. split; [by eapply world_ok_same |].
  intros c Hc. rewrite Hcl. by apply Hreg.
Qed.

Lemma server_ok_same_tables clients w w' :
  same_tables w w' → server_ok clients w → server_ok clients w'.
Proof. intros (Hcl & Hrooms & _). by apply server_ok_frame. Qed.

(** The round-end check returns in every sound state. *)
Lemma check_game_end_returns clients room_code w :
  server_ok clients w →
  ∃ w', check_game_end room_code w = (ok tt, w') ∧ server_ok clients w'.
Proof.
  intros Hok. destruct Hok as [Hw Hreg].
  destruct (dict_get room_code (game_rooms w)) as [room|] eqn:Hroom.
  2:{ exists w. split; [| done]. unfold check_game_end.
      by rewrite run_bind_get_world, Hroom. }
  destruct (decide (state room = playing)) as [Hstate|Hstate].
  2:{ exists w. split; [| done]. unfold check_game_end.
      by rewrite run_bind_get_world, Hroom, decide_True. }
  pose proof (world_ok_room _ _ _ Hw Hroom) as Hrok.
  destruct Hrok as ((Hlen & Hkeys & Hword) & Htwo & Hstart).
  pose proof (world_ok_room _ _ _ Hw Hroom) as Hrok.
  destruct (all_finished_spec (finish_times room) (players room)) as ([|] & Hall & Hb).
  { intros p Hp. by apply Hkeys. }
  - assert (Hlen2 : length (players room) = 2) by (apply Htwo; by rewrite Hstate).
    destruct (players room) as [|p1 [|p2 [|]]] eqn:Hplayers; try done.
    destruct (proj1 Hb eq_refl p1) as [t1 Ht1]; [by left |].
    destruct (proj1 Hb eq_refl p2) as [t2 Ht2]; [right; by left |].
    destruct (Hkeys p1) as (_ & _ & [r1 Hr1]); [by left |].
    destruct (Hkeys p2) as (_ & _ & [r2 Hr2]); [right; by left |].
    destruct (check_game_end_ends_run w room_code room p1 p2 t1 t2 r1 r2)
      as (w' & text & Hrun & _ & Hrooms & Hcl & _); try done.
    exists w'. split; [done |]. split.
    + eapply world_ok_update_at; [done | done | | done].
      by apply room_ok_finished.
    + intros c Hc. rewrite Hcl. by apply Hreg.
  - exists w. split; [by apply (check_game_end_waits w room_code room) | done].
Qed.

Lemma handle_create_room_run w client_id writer entry :
  ALL_CLIENTS w !! client_id = Some entry →
  ∃ room_code secret w',
    handle_create_room client_id writer w = (ok tt, w')
    ∧ (generate_room_code w).1 = ok room_code
    ∧ secret ∈ WORD_BANK
    ∧ game_rooms w' = dict_set room_code (new_room client_id secret) (game_rooms w)
    ∧ ALL_CLIENTS w' = <[client_id := (writer, Some room_code)]> (ALL_CLIENTS w)
    ∧ active_timers w' = active_timers w ∧ tasks w' = tasks w
    ∧ closed w' = closed w ∧ clock w' = clock w
    ∧ sent w w' [(writer, "room_created", JObj [("room_code", JStr room_code)])].
Proof.
  intros Hentry.
  destruct (generate_room_code_run w) as (room_code & n & Hrun1).
  destruct (random_choice_run WORD_BANK (set_rng_reads (λ _, n) w))
    as (secret & Hrun2 & Hbank); [done |].
  exists room_code, secret. eexists. unfold handle_create_room.
  rewrite (run_bind_ok _ _ _ _ _ Hrun1), (run_bind_ok _ _ _ _ _ Hrun2).
  rewrite run_bind_modify, run_bind_get_world. simpl ALL_CLIENTS.
  unfold getitem. rewrite Hentry, run_bind_lift_ok, run_bind_modify.
  unfold send_message. rewrite run_bind_time_time.
  split; [reflexivity |]. rewrite Hrun1. simpl.
  split_and!; try done. eexists. split; [reflexivity | done].
Qed.

Lemma handle_create_room_returns clients client_id writer w :
  server_ok clients w → client_id ∈ clients →
  ∃ w', handle_create_room client_id writer w = (ok tt, w') ∧ server_ok clients w'.
Proof.
  intros [Hw Hreg] Hc. destruct (Hreg client_id Hc) as [entry Hentry].
  destruct (handle_create_room_run w client_id writer entry Hentry)
    as (room_code & secret & w' & Hrun & _ & Hbank & Hrooms & Hcl & _).
  exists w'. split; [done |]. split.
  - eapply world_ok_set; [done | by apply room_ok_new_room | done].
  - intros c Hc'. rewrite Hcl, lookup_insert. case_decide; [by eexists | by apply Hreg].
Qed.

Lemma handle_join_room_returns clients client_id writer code w :
  server_ok clients w → client_id ∈ clients →
  ∃ w', handle_join_room client_id writer code w = (ok tt, w') ∧ server_ok clients w'.
Proof.
  intros Hok Hc. pose proof Hok as [Hw Hreg]. destruct (Hreg client_id Hc) as [entry Hentry].
  destruct (dict_get (strip (upper code)) (game_rooms w)) as [room|] eqn:Hroom.
  2:{ destruct (handle_join_room_rejects_run w client_id writer code "Room tidak ditemukan")
        as (w' & Hrun & Htab & _); [by left |].
      exists w'. split; [done | by eapply server_ok_same_tables]. }
  destruct (decide (2 ≤ length (players room))) as [Hfull|Hfull].
  { destruct (handle_join_room_rejects_run w client_id writer code "Room penuh")
      as (w' & Hrun & Htab & _); [right; left; by exists room |].
    exists w'. split; [done | by eapply server_ok_same_tables]. }
  destruct (decide (state room = waiting)) as [Hstate|Hstate].
  2:{ destruct (handle_join_room_rejects_run w client_id writer code "Game sudah dimulai")
        as (w' & Hrun & Htab & _).
      { right; right. exists room. split; [done |]. split; [lia | done]. }
      exists w'. split; [done | by eapply server_ok_same_tables]. }
  destruct (handle_join_room_run w client_id writer code room entry)
    as (w' & Hrun & Hrooms & Hcl & _); [done | lia | done | done |].
  exists w'. split; [done |]. split.
  - eapply world_ok_update_at; [done | done | | done].
    apply room_ok_joined; [by eapply world_ok_room | lia].
  - intros c Hc'. rewrite Hcl, lookup_insert. case_decide; [by eexists | by apply Hreg].
Qed.

Lemma handle_start_game_returns clients client_id writer w :
  server_ok clients w →
  ∃ w', handle_start_game client_id writer w = (ok tt, w') ∧ server_ok clients w'.
Proof.
  intros Hok. pose proof Hok as [Hw Hreg].
  destruct (get_player_room client_id (game_rooms w)) as [[room_code room]|] eqn:Hfind.
  2:{ destruct (handle_start_game_rejects_run w client_id writer "Room tidak ditemukan")
        as (w' & Hrun & Htab & _); [by left |].
      exists w'. split; [done | by eapply server_ok_same_tables]. }
  destruct (world_ok_found _ _ _ _ Hw Hfind) as (Hroom & Hin & Hrok).
  destruct (decide (state room = ready)) as [Hstate|Hstate].
  2:{ destruct (handle_start_game_rejects_run w client_id writer "Game tidak bisa dimulai")
        as (w' & Hrun & Htab & _); [right; by exists room_code, room |].
      exists w'. split; [done | by eapply server_ok_same_tables]. }
  destruct (handle_start_game_run w client_id writer room_code room (proj1 Hw) Hfind Hstate)
    as (w' & Hrun & Hrooms & Hcl & _).
  exists w'. split; [done |]. split.
  - eapply world_ok_update_at; [done | done | | done]. by apply room_ok_started.
  - intros c Hc'. rewrite Hcl. by apply Hreg.
Qed.

Lemma handle_rematch_returns clients client_id writer w :
  server_ok clients w →
  ∃ w', handle_rematch client_id writer w = (ok tt, w') ∧ server_ok clients w'.
Proof.
  intros Hok. pose proof Hok as [Hw Hreg].
  destruct (get_player_room client_id (game_rooms w)) as [[room_code room]|] eqn:Hfind.
  2:{ destruct (handle_rematch_rejects_run w client_id writer) as (w' & Hrun & Htab & _);
        [by left |].
      exists w'. split; [done | by eapply server_ok_same_tables]. }
  destruct (world_ok_found _ _ _ _ Hw Hfind) as (Hroom & Hin & Hrok).
  destruct (decide (state room = finished)) as [Hstate|Hstate].
  2:{ destruct (handle_rematch_rejects_run w client_id writer) as (w' & Hrun & Htab & _);
        [right; by exists room_code, room |].
      exists w'. split; [done | by eapply server_ok_same_tables]. }
  destruct (handle_rematch_run w client_id writer room_code room (proj1 Hw) Hfind Hstate)
    as (w' & new_word & Hrun & Hbank & Hrooms & Hcl & _).
  exists w'. split; [done |]. split.
  - eapply world_ok_set; [done | by apply room_ok_rematch | done].
  - intros c Hc'. rewrite Hcl. by apply Hreg.
Qed.

Lemma handle_make_guess_returns clients client_id writer guess w :
  server_ok clients w →
  ∃ w', handle_make_guess client_id writer guess w = (ok tt, w') ∧ server_ok clients w'.
Proof.
  intros Hok. pose proof Hok as [Hw Hreg].
  destruct (get_player_room client_id (game_rooms w)) as [[room_code room]|] eqn:Hfind.
  2:{ destruct (handle_make_guess_rejects_run w client_id writer guess
                  (error_message "Game tidak aktif")) as (w' & Hrun & Htab & _);
        [by left |].
      exists w'. split; [done | by eapply server_ok_same_tables]. }
  destruct (world_ok_found _ _ _ _ Hw Hfind) as (Hroom & Hin & Hrok).
  destruct (decide (state room = playing)) as [Hstate|Hstate].
  2:{ destruct (handle_make_guess_rejects_run w client_id writer guess
                  (error_message "Game tidak aktif")) as (w' & Hrun & Htab & _);
        [right; left; by exists room_code, room |].
      exists w'. split; [done | by eapply server_ok_same_tables]. }
  pose proof Hrok as ((Hlen & Hkeys & Hword) & Htwo & Hstart).
  destruct (Hkeys client_id Hin) as ([history Hhist] & [ft Hft] & _).
  destruct ft as [t|].
  { exists w. split; [by eapply handle_make_guess_after_finish_run | done]. }
  destruct (decide (len (strip (upper guess)) = 5)) as [Hglen|Hglen].
  2:{ destruct (handle_make_guess_rejects_run w client_id writer guess
                  (JObj [("message", JFmt [Lit "Tebakan harus "; Dec 5; Lit " huruf"])]))
        as (w' & Hrun & Htab & _).
      { right; right. by exists room_code, room. }
      exists w'. split; [done | by eapply server_ok_same_tables]. }
  assert (Hwlen : len (word room) = 5) by (unfold WORD_LENGTH in Hword; lia).
  destruct (check_wordle_guess_inv (strip (upper guess)) (word room))
    as (fb & cnt & Hfb & _); [congruence |].
  destruct (Hstart Hstate) as [t0 Ht0].
  assert (HglenZ : Z.of_nat (len (strip (upper guess))) = WORD_LENGTH) by by rewrite Hglen.
  destruct (decide (strip (upper guess) = word room
                    ∨ (MAX_GUESSES ≤ Z.of_nat (length history) + 1)%Z)) as [Hterm|Hterm].
  - destruct (handle_make_guess_finishes_run w client_id writer guess room_code room
                fb history t0 (proj1 Hw) Hfind Hstate Hft HglenZ Hfb Hhist Ht0 Hterm)
      as (w5 & k & Hrun & _ & Hrooms & Hcl & _).
    rewrite Hrun. apply check_game_end_returns. split.
    + eapply world_ok_update_at; [done | done | | done].
      unfold with_finish, with_guess.
      by apply room_ok_insert_results, room_ok_insert_finish_times, room_ok_insert_guesses.
    + intros c Hc'. rewrite Hcl. by apply Hreg.
  - assert (Hwrong : strip (upper guess) ≠ word room).
    { intros Heq. apply Hterm. by left. }
    assert (Hcount : (Z.of_nat (length history) + 1 < MAX_GUESSES)%Z).
    { destruct (decide (Z.of_nat (length history) + 1 < MAX_GUESSES)%Z); [done |].
      destruct Hterm. right. lia. }
    destruct (handle_make_guess_continues_run w client_id writer guess room_code room
                fb history (proj1 Hw) Hfind Hstate Hft HglenZ Hfb Hhist Hwrong Hcount)
      as (w' & Hrun & Hrooms & Hcl & _).
    exists w'. split; [done |]. split.
    + eapply world_ok_update_at; [done | done | | done].
      unfold with_guess. by apply room_ok_insert_guesses.
    + intros c Hc'. rewrite Hcl. by apply Hreg.
Qed.

Lemma timer_loop_preserves_ok room_code pids :
  preserves world_ok (for_each pids (timer_game_body room_code)).
Proof.
  pose proof world_ok_about_rooms as HI.
  apply preserves_for_each. intros pid. unfold timer_game_body, read_room.
  apply preserves_bind.
  { apply preserves_bind; [apply preserves_get_world | intros w].
    destruct (dict_get room_code (game_rooms w)); [apply preserves_ret | apply preserves_lift]. }
  intros r. apply preserves_bind; [apply preserves_lift | intros t].
  destruct t; [apply preserves_ret |].
  apply preserves_bind; [by apply preserves_time_time | intros now].
  apply preserves_bind; [apply preserves_lift | intros t0].
  apply preserves_bind; [| intros _]; apply preserves_modify; intros w Hw;
    apply world_ok_update; [| done | | done]; intros r' Hr'.
  - by apply room_ok_insert_finish_times.
  - by apply room_ok_insert_results.
Qed.

Lemma timer_game_returns clients room_code wake w :
  server_ok clients w →
  ∃ w', timer_game room_code wake w = (ok tt, w') ∧ server_ok clients w'.
Proof.
  intros Hok. pose proof Hok as [Hw Hreg].
  destruct wake; [| by exists w].
  unfold timer_game. rewrite run_bind_get_world.
  destruct (dict_get room_code (game_rooms w)) as [room|] eqn:Hroom; [| by exists w].
  destruct (decide (state room ≠ playing)) as [Hstate|Hstate]; [by exists w |].
  assert (Hplaying : state room = playing) by (by destruct (state room); try done; destruct Hstate).
  pose proof (world_ok_room _ _ _ Hw Hroom) as ((Hlen & Hkeys & Hword) & Htwo & Hstart).
  destruct (Hstart Hplaying) as [t0 Ht0].
  destruct (timer_loop_run room_code (players room) w room t0 Hroom Ht0)
    as (w1 & r1 & Hrun1 & Hroom1 & Hexp & _ & _ & _ & Hcl1 & _).
  { intros p Hp. by apply Hkeys. }
  rewrite (run_bind_ok _ _ _ _ _ Hrun1), run_bind_modify.
  apply check_game_end_returns. split.
  - apply (world_ok_same w1); [done |].
    pose proof (timer_loop_preserves_ok room_code (players room) w Hw) as Hw1.
    by rewrite Hrun1 in Hw1.
  - intros c Hc. simpl. rewrite Hcl1. by apply Hreg.
Qed.

Lemma cleanup_client_returns clients client_id writer w :
  server_ok clients w →
  ∃ w', cleanup_client client_id writer w = (ok tt, w')
        ∧ server_ok (filter (λ c, c ≠ client_id) clients) w'
        ∧ ALL_CLIENTS w' !! client_id = None
        ∧ closed w' = closed w ++ [writer].
Proof.
  intros Hok. pose proof Hok as [Hw Hreg].
  assert (Hdone : ∀ w1, world_ok w1 → ALL_CLIENTS w1 = ALL_CLIENTS w → closed w1 = closed w →
    let w' := set_closed (λ c, c ++ [writer]) (set_ALL_CLIENTS (delete client_id) w1) in
    server_ok (filter (λ c, c ≠ client_id) clients) w'
    ∧ ALL_CLIENTS w' !! client_id = None ∧ closed w' = closed w ++ [writer]).
  { intros w1 Hw1 Hcl Hclosed. simpl. rewrite Hcl, Hclosed.
    split; [| split; [apply lookup_delete_eq | done]].
    split; [done |]. intros c Hc. apply list_elem_of_filter in Hc as [Hne Hc]. simpl.
    rewrite lookup_delete_ne by done. rewrite Hcl. by apply Hreg. }
  unfold cleanup_client. rewrite run_bind_get_world.
  destruct (get_player_room client_id (game_rooms w)) as [[room_code room]|] eqn:Hfind.
  2:{ rewrite run_bind_ret, !run_bind_modify. eexists. split; [reflexivity |].
      by apply (Hdone w). }
  destruct (decide (room_code = EmptyString)) as [Hempty|Hempty].
  { rewrite run_bind_ret, !run_bind_modify. eexists. split; [reflexivity |].
    by apply (Hdone w). }
  destruct (world_ok_found _ _ _ _ Hw Hfind) as (Hroom & _ & _).
  destruct (stop_timer_run room_code w)
    as (w1 & Hrun1 & Hcl1 & Hrooms1 & _ & Hclosed1 & _).
  rewrite !run_bind_assoc, (run_bind_ok _ _ _ _ _ Hrun1).
  destruct (decide (state room = ready ∨ state room = playing)) as [Hstate|Hstate]; cbv iota.
  - assert (Hroom1 : dict_get room_code (game_rooms w1) = Some room) by by rewrite Hrooms1.
    destruct (broadcast_to_room_run room_code "opponent_disconnected" disconnect_notice
                (Some client_id) w1 room Hroom1)
      as (w2 & Hrun2 & (Hcl2 & Hrooms2 & _ & _ & Hclosed2 & _) & _).
    rewrite !run_bind_assoc, (run_bind_ok _ _ _ _ _ Hrun2), !run_bind_modify.
    eexists. split; [reflexivity |].
    apply (Hdone (set_game_rooms (dict_del room_code) w2)); simpl; [| congruence..].
    apply (world_ok_del w _ room_code); [done |]. simpl. congruence.
  - rewrite !run_bind_assoc, run_bind_ret, !run_bind_modify.
    eexists. split; [reflexivity |].
    apply (Hdone (set_game_rooms (dict_del room_code) w1)); simpl; [| congruence..].
    apply (world_ok_del w _ room_code); [done |]. simpl. congruence.
Qed.

Lemma handle_client_returns clients writer w :
  server_ok clients w →
  ∃ client_id w', handle_client writer w = (ok client_id, w')
                  ∧ server_ok (client_id :: clients) w'
                  ∧ ALL_CLIENTS w' !! client_id = Some (writer, None).
Proof.
  intros [Hw Hreg].
  destruct (generate_client_id_run w) as (client_id & w1 & Hrun1 & Htab1 & _).
  destruct (send_message_run writer "welcome" (welcome_data client_id) w1)
    as (w2 & Hrun2 & Htab2 & _).
  exists client_id, (set_ALL_CLIENTS <[client_id := (writer, None)]> w2).
  split.
  { unfold handle_client.
    rewrite (run_bind_ok _ _ _ _ _ Hrun1), (run_bind_ok _ _ _ _ _ Hrun2).
    by rewrite run_bind_modify. }
  destruct Htab1 as (Hcl1 & Hrooms1 & _). destruct Htab2 as (Hcl2 & Hrooms2 & _).
  split; [| simpl; by rewrite lookup_insert_eq]. split.
  - apply (world_ok_same w); [simpl; congruence | done].
  - intros c Hc. simpl. rewrite lookup_insert. case_decide; [by eexists |].
    apply elem_of_cons in Hc as [->|Hc]; [done |]. rewrite Hcl2, Hcl1. by apply Hreg.
Qed.


(** X18: connecting and disconnecting keep the server state sound and
    never raise: a new connection returns a client id that is then
    registered with its writer and no room, next to the clients
    connected before; the cleanup of a client returns, removes the
    client from the client table, closes its writer and leaves every
    other client connected. *)
Theorem sessions_never_raise (clients : list string) (w : World)
    (client_id writer : string) :
  server_ok clients w →
  (∃ new_id w', handle_client writer w = (ok new_id, w')
                ∧ server_ok (new_id :: clients) w'
                ∧ ALL_CLIENTS w' !! new_id = Some (writer, None))
  ∧ (∃ w', cleanup_client client_id writer w = (ok tt, w')
           ∧ server_ok (filter (λ c, c ≠ client_id) clients) w'
           ∧ ALL_CLIENTS w' !! client_id = None
           ∧ closed w' = closed w ++ [writer]).
Proof.
  intros Hok. split.
  - by apply handle_client_returns.
  - by apply cleanup_client_returns.
Qed.

Lemma server_ok_initial : server_ok [] initial_world.
Proof.
  split; [split; [apply NoDup_nil_2 | done] |]. intros c Hc. by apply elem_of_nil in Hc.
Qed.

Lemma server_ok_example : server_ok ["alice"; "bob"] (example_world room_started).
Proof.
  split.
  - split; simpl; [apply NoDup_singleton |]. apply Forall_singleton.
    split; [| split; simpl; [done | by eexists]].
    destruct (example_world_inv playing None None None None) as [_ Hall].
    simpl in Hall. rewrite Forall_singleton in Hall. exact Hall.
  - intros c Hc. apply elem_of_cons in Hc as [->|Hc]; [by eexists |].
    apply list_elem_of_singleton in Hc as ->. by eexists.
Qed.


Lemma sessions_never_raise_witness :
  (∃ new_id w', handle_client "wa" (example_world room_started) = (ok new_id, w')
                ∧ server_ok (new_id :: ["alice"; "bob"]) w'
                ∧ ALL_CLIENTS w' !! new_id = Some ("wa", None))
  ∧ (∃ w', cleanup_client "alice" "wa" (example_world room_started) = (ok tt, w')
           ∧ server_ok (filter (λ c, c ≠ "alice") ["alice"; "bob"]) w'
           ∧ ALL_CLIENTS w' !! "alice" = None
           ∧ closed w' = closed (example_world room_started) ++ ["wa"]).
Proof.
  apply (sessions_never_raise ["alice"; "bob"] (example_world room_started) "alice" "wa");
    apply server_ok_example.
Defined.

(** ** The command router *)

Lemma run_seq_ret_false {A} (m : M A) w : (bind m (λ _, ret false) w).1 ≠ ok true.
Proof.
  destruct (m w) as [[e|a] w'] eqn:Hm.
  - by rewrite (run_bind_throw _ _ _ _ _ Hm).
  - by rewrite (run_bind_ok _ _ _ _ _ Hm).
Qed.

Lemma run_argument_ret_false key data (h : string → M unit) w :
  (bind (lift (data_get key data))
     (λ v, bind (lift (as_str v)) (λ s, bind (h s) (λ _, ret false))) w).1 ≠ ok true.
Proof.
  destruct (data_get key data) as [e|v]; [by rewrite run_bind_lift_throw |].
  rewrite run_bind_lift_ok.
  destruct (as_str v) as [e|s]; [by rewrite run_bind_lift_throw |].
  rewrite run_bind_lift_ok. apply run_seq_ret_false.
Qed.

(** X19: the router asks for the end of the session for the command
    QUIT only, spelled in capitals, and then without touching the
    server state: whatever a handler does, returning or raising, the
    result of every other command is not True. *)
Theorem switch_command_quit_only (client_id writer command : string) (data : json)
    (w : World) :
  switch_command client_id writer "QUIT" data w = (ok true, w)
  ∧ ((switch_command client_id writer command data w).1 = ok true ↔ command = "QUIT").
Proof.
  split; [done |]. split; [| by intros ->].
  unfold switch_command. intros Hrun.
  repeat (case_decide; [by apply run_seq_ret_false in Hrun
                       || by apply run_argument_ret_false in Hrun || done |]).
  by apply run_seq_ret_false in Hrun.
Qed.

(** X20: a command that is none of create_room, join_room, start_game,
    make_guess, rematch and QUIT is answered with one error message
    that names the command as it was sent; the session goes on and the
    tables of the server are unchanged. *)
Theorem switch_command_unknown (client_id writer command : string) (data : json)
    (w : World) :
  command ∉ known_commands →
  ∃ w', switch_command client_id writer command data w = (ok false, w')
        ∧ same_tables w w'
        ∧ sent w w' [(writer, "error", error_message ("Unknown command: " +:+ command))].
Proof.
  intros Hnot. unfold switch_command.
  repeat match goal with
         | |- context [decide (command = ?c)] =>
             destruct (decide (command = c)) as [->|_];
             [exfalso; apply Hnot; unfold known_commands;
              repeat (first [by left | right]) |]
         end.
  destruct (send_message_run writer "error"
              (error_message ("Unknown command: " +:+ command)) w)
    as (w' & Hrun & Htab & Hsent).
  exists w'. by rewrite (run_bind_ok _ _ _ _ _ Hrun).
Qed.

Lemma switch_command_unknown_witness :
  ∃ w', switch_command "alice" "wa" "quit" (JObj []) (example_world room_started)
        = (ok false, w')
        ∧ same_tables (example_world room_started) w'
        ∧ sent (example_world room_started) w'
            [("wa", "error", error_message ("Unknown command: " +:+ "quit"))].
Proof.
  apply (switch_command_unknown "alice" "wa" "quit" (JObj []) (example_world room_started)).
  unfold known_commands. intros H.
  repeat (apply elem_of_cons in H as [H|H]; [discriminate H |]).
  by apply elem_of_nil in H.
Defined.

(** X21: join_room and make_guess sent without their argument, with an
    argument that is no string, or with data that is no object raise
    AttributeError before anything is done: the server state is
    unchanged and no message is sent by the router. *)
Theorem switch_command_missing_argument (client_id writer command key : string)
    (data : json) (w : World) :
  (command = "join_room" ∧ key = "room_code")
  ∨ (command = "make_guess" ∧ key = "guess") →
  (∀ fields, data = JObj fields → not_a_string (fields_get key fields)) →
  switch_command client_id writer command data w = (throw AttributeError, w).
Proof.
  intros Hcmd Hdata. unfold switch_command.
  assert (Harg : data_get key data = throw AttributeError
                 ∨ ∃ v, data_get key data = ok v ∧ as_str v = throw AttributeError).
  { destruct data as [| | | | | | |fields]; try by left.
    right. exists (fields_get key fields). split; [done |].
    specialize (Hdata fields eq_refl).
    by destruct (fields_get key fields) as [[]|]. }
  destruct Hcmd as [[-> ->]|[-> ->]]; simpl.
  - destruct Harg as [->|(v & -> & Hv)]; [by rewrite run_bind_lift_throw |].
    by rewrite run_bind_lift_ok, Hv, run_bind_lift_throw.
  - destruct Harg as [->|(v & -> & Hv)]; [by rewrite run_bind_lift_throw |].
    by rewrite run_bind_lift_ok, Hv, run_bind_lift_throw.
Qed.

Lemma switch_command_missing_argument_witness :
  switch_command "bob" "wb" "join_room" (JObj [("code", JStr "ABCDE")])
    (example_world room_waiting)
  = (throw AttributeError, example_world room_waiting).
Proof.
  apply (switch_command_missing_argument "bob" "wb" "join_room" "room_code").
  - left. split; reflexivity.
  - intros fields Hf. injection Hf as <-. exact I.
Defined.

(** ** Broadcasting *)

(** X22: a broadcast never raises and changes nothing but the outbox.
    Every message it sends has the given type and data and goes to the
    registered writer of a player of the room who is not the excluded
    client; every such writer gets it; for a code without a room
    nothing is sent. *)
Theorem broadcast_to_room_reaches (room_code ty : string) (data : json)
    (exclude_client : option string) (w : World) :
  ∃ w' hs,
    broadcast_to_room room_code ty data exclude_client w = (ok tt, w')
    ∧ same_tables w w'
    ∧ sent w w' hs
    ∧ ∀ writer ty' data',
        (writer, ty', data') ∈ hs
        ↔ ty' = ty ∧ data' = data
          ∧ ∃ room pid rc,
              dict_get room_code (game_rooms w) = Some room
              ∧ pid ∈ players room
              ∧ Some pid ≠ exclude_client
              ∧ ALL_CLIENTS w !! pid = Some (writer, rc).
Proof.
  destruct (dict_get room_code (game_rooms w)) as [room|] eqn:Hroom.
  - destruct (broadcast_to_room_run room_code ty data exclude_client w room Hroom)
      as (w' & Hrun & Htab & Hsent).
    eexists w', _. split; [done |]. split; [done |]. split; [exact Hsent |].
    intros writer ty' data'. rewrite list_elem_of_fmap. split.
    + intros (wr & Heq & Hwr). injection Heq as -> -> ->.
      apply elem_of_recipients in Hwr as (pid & rc & Hpid & Hex & Hc).
      split; [done |]. split; [done |]. by exists room, pid, rc.
    + intros (-> & -> & room' & pid & rc & Hroom' & Hpid & Hex & Hc).
      injection Hroom' as <-. exists writer. split; [done |].
      apply elem_of_recipients. by exists pid, rc.
  - exists w, []. unfold broadcast_to_room. rewrite run_bind_get_world, Hroom.
    split; [done |]. split; [apply same_tables_refl |]. split; [apply sent_refl |].
    intros writer ty' data'. split.
    + intros H. by apply elem_of_nil in H.
    + intros (_ & _ & room & pid & rc & Hroom' & _). done.
Qed.

(** ** Looking up the room of a client *)

(** X23: the lookup of a client's room returns the first room, in the
    order the codes were inserted, whose player list contains the
    client, so a client listed in several rooms acts on the oldest of
    them; it returns nothing exactly when no room lists the client. *)
Theorem get_player_room_first (client_id : string) (rooms : list (string * Room)) :
  match get_player_room client_id rooms with
  | Some (room_code, room) =>
      ∃ older newer,
        rooms = older ++ (room_code, room) :: newer
        ∧ client_id ∈ players room
        ∧ ∀ kv, kv ∈ older → client_id ∉ players kv.2
  | None => ∀ kv, kv ∈ rooms → client_id ∉ players kv.2
  end.
Proof.
  unfold get_player_room. induction rooms as [|[k r] rooms IH]; simpl.
  - intros kv H. by apply elem_of_nil in H.
  - destruct (bool_decide (client_id ∈ players r)) eqn:Hb.
    + apply bool_decide_eq_true in Hb. exists [], rooms. split; [done |].
      split; [done |]. intros kv H. by apply elem_of_nil in H.
    + apply bool_decide_eq_false in Hb.
      destruct (find _ rooms) as [[k' r']|].
      * destruct IH as (older & newer & -> & Hin & Hold).
        exists ((k, r) :: older), newer. split; [done |]. split; [done |].
        intros kv Hkv. apply elem_of_cons in Hkv as [->|Hkv]; [done | by apply Hold].
      * intros kv Hkv. apply elem_of_cons in Hkv as [->|Hkv]; [done | by apply IH].
Qed.

(** ** Room codes *)

Lemma random_choices_spec {A} (l : list A) k : ∀ w,
  l ≠ [] →
  ∃ xs n, random_choices l k w = (ok xs, set_rng_reads (λ _, n) w)
          ∧ length xs = k ∧ Forall (λ x, x ∈ l) xs.
Proof.
  induction k as [|k IH]; intros w Hl; simpl.
  - exists [], (rng_reads w). by rewrite set_rng_reads_id.
  - destruct (random_choice_run l w Hl) as (x & Hrun & Hx).
    rewrite (run_bind_ok _ _ _ _ _ Hrun).
    destruct (IH (set_rng_reads (λ _, S (rng_reads w)) w) Hl)
      as (xs & n & Hrun' & Hlen & Hall).
    rewrite (run_bind_ok _ _ _ _ _ Hrun'). exists (x :: xs), n.
    split; [done |]. split; [simpl; by rewrite Hlen | by constructor].
Qed.

Lemma ROOM_CODE_ALPHABET_plain :
  Forall (λ c, upper_char c = c ∧ py_isspace c = false) ROOM_CODE_ALPHABET.
Proof. unfold ROOM_CODE_ALPHABET. simpl. repeat (constructor; [by split |]). constructor. Qed.

Lemma upper_plain cs :
  Forall (λ c, upper_char c = c ∧ py_isspace c = false) cs →
  upper (string_of_list_ascii cs) = string_of_list_ascii cs.
Proof.
  induction 1 as [|c cs [Hc _] _ IH]; simpl; [done |]. by rewrite Hc, IH.
Qed.

Lemma rstrip_plain cs :
  Forall (λ c, upper_char c = c ∧ py_isspace c = false) cs →
  rstrip (string_of_list_ascii cs) = string_of_list_ascii cs.
Proof.
  induction 1 as [|c cs [_ Hc] _ IH]; simpl; [done |]. rewrite IH.
  destruct (string_of_list_ascii cs); [by rewrite Hc | done].
Qed.

Lemma strip_plain cs :
  Forall (λ c, upper_char c = c ∧ py_isspace c = false) cs →
  strip (string_of_list_ascii cs) = string_of_list_ascii cs.
Proof.
  intros Hcs. unfold strip. rewrite lstrip_id; [by apply rstrip_plain |].
  destruct Hcs as [|c cs [_ Hc] _]; simpl; done.
Qed.

Lemma generate_room_code_spec w :
  ∃ room_code n,
    generate_room_code w = (ok room_code, set_rng_reads (λ _, n) w)
    ∧ len room_code = 5
    ∧ Forall (λ c, c ∈ ROOM_CODE_ALPHABET) (chars room_code)
    ∧ strip (upper room_code) = room_code.
Proof.
  unfold generate_room_code.
  destruct (random_choices_spec ROOM_CODE_ALPHABET 5 w) as (cs & n & Hrun & Hlen & Hall);
    [done |].
  rewrite (run_bind_ok _ _ _ _ _ Hrun). exists (string_of_list_ascii cs), n.
  split; [done |]. unfold len, chars. rewrite list_ascii_of_string_of_list_ascii.
  split; [done |]. split; [done |].
  assert (Hplain : Forall (λ c, upper_char c = c ∧ py_isspace c = false) cs).
  { pose proof ROOM_CODE_ALPHABET_plain as Hab. rewrite Forall_forall in Hab.
    apply Forall_forall. intros c Hc. rewrite Forall_forall in Hall. by apply Hab, Hall. }
  by rewrite upper_plain, strip_plain.
Qed.

(** X24: a generated room code has five characters, all of them from
    the 32 capital letters and digits of the code alphabet, and is left
    unchanged by the normalization of join_room; generating it reads
    random numbers and changes nothing else. *)
Theorem generate_room_code_shape (w : World) :
  ∃ room_code n,
    generate_room_code w = (ok room_code, set_rng_reads (λ _, n) w)
    ∧ len room_code = 5
    ∧ Forall (λ c, c ∈ ROOM_CODE_ALPHABET) (chars room_code)
    ∧ strip (upper room_code) = room_code.
Proof.
  unfold generate_room_code.
  destruct (random_choices_spec ROOM_CODE_ALPHABET 5 w) as (cs & n & Hrun & Hlen & Hall);
    [done |].
  rewrite (run_bind_ok _ _ _ _ _ Hrun). exists (string_of_list_ascii cs), n.
  split; [done |]. unfold len, chars. rewrite list_ascii_of_string_of_list_ascii.
  split; [done |]. split; [done |].
  assert (Hplain : Forall (λ c, upper_char c = c ∧ py_isspace c = false) cs).
  { pose proof ROOM_CODE_ALPHABET_plain as Hab. rewrite Forall_forall in Hab.
    apply Forall_forall. intros c Hc. rewrite Forall_forall in Hall. by apply Hab, Hall. }
  by rewrite upper_plain, strip_plain.
Qed.

(** X25: the code sent to the creator of a room opens that room to a
    second client: after create_room, a join_room by a connected client
    with any text whose normalization is the code sent in room_created
    succeeds and leaves the room ready, with the creator as first and
    the joiner as second player and a secret from the word bank. *)
Theorem create_then_join (w : World) (creator joiner wc wj : string) :
  is_Some (ALL_CLIENTS w !! creator) →
  is_Some (ALL_CLIENTS w !! joiner) →
  ∃ room_code w1,
    handle_create_room creator wc w = (ok tt, w1)
    ∧ sent w w1 [(wc, "room_created", JObj [("room_code", JStr room_code)])]
    ∧ ∀ typed, strip (upper typed) = room_code →
        ∃ w2 room secret,
          handle_join_room joiner wj typed w1 = (ok tt, w2)
          ∧ dict_get room_code (game_rooms w2) = Some room
          ∧ players room = [creator; joiner]
          ∧ state room = ready
          ∧ secret ∈ WORD_BANK ∧ word room = upper secret.
Proof.
  intros [ec Hc] [ej Hj].
  destruct (handle_create_room_run w creator wc ec Hc)
    as (room_code & secret & w1 & Hrun1 & Hcode & Hbank & Hrooms1 & Hcl1 & _ & _ & _ & _
        & Hsent1).
  exists room_code, w1. split; [done |]. split; [done |].
  intros typed Htyped.
  assert (Hroom1 : dict_get (strip (upper typed)) (game_rooms w1)
                   = Some (new_room creator secret)).
  { by rewrite Htyped, Hrooms1, dict_get_set, decide_True. }
  assert (Hj1 : is_Some (ALL_CLIENTS w1 !! joiner)).
  { rewrite Hcl1, lookup_insert. case_decide; by eexists. }
  destruct Hj1 as [ej1 Hj1].
  destruct (handle_join_room_run w1 joiner wj typed (new_room creator secret) ej1 Hroom1)
    as (w2 & Hrun2 & Hrooms2 & _); [simpl; lia | done | done |].
  exists w2, (joined joiner (new_room creator secret)), secret.
  split; [done |]. rewrite Htyped in Hrooms2, Hroom1.
  split; [by rewrite Hrooms2, dict_get_update, decide_True, Hroom1 |]. done.
Qed.

Lemma create_then_join_witness :
  ∃ room_code w1,
    handle_create_room "alice" "wa" (example_world room_started) = (ok tt, w1)
    ∧ sent (example_world room_started) w1 [("wa", "room_created", JObj [("room_code", JStr room_code)])]
    ∧ ∀ typed, strip (upper typed) = room_code →
        ∃ w2 room secret,
          handle_join_room "bob" "wb" typed w1 = (ok tt, w2)
          ∧ dict_get room_code (game_rooms w2) = Some room
          ∧ players room = ["alice"; "bob"]
          ∧ state room = ready
          ∧ secret ∈ WORD_BANK ∧ word room = upper secret.
Proof.
  apply (create_then_join (example_world room_started) "alice" "bob" "wa" "wb");
    eexists; reflexivity.
Defined.

(** ** Disconnecting outside a room *)

(** X26: the cleanup of a client that is a player of no room only
    deregisters the client and closes its writer: no room, timer or
    task is touched and no message is sent. *)
Theorem cleanup_client_without_room (w : World) (client_id writer : string) :
  get_player_room client_id (game_rooms w) = None →
  ∃ w', cleanup_client client_id writer w = (ok tt, w')
        ∧ game_rooms w' = game_rooms w
        ∧ active_timers w' = active_timers w
        ∧ tasks w' = tasks w
        ∧ outbox w' = outbox w
        ∧ ALL_CLIENTS w' = delete client_id (ALL_CLIENTS w)
        ∧ closed w' = closed w ++ [writer].
Proof.
  intros Hfind. unfold cleanup_client. rewrite run_bind_get_world, Hfind.
  rewrite run_bind_ret, !run_bind_modify. eexists. split; [reflexivity |]. done.
Qed.

Lemma cleanup_client_without_room_witness :
  ∃ w', cleanup_client "carol" "wc" (example_world room_started) = (ok tt, w')
        ∧ game_rooms w' = game_rooms (example_world room_started)
        ∧ active_timers w' = active_timers (example_world room_started)
        ∧ tasks w' = tasks (example_world room_started)
        ∧ outbox w' = outbox (example_world room_started)
        ∧ ALL_CLIENTS w' = delete "carol" (ALL_CLIENTS (example_world room_started))
        ∧ closed w' = closed (example_world room_started) ++ ["wc"].
Proof.
  apply (cleanup_client_without_room (example_world room_started) "carol" "wc");
    reflexivity.
Defined.
